(** * Orca: orchestration scheduler, feature-request lifecycle and chat glue

    A shallow embedding of the JavaScript sources of the Orca repository
    (the orchestration agent, the orchestration database service, the
    feature-request tool, the feature and agent routes and the fallback
    intent classifier), followed by the properties proved about them.

    JavaScript objects are finite maps from property names to values,
    arrays are lists, [async] functions are computations in a state and
    exception monad over the external world (the Supabase store, the
    console, the two remote agents). *)

From Stdlib Require Import ZArith String Ascii List Bool Lia QArith.
From stdpp Require Import gmap strings list fin_maps pretty.

Set Warnings "-register-all".
Open Scope string_scope.

(* ===================================================================== *)
(** * JavaScript values and the string built-ins the sources use          *)
(* ===================================================================== *)

Module Js.

(** Values.  [VDate ms] is the ISO-8601 text that
    [new Date(ms).toISOString()] produces; [VNum n] is a finite number
    without a fraction and [VInf] is [Infinity], which [parseInt] gives
    for a run of digits past the range of the doubles. *)
Inductive JsVal :=
| VUndef
| VNull
| VBool (b : bool)
| VNum (n : Z)
| VStr (s : string)
| VDate (ms : Z)
| VInf
| VArr (xs : list JsVal)
| VObj (o : gmap string JsVal).

Abbreviation JsObj := (gmap string JsVal).

(** ToBoolean. *)
Definition truthy (v : JsVal) : bool :=
  match v with
  | VUndef | VNull => false
  | VBool b => b
  | VNum n => negb (n =? 0)%Z
  | VStr s => negb (String.eqb s "")
  | VDate _ | VInf | VArr _ | VObj _ => true
  end.

(** [a || b] *)
Definition jsOr (a b : JsVal) : JsVal := if truthy a then a else b.

(** Property read [o.k] on an object. *)
Definition get (o : JsObj) (k : string) : JsVal := default VUndef (o !! k).

(** Property read [v.k] on a primitive or object value that is neither
    [null] nor [undefined] (those throw, see [Eff.prop]). *)
Definition getv (v : JsVal) (k : string) : JsVal :=
  match v with
  | VObj o => get o k
  | _ => VUndef
  end.

(** Optional chaining [v?.k]. *)
Definition getOpt (v : JsVal) (k : string) : JsVal := getv v k.

(** ** Calendar text of an instant: [Date.prototype.toISOString] *)

Definition pad (width : nat) (n : Z) : string :=
  let s := pretty n in
  String.concat "" (replicate (width - String.length s) "0") ++ s.

(** Civil date of a day count since 1970-01-01 (proleptic Gregorian). *)
Definition civil_of_days (z : Z) : Z * Z * Z :=
  let z := (z + 719468)%Z in
  let era := (z / 146097)%Z in
  let doe := (z - era * 146097)%Z in
  let yoe := ((doe - doe / 1460 + doe / 36524 - doe / 146096) / 365)%Z in
  let y := (yoe + era * 400)%Z in
  let doy := (doe - (365 * yoe + yoe / 4 - yoe / 100))%Z in
  let mp := ((5 * doy + 2) / 153)%Z in
  let d := (doy - (153 * mp + 2) / 5 + 1)%Z in
  let m := (if (mp <? 10)%Z then mp + 3 else mp - 9)%Z in
  ((if (m <=? 2)%Z then y + 1 else y)%Z, m, d).

Definition toISOString (ms : Z) : string :=
  let days := (ms / 86400000)%Z in
  let rest := (ms mod 86400000)%Z in
  let '(y, m, d) := civil_of_days days in
  pad 4 y ++ "-" ++ pad 2 m ++ "-" ++ pad 2 d ++ "T"
    ++ pad 2 (rest / 3600000) ++ ":" ++ pad 2 (rest / 60000 mod 60) ++ ":"
    ++ pad 2 (rest / 1000 mod 60) ++ "." ++ pad 3 (rest mod 1000) ++ "Z".

(** ToString, as applied by template literals and [+]; an array joins
    its elements with commas, [null] and [undefined] counting as empty. *)
Fixpoint toStr (v : JsVal) : string :=
  match v with
  | VUndef => "undefined"
  | VNull => "null"
  | VBool true => "true"
  | VBool false => "false"
  | VNum n => pretty n
  | VStr s => s
  | VDate ms => toISOString ms
  | VInf => "Infinity"
  | VArr xs =>
      (fix join (l : list JsVal) : string :=
         let item x := match x with VUndef | VNull => "" | _ => toStr x end in
         match l with
         | [] => ""
         | [x] => item x
         | x :: l' => item x ++ "," ++ join l'
         end) xs
  | VObj _ => "[object Object]"
  end.

(** The text of an element inside [Array.prototype.join]. *)
Definition toItem (v : JsVal) : string :=
  match v with
  | VUndef | VNull => ""
  | _ => toStr v
  end.

(** What [JSON.stringify] makes of a value that is defined, read back:
    text and finite numbers travel as they are, [Infinity] travels as
    [null], and so does an undefined element of an array; an undefined
    member of an object is left out. *)
Fixpoint json (v : JsVal) : JsVal :=
  match v with
  | VInf => VNull
  | VArr xs =>
      VArr (map (fun x => match x with VUndef => VNull | _ => json x end) xs)
  | VObj o =>
      VObj (omap (fun x => match x with VUndef => None | _ => Some (json x) end) o)
  | _ => v
  end.

(** The members of an object as a request body carries them. *)
Definition wire (o : JsObj) : JsObj :=
  omap (fun x => match x with VUndef => None | _ => Some (json x) end) o.

(** ** Strings *)

(** [hay.includes(needle)] *)
Fixpoint includes (hay needle : string) : bool :=
  String.prefix needle hay ||
  match hay with
  | EmptyString => false
  | String _ rest => includes rest needle
  end.

Definition lower_ascii (c : ascii) : ascii :=
  let n := nat_of_ascii c in
  if (65 <=? n)%nat && (n <=? 90)%nat then ascii_of_nat (n + 32) else c.

(** [s.toLowerCase()] on ASCII text: the letters A-Z are folded.  A
    byte outside ASCII is kept as it is, so on a text with other
    letters the embedding gives the lower case of its ASCII letters
    only; [is_ascii_text] below marks the texts on which it is exact.
    (The two non-ASCII letters whose lower case contains an ASCII
    letter, U+212A and U+0130, cannot complete any keyword the sources
    search for.) *)
Fixpoint toLowerCase (s : string) : string :=
  match s with
  | EmptyString => EmptyString
  | String c rest => String (lower_ascii c) (toLowerCase rest)
  end.

Definition is_space (c : ascii) : bool :=
  let n := nat_of_ascii c in
  (n =? 32)%nat || ((9 <=? n)%nat && (n <=? 13)%nat).

Fixpoint trimStart (s : string) : string :=
  match s with
  | String c rest => if is_space c then trimStart rest else s
  | EmptyString => EmptyString
  end.

(** [s.trim()] on ASCII text: the white space removed is space, tab,
    line feed, vertical tab, form feed and carriage return. *)
Definition trim (s : string) : string :=
  String.rev (trimStart (String.rev (trimStart s))).

(** Text of ASCII characters only: on it, [toLowerCase] and [trim]
    above are the ones of JavaScript, whose other letters and white
    space all lie outside ASCII. *)
Definition is_ascii_text (s : string) : bool :=
  forallb (fun c => (nat_of_ascii c <? 128)%nat) (list_ascii_of_string s).

(** Splits [s] after its longest prefix of characters satisfying [p]. *)
Fixpoint span (p : ascii -> bool) (s : string) : string * string :=
  match s with
  | String c rest =>
      if p c then let '(a, b) := span p rest in (String c a, b)
      else (EmptyString, s)
  | EmptyString => (EmptyString, EmptyString)
  end.

Fixpoint strip_prefix (p s : string) : option string :=
  match p, s with
  | EmptyString, _ => Some s
  | String a p', String b s' =>
      if Ascii.eqb a b then strip_prefix p' s' else None
  | String _ _, EmptyString => None
  end.

Definition is_digit (c : ascii) : bool :=
  let n := nat_of_ascii c in (48 <=? n)%nat && (n <=? 57)%nat.

(** The natural number a string of decimal digits denotes. *)
Definition parseDigits (s : string) : Z :=
  fold_left (fun acc c => (10 * acc + Z.of_nat (nat_of_ascii c - 48))%Z)
            (list_ascii_of_string s) 0%Z.

(** The double nearest to a natural number: 53 significant bits, a tie
    going to the even mantissa; [None] past the largest double. *)
Definition nearestDouble (n : Z) : option Z :=
  let bits := (Z.log2 n + 1)%Z in
  if (bits <=? 53)%Z then Some n
  else
    let shift := (bits - 53)%Z in
    let mantissa := Z.shiftr n shift in
    let rest := Z.land n (Z.ones shift) in
    let half := Z.shiftl 1 (shift - 1) in
    let up := (half <? rest)%Z || ((rest =? half)%Z && Z.odd mantissa) in
    let rounded := Z.shiftl (if up then mantissa + 1 else mantissa)%Z shift in
    if (rounded <? 2 ^ 1024)%Z then Some rounded else None.

(** [parseInt(s)] on a non-empty string of decimal digits: the Number
    value of the integer the digits denote, rounded as Node rounds it,
    to the nearest double. *)
Definition parseInt (s : string) : JsVal :=
  match nearestDouble (parseDigits s) with
  | Some n => VNum n
  | None => VInf
  end.

(** The text [s] between double quotes. *)
Definition quoted (s : string) : string :=
  let dq := String (ascii_of_nat 34) EmptyString in dq ++ s ++ dq.

(** [xs.join(sep)] on strings. *)
Definition join (sep : string) (xs : list string) : string :=
  String.concat sep xs.

End Js.

(* ===================================================================== *)
(** * The external world and the monad of [async] code                    *)
(* ===================================================================== *)

Module Eff.
Import Js.

(** Outcome of running a piece of JavaScript: it returns a value or
    throws an [Error] (of which the sources only read [.message]). *)
Inductive Result (A : Type) : Type :=
| Ok (a : A)
| Throw (message : string).
Arguments Ok {A} a.
Arguments Throw {A} message.

Inductive Level := Log | Warn | Err.

(** What a run leaves behind besides the store contents: console lines
    and the write requests issued to the store (issued, whether or not
    the store then accepts them). *)
Inductive Event :=
| Console (lvl : Level) (args : list JsVal)
| DbUpdate (table : string) (id : JsVal) (data : JsObj)
| DbInsert (table : string) (row : JsObj)
| DbUpsert (table : string) (row : JsObj).

(** The Supabase project: one list of rows per table. *)
Record Store := {
  feature_requests : list JsObj;
  monitored_urls : list JsObj;
  github_repos : list JsObj;
  orchestration_deployments : list JsObj;
  developer_agent_logs : list JsObj;
  serial : nat                      (* source of generated primary keys *)
}.

(** The [error] member of a Supabase reply. *)
Record PgError := { pg_message : string; pg_code : string }.

(** The [{ data, error }] reply of the query client. *)
Record Reply (A : Type) := { data : option A; error : option PgError }.
Arguments data {A} _.
Arguments error {A} _.

(** Fields of the [OrchestrationAgent] singleton. *)
Record AgentState := {
  taskQueue : list JsObj;
  currentTaskIndex : nat;
  initialized : bool;
  database : bool;                  (* [this.database] is set *)
  developerAgent : bool;            (* [this.developerAgent] is set *)
  sessionId : string
}.

Record State := {
  agent : AgentState;
  db_initialized : bool;            (* database service [initialized] *)
  dev_connected : bool;             (* developer agent client [connected] *)
  dev_connecting : bool;            (* developer agent client [connecting] *)
  store : Store;
  db_round : nat;                   (* round trips to the store so far *)
  trace : list Event
}.

(** What the run cannot control: the clock, the environment variables,
    transport failures of the store, and the two remote agents. *)
Record Env := {
  now : Z;
  date_parse : string -> option Z;  (* Date.parse of a text; None for NaN *)
  credentials : bool;               (* SUPABASE_URL and SUPABASE_ANON_KEY set *)
  db_failure : nat -> option PgError; (* failure of the n-th round trip *)
  chat_post : JsObj -> Result JsVal;  (* axios.post to /api/agent/chat: response.data *)
  dev_connect : Result unit;          (* socket connection to the developer agent *)
  dev_reply : JsObj -> Result JsVal   (* reply to an implementation request *)
}.

Definition M (A : Type) : Type := Env -> State -> Result A * State.

#[export] Instance M_ret : MRet M := fun A a _ s => (Ok a, s).
#[export] Instance M_bind : MBind M := fun A B f m env s =>
  match m env s with
  | (Ok a, s') => f a env s'
  | (Throw e, s') => (Throw e, s')
  end.

#[export] Instance M_fmap : FMap M := fun A B f m env s =>
  match m env s with
  | (Ok a, s') => (Ok (f a), s')
  | (Throw e, s') => (Throw e, s')
  end.

Definition throw {A} (message : string) : M A := fun _ s => (Throw message, s).

(** [try { m } catch (error) { h error.message }] *)
Definition try_catch {A} (m : M A) (h : string -> M A) : M A := fun env s =>
  match m env s with
  | (Ok a, s') => (Ok a, s')
  | (Throw e, s') => h e env s'
  end.

Definition ask {A} (f : Env -> A) : M A := fun env s => (Ok (f env), s).
Definition gets {A} (f : State -> A) : M A := fun _ s => (Ok (f s), s).
Definition modify (f : State -> State) : M unit := fun _ s => (Ok tt, f s).

(** ** Field updates *)

Definition set_agent (f : AgentState -> AgentState) (s : State) : State :=
  {| agent := f (agent s); db_initialized := db_initialized s;
     dev_connected := dev_connected s;
     dev_connecting := dev_connecting s; store := store s;
     db_round := db_round s; trace := trace s |}.
Definition set_db_initialized (b : bool) (s : State) : State :=
  {| agent := agent s; db_initialized := b;
     dev_connected := dev_connected s;
     dev_connecting := dev_connecting s; store := store s;
     db_round := db_round s; trace := trace s |}.
Definition set_dev_connected (b : bool) (s : State) : State :=
  {| agent := agent s; db_initialized := db_initialized s;
     dev_connected := b; dev_connecting := dev_connecting s; store := store s;
     db_round := db_round s; trace := trace s |}.
Definition set_dev_connecting (b : bool) (s : State) : State :=
  {| agent := agent s; db_initialized := db_initialized s;
     dev_connected := dev_connected s; dev_connecting := b; store := store s;
     db_round := db_round s; trace := trace s |}.
Definition set_store (st : Store) (s : State) : State :=
  {| agent := agent s; db_initialized := db_initialized s;
     dev_connected := dev_connected s;
     dev_connecting := dev_connecting s; store := st;
     db_round := db_round s; trace := trace s |}.
Definition next_round (s : State) : State :=
  {| agent := agent s; db_initialized := db_initialized s;
     dev_connected := dev_connected s;
     dev_connecting := dev_connecting s; store := store s;
     db_round := S (db_round s); trace := trace s |}.
Definition emit (e : Event) (s : State) : State :=
  {| agent := agent s; db_initialized := db_initialized s;
     dev_connected := dev_connected s;
     dev_connecting := dev_connecting s; store := store s;
     db_round := db_round s; trace := trace s ++ [e] |}.

Definition set_taskQueue (q : list JsObj) (a : AgentState) : AgentState :=
  {| taskQueue := q; currentTaskIndex := currentTaskIndex a;
     initialized := initialized a; database := database a;
     developerAgent := developerAgent a; sessionId := sessionId a |}.
Definition set_currentTaskIndex (i : nat) (a : AgentState) : AgentState :=
  {| taskQueue := taskQueue a; currentTaskIndex := i;
     initialized := initialized a; database := database a;
     developerAgent := developerAgent a; sessionId := sessionId a |}.
Definition set_initialized (b : bool) (a : AgentState) : AgentState :=
  {| taskQueue := taskQueue a; currentTaskIndex := currentTaskIndex a;
     initialized := b; database := database a;
     developerAgent := developerAgent a; sessionId := sessionId a |}.
Definition set_database (b : bool) (a : AgentState) : AgentState :=
  {| taskQueue := taskQueue a; currentTaskIndex := currentTaskIndex a;
     initialized := initialized a; database := b;
     developerAgent := developerAgent a; sessionId := sessionId a |}.
Definition set_developerAgent (b : bool) (a : AgentState) : AgentState :=
  {| taskQueue := taskQueue a; currentTaskIndex := currentTaskIndex a;
     initialized := initialized a; database := database a;
     developerAgent := b; sessionId := sessionId a |}.

(** [console.log], [console.warn], [console.error] *)
Definition console (lvl : Level) (args : list JsVal) : M unit :=
  modify (emit (Console lvl args)).

(** ** Built-ins that can throw a [TypeError] *)

(** [v.k]: throws on [undefined] and [null]. *)
Definition prop (v : JsVal) (k : string) : M JsVal :=
  match v with
  | VUndef =>
      throw ("Cannot read properties of undefined (reading '" ++ k ++ "')")
  | VNull =>
      throw ("Cannot read properties of null (reading '" ++ k ++ "')")
  | _ => mret (getv v k)
  end.

(** A method of [String.prototype] called on [v]. *)
Definition asString (v : JsVal) (method : string) : M string :=
  match v with
  | VStr s => mret s
  | VDate ms => mret (toISOString ms)
  | VUndef =>
      throw ("Cannot read properties of undefined (reading '" ++ method ++ "')")
  | VNull =>
      throw ("Cannot read properties of null (reading '" ++ method ++ "')")
  | _ => throw (method ++ " is not a function")
  end.

(** [v.substring(0, n)] *)
Definition substring0 (v : JsVal) (n : nat) : M string :=
  s ← asString v "substring"; mret (String.substring 0 n s).

(** [for (const x of xs) { body x }] *)
Fixpoint forOf {A} (xs : list A) (body : A -> M unit) : M unit :=
  match xs with
  | [] => mret tt
  | x :: rest => body x;; forOf rest body
  end.

(** A [for .. of] loop that threads a local variable through its body. *)
Fixpoint forOfAcc {A B} (xs : list A) (acc : B) (body : B -> A -> M B) : M B :=
  match xs with
  | [] => mret acc
  | x :: rest => acc' ← body acc x; forOfAcc rest acc' body
  end.

End Eff.

(* ===================================================================== *)
(** * The store: how Supabase answers the requests the sources make      *)
(* ===================================================================== *)

Module Pg.
Import Js Eff.

Definition is_null (v : JsVal) : bool :=
  match v with VNull | VUndef => true | _ => false end.

(** The filter [.eq(column, value)]: the value travels as text; a null
    column equals nothing. *)
Definition col_eq (c v : JsVal) : bool :=
  negb (is_null c) && String.eqb (toStr c) (toStr v).

Definition eq_filter (column : string) (v : JsVal) (row : JsObj) : bool :=
  col_eq (get row column) v.

(** [UPDATE .. SET data]: the columns of [data], as the request body
    carries them, replace those of [row]. *)
Definition apply_update (data row : JsObj) : JsObj :=
  wire data ∪ row.

Definition no_single_row : PgError :=
  {| pg_message := "JSON object requested, multiple (or no) rows returned";
     pg_code := "PGRST116" |}.

(** [.update(data).eq('id', id).select().single()] on a table. *)
Definition update_single (tbl : list JsObj) (id : JsVal) (data : JsObj)
  : Reply JsObj * list JsObj :=
  match filter (fun row => Is_true (eq_filter "id" id row)) tbl with
  | [row] =>
      ({| data := Some (apply_update data row); error := None |},
       (fun r => if eq_filter "id" id r then apply_update data r else r) <$> tbl)
  | _ => ({| data := None; error := Some no_single_row |}, tbl)
  end.

(** Columns the store fills in on insert when the payload omits them. *)
Definition defaults (now : Z) (n : nat) : JsObj :=
  {[ "id" := VStr ("row-" ++ pretty n);
     "created_at" := VDate now;
     "updated_at" := VDate now ]}.

(** [ORDER BY]: ascending, nulls last, stable. *)
Definition sort_key (v : JsVal) : option Z :=
  match v with
  | VNum n | VDate n => Some n
  | _ => None
  end.

Definition key_lt (a b : option Z) : bool :=
  match a, b with
  | Some x, Some y => (x <? y)%Z
  | Some _, None => true
  | None, _ => false
  end.

(** [r1] may stay before [r2] under the ordering by [columns]. *)
Fixpoint row_le (columns : list string) (r1 r2 : JsObj) : bool :=
  match columns with
  | [] => true
  | c :: rest =>
      let k1 := sort_key (get r1 c) in
      let k2 := sort_key (get r2 c) in
      if key_lt k1 k2 then true
      else if key_lt k2 k1 then false
      else row_le rest r1 r2
  end.

Fixpoint insert_sorted (columns : list string) (r : JsObj) (l : list JsObj)
  : list JsObj :=
  match l with
  | [] => [r]
  | x :: rest =>
      if row_le columns x r then x :: insert_sorted columns r rest
      else r :: l
  end.

Definition order_by (columns : list string) (rows : list JsObj) : list JsObj :=
  foldr (fun r acc => insert_sorted columns r acc) [] rows.

(** Embedded resource (a joined table, all columns) reached through a
    foreign key. *)
Definition embed (tbl : list JsObj) (fk : JsVal) : JsVal :=
  match List.find (eq_filter "id" fk) tbl with
  | Some r => VObj r
  | None => VNull
  end.

(** The constraint [UNIQUE(feature_name, target_account)] of
    [feature_requests]. *)
Definition same_feature (a b : JsObj) : bool :=
  col_eq (get a "feature_name") (get b "feature_name")
  && col_eq (get a "target_account") (get b "target_account").

Definition unique_violation : PgError :=
  {| pg_message :=
       "duplicate key value violates unique constraint feature_requests_feature_name_target_account_key";
     pg_code := "23505" |}.

(** ** Store field updates *)

Definition set_feature_requests (t : list JsObj) (st : Store) : Store :=
  {| feature_requests := t; monitored_urls := monitored_urls st;
     github_repos := github_repos st;
     orchestration_deployments := orchestration_deployments st;
     developer_agent_logs := developer_agent_logs st; serial := serial st |}.
Definition set_monitored_urls (t : list JsObj) (st : Store) : Store :=
  {| feature_requests := feature_requests st; monitored_urls := t;
     github_repos := github_repos st;
     orchestration_deployments := orchestration_deployments st;
     developer_agent_logs := developer_agent_logs st; serial := serial st |}.
Definition set_orchestration_deployments (t : list JsObj) (st : Store) : Store :=
  {| feature_requests := feature_requests st;
     monitored_urls := monitored_urls st; github_repos := github_repos st;
     orchestration_deployments := t;
     developer_agent_logs := developer_agent_logs st; serial := serial st |}.
Definition set_developer_agent_logs (t : list JsObj) (st : Store) : Store :=
  {| feature_requests := feature_requests st;
     monitored_urls := monitored_urls st; github_repos := github_repos st;
     orchestration_deployments := orchestration_deployments st;
     developer_agent_logs := t; serial := serial st |}.
Definition next_serial (st : Store) : Store :=
  {| feature_requests := feature_requests st;
     monitored_urls := monitored_urls st; github_repos := github_repos st;
     orchestration_deployments := orchestration_deployments st;
     developer_agent_logs := developer_agent_logs st; serial := S (serial st) |}.

(** [.insert(row).select()] into [feature_requests]. *)
Definition insert_feature (now : Z) (row : JsObj) (st : Store)
  : Reply JsObj * Store :=
  if existsb (same_feature row) (feature_requests st)
  then ({| data := None; error := Some unique_violation |}, st)
  else
    let row' := row ∪ defaults now (serial st) in
    ({| data := Some row'; error := None |},
     next_serial (set_feature_requests (feature_requests st ++ [row']) st)).

(** [.upsert(row, { onConflict, ignoreDuplicates }).select()] into
    [feature_requests]: [INSERT .. ON CONFLICT (onConflict) DO UPDATE
    SET] every column of [row] ([DO NOTHING] when [ignoreDuplicates]).
    The conflict target has to name a unique constraint. *)
Definition upsert_feature (now : Z) (row : JsObj) (onConflict : string)
    (ignoreDuplicates : bool) (st : Store) : Reply (list JsObj) * Store :=
  if negb (String.eqb onConflict "feature_name,target_account")
  then ({| data := None;
           error := Some {| pg_message :=
             "there is no unique or exclusion constraint matching the ON CONFLICT specification";
             pg_code := "42P10" |} |}, st)
  else if existsb (same_feature row) (feature_requests st)
  then
    if ignoreDuplicates then ({| data := Some []; error := None |}, st)
    else
      let merged old := <["updated_at" := VDate now]> (row ∪ old) in
      let tbl := (fun old => if same_feature row old then merged old else old)
                   <$> feature_requests st in
      ({| data := Some (filter (fun r => Is_true (same_feature row r)) tbl);
          error := None |},
       set_feature_requests tbl st)
  else
    let row' := row ∪ defaults now (serial st) in
    ({| data := Some [row']; error := None |},
     next_serial (set_feature_requests (feature_requests st ++ [row']) st)).

(** One round trip of a Supabase client to the store. *)
Definition request {A} (q : Z -> Store -> Reply A * Store) : M (Reply A) :=
  fun env s =>
    let s1 := next_round s in
    match db_failure env (db_round s) with
    | Some e => (Ok {| data := None; error := Some e |}, s1)
    | None => let '(r, st) := q (now env) (store s) in (Ok r, set_store st s1)
    end.

End Pg.

(* ===================================================================== *)
(** * services/orchestrationDatabaseService.js                            *)
(* ===================================================================== *)

Module Db.
Import Js Eff Pg.

(** [initialize()] *)
Definition initialize : M unit :=
  try_catch
    (creds ← ask credentials;
     if negb creds
     then throw "Supabase credentials not found in environment variables"
     else
       modify (set_db_initialized true);;
       console Log [VStr "✅ Orchestration Database Service initialized"])
    (fun message =>
       console Err [VStr "❌ Failed to initialize Orchestration Database Service:";
                    VStr message];;
       throw message).

(** [if (!this.initialized) await this.initialize();] *)
Definition ensure_initialized : M unit :=
  ready ← gets db_initialized;
  if (ready : bool) then mret tt else initialize.

(** [if (error) throw error; return data || fallback;] *)
Definition unwrap {A} (fallback : A) (r : Reply A) : M A :=
  match error r with
  | Some e => throw (pg_message e)
  | None => mret (default fallback (data r))
  end.

(** The rows [getUrlsToCheck] selects. *)
Definition urlsToCheck (st : Store) : list JsObj :=
  filter (fun row => Is_true (eq_filter "status" (VStr "active") row))
         (monitored_urls st).

(** [getUrlsToCheck()] *)
Definition getUrlsToCheck : M (list JsObj) :=
  ensure_initialized;;
  r ← request (fun _ st => ({| data := Some (urlsToCheck st); error := None |}, st));
  unwrap [] r.

(** The filter [next_run_at.is.null,next_run_at.lt.<now>]. *)
Definition due (now : Z) (row : JsObj) : bool :=
  match get row "next_run_at" with
  | VNull | VUndef => true
  | VDate t => (t <? now)%Z
  | _ => false
  end.

(** The rows [getDeploymentsToRun] selects, with the two embedded
    resources. *)
Definition deploymentsToRun (now : Z) (st : Store) : list JsObj :=
  let rows :=
    filter (fun row => Is_true (eq_filter "status" (VStr "active") row && due now row))
           (orchestration_deployments st) in
  let joined row :=
    <["github_repos" := embed (github_repos st) (get row "github_repo_id")]>
      (<["monitored_urls" := embed (monitored_urls st) (get row "monitored_url_id")]>
         row) in
  joined <$> rows.

(** [getDeploymentsToRun()] *)
Definition getDeploymentsToRun : M (list JsObj) :=
  ensure_initialized;;
  r ← request (fun now st =>
         ({| data := Some (deploymentsToRun now st); error := None |}, st));
  unwrap [] r.

(** [updateUrlCheckStatus(urlId, status = 'checked')] *)
Definition updateUrlCheckStatus (urlId : JsVal) : M JsVal :=
  ensure_initialized;;
  t ← ask now;
  let updateData : JsObj :=
    {[ "last_checked_at" := VDate t; "updated_at" := VDate t ]} in
  modify (emit (DbUpdate "monitored_urls" urlId updateData));;
  r ← request (fun _ st =>
         let '(reply, tbl) := update_single (monitored_urls st) urlId updateData in
         (reply, set_monitored_urls tbl st));
  VObj <$> unwrap ∅ r.

(** [this.supabase.raw(sql)]: the client that [createClient] of
    supabase-js returns has no member [raw], so the call throws a
    [TypeError]. *)
Definition raw (sql : string) : M JsVal :=
  throw "this.supabase.raw is not a function".

(** [updateDeploymentRun(deploymentId, success = true, error = null)] *)
Definition updateDeploymentRun (deploymentId success error : JsVal) : M JsVal :=
  let success := match success with VUndef => VBool true | _ => success end in
  let error := match error with VUndef => VNull | _ => error end in
  ensure_initialized;;
  t ← ask now;
  run_count ← raw "run_count + 1";
  let updateData : JsObj :=
    {[ "last_run_at" := VDate t;
       "run_count" := run_count;
       "updated_at" := VDate t ]} in
  updateData ←
    (if truthy success
     then mret (<["next_run_at" := VDate (t + 2 * 60 * 1000)]> updateData)
     else
       error_count ← raw "error_count + 1";
       mret (<["last_error" := error]> (<["error_count" := error_count]> updateData)));
  modify (emit (DbUpdate "orchestration_deployments" deploymentId updateData));;
  r ← request (fun _ st =>
         let '(reply, tbl) :=
           update_single (orchestration_deployments st) deploymentId updateData in
         (reply, set_orchestration_deployments tbl st));
  VObj <$> unwrap ∅ r.

(** [getRequestedFeatureRequests()] *)
Definition getRequestedFeatureRequests : M (list JsObj) :=
  ensure_initialized;;
  r ← request (fun _ st =>
         ({| data := Some (order_by ["priority_order"; "created_at"]
               (filter (fun row => Is_true (eq_filter "status" (VStr "requested") row))
                       (feature_requests st)));
             error := None |}, st));
  unwrap [] r.

(** [status === text] *)
Definition is_str (v : JsVal) (text : string) : bool :=
  match v with
  | VStr s => String.eqb s text
  | _ => false
  end.

(** The object [updateData] that [updateFeatureRequestStatus] sends. *)
Definition updateFeatureRequestStatus_updateData (t : Z) (status : JsVal)
    (metadata : JsObj) : JsObj :=
  let updateData : JsObj :=
    {[ "status" := status; "updated_at" := VDate t ]} in
  let updateData :=
    if is_str status "pending" then
      let updateData := <["implementation_started_at" := VDate t]> updateData in
      if truthy (get metadata "assignedTo")
      then <["assigned_to" := get metadata "assignedTo"]> updateData
      else updateData
    else updateData in
  let updateData :=
    if is_str status "shipped" then
      let updateData := <["implementation_completed_at" := VDate t]> updateData in
      let updateData :=
        if truthy (get metadata "pullRequestUrl")
        then <["pull_request_url" := get metadata "pullRequestUrl"]> updateData
        else updateData in
      if truthy (get metadata "pullRequestNumber")
      then <["pull_request_number" := get metadata "pullRequestNumber"]> updateData
      else updateData
    else updateData in
  let updateData :=
    if is_str status "failed" then
      let updateData := <["implementation_failed_at" := VDate t]> updateData in
      if truthy (get metadata "error")
      then <["implementation_error" := get metadata "error"]> updateData
      else updateData
    else updateData in
  if (0 <? size metadata)%nat
  then <["implementation_metadata" := VObj metadata]> updateData
  else updateData.

(** [updateFeatureRequestStatus(featureId, status, metadata = {})] *)
Definition updateFeatureRequestStatus (featureId status : JsVal)
    (metadata : JsObj) : M JsVal :=
  ensure_initialized;;
  t ← ask now;
  let updateData := updateFeatureRequestStatus_updateData t status metadata in
  modify (emit (DbUpdate "feature_requests" featureId updateData));;
  r ← request (fun _ st =>
         let '(reply, tbl) := update_single (feature_requests st) featureId updateData in
         (reply, set_feature_requests tbl st));
  VObj <$> unwrap ∅ r.

(** [getPendingFeatureRequests()] *)
Definition getPendingFeatureRequests : M (list JsObj) :=
  ensure_initialized;;
  r ← request (fun _ st =>
         ({| data := Some (order_by ["implementation_started_at"]
               (filter (fun row => Is_true (eq_filter "status" (VStr "pending") row))
                       (feature_requests st)));
             error := None |}, st));
  unwrap [] r.

(** The row [logDeveloperAgentInteraction] inserts. *)
Definition log_row (t : Z) (interactionData : JsObj) : JsObj :=
  {[ "feature_request_id" := get interactionData "featureRequestId";
     "action" := get interactionData "action";
     "message_sent" := jsOr (get interactionData "messageSent") VNull;
     "response_received" := jsOr (get interactionData "responseReceived") VNull;
     "status" := get interactionData "status";
     "error_message" := jsOr (get interactionData "error") VNull;
     "metadata" := jsOr (get interactionData "metadata") (VObj ∅);
     "created_at" := VDate t ]}.

(** [logDeveloperAgentInteraction(interactionData)] *)
Definition logDeveloperAgentInteraction (interactionData : JsObj) : M JsVal :=
  ensure_initialized;;
  t ← ask now;
  let row := log_row t interactionData in
  modify (emit (DbInsert "developer_agent_logs" row));;
  r ← request (fun now st =>
         let row' := row ∪ defaults now (serial st) in
         ({| data := Some row'; error := None |},
          next_serial (set_developer_agent_logs (developer_agent_logs st ++ [row']) st)));
  match error r with
  | Some e =>
      console Warn [VStr "Failed to log developer agent interaction:";
                    VStr (pg_message e)];;
      mret VNull
  | None => mret (VObj (default ∅ (data r)))
  end.

(** The row [createFeatureRequest] inserts. *)
Definition createFeatureRequest_row (featureData : JsObj) : JsObj :=
  {[ "feature_name" := get featureData "feature_name";
     "description" := get featureData "description";
     "category" := jsOr (get featureData "category") (VStr "feature");
     "priority" := jsOr (get featureData "priority") (VStr "medium");
     "status" := VStr "requested";
     "requested_by_username" :=
       jsOr (get featureData "requested_by_username") (VStr "test-user");
     "target_account" := jsOr (get featureData "target_account") (VStr "test-account");
     "tweet_url" := jsOr (get featureData "tweet_url") (VStr "https://x.com/test/status/123");
     "reply_text" := jsOr (get featureData "reply_text") (VStr "Test feature request");
     "github_repo" := jsOr (get featureData "github_repo") VNull;
     "context_id" := jsOr (get featureData "context_id") VNull ]}.

(** [createFeatureRequest(featureData)] *)
Definition createFeatureRequest (featureData : JsObj) : M JsVal :=
  ensure_initialized;;
  let row := createFeatureRequest_row featureData in
  modify (emit (DbInsert "feature_requests" row));;
  r ← request (fun now st => insert_feature now row st);
  VObj <$> unwrap ∅ r.

End Db.

(* ===================================================================== *)
(** * services/orchestrationAgent.js: the developer-agent client          *)
(* ===================================================================== *)

Module DeveloperAgentClient.
Import Js Eff.

(** [connect()]: the socket handshake is the environment's; the
    [connecting] flag is set on the first attempt and never cleared. *)
Definition connect : M unit :=
  connected ← gets dev_connected;
  connecting ← gets dev_connecting;
  if (connected : bool) || connecting then mret tt
  else
    modify (set_dev_connecting true);;
    outcome ← ask dev_connect;
    match outcome with
    | Ok _ =>
        console Log [VStr "🔌 Connected to developer agent"];;
        modify (set_dev_connected true)
    | Throw message =>
        console Err [VStr "❌ Connection error:"; VStr message];;
        throw message
    end.

(** [implementFeature(featureRequest, timeout = 120000)]: resolves with
    the reply correlated to the request, or rejects (time-out). *)
Definition implementFeature (featureRequest : JsObj) : M JsVal :=
  connected ← gets dev_connected;
  (if (connected : bool) then mret tt else connect);;
  let repository := get featureRequest "github_repo" in
  if negb (truthy repository)
  then throw ("No GitHub repository URL found for feature request: "
              ++ toStr (get featureRequest "feature_name"))
  else
    outcome ← ask (fun env => dev_reply env featureRequest);
    match outcome with
    | Ok response => mret response
    | Throw message => throw message
    end.

Definition not_slash (c : ascii) : bool := negb (Ascii.eqb c "/"%char).

(** A match of
    [/https:\/\/github\.com\/[^\/]+\/[^\/]+\/pull\/(\d+)/]
    anchored at the start of [s]: the matched text and group 1. *)
Definition pr_url_at (s : string) : option (string * string) :=
  rest ← strip_prefix "https://github.com/" s;
  let '(owner, rest) := span not_slash rest in
  if String.eqb owner "" then None else
  rest ← strip_prefix "/" rest;
  let '(repo, rest) := span not_slash rest in
  if String.eqb repo "" then None else
  rest ← strip_prefix "/pull/" rest;
  let '(digits, _) := span is_digit rest in
  if String.eqb digits "" then None else
  Some ("https://github.com/" ++ owner ++ "/" ++ repo ++ "/pull/" ++ digits,
        digits).

(** [content.match(..)]: the leftmost match. *)
Fixpoint prUrlMatch (content : string) : option (string * string) :=
  match pr_url_at content with
  | Some m => Some m
  | None =>
      match content with
      | EmptyString => None
      | String _ rest => prUrlMatch rest
      end
  end.

(** [parseImplementationResponse(response)] *)
Definition parseImplementationResponse (response : JsVal) : M JsObj :=
  payload ← prop response "payload";
  let content := jsOr (getOpt payload "content") (VStr "") in
  let metadata := jsOr (getOpt payload "metadata") (VObj ∅) in
  text ← asString content "includes";
  let isSuccess := includes text "✅" && includes text "Implementation Complete" in
  let isError := includes text "❌" && includes text "Implementation Failed" in
  let prUrlMatch := prUrlMatch text in
  let pullRequestUrl :=
    match prUrlMatch with Some (url, _) => VStr url | None => VNull end in
  let pullRequestNumber :=
    match prUrlMatch with
    | Some (_, digits) => parseInt digits
    | None => VNull
    end in
  let filesModified := jsOr (getv metadata "filesModified") (VArr []) in
  mret ({[ "success" := VBool isSuccess;
           "error" := VBool isError;
           "pullRequestUrl" := pullRequestUrl;
           "pullRequestNumber" := pullRequestNumber;
           "filesModified" := filesModified;
           "content" := content;
           "metadata" := metadata ]} : JsObj).

End DeveloperAgentClient.

(* ===================================================================== *)
(** * services/orchestrationAgent.js: the scheduler                       *)
(* ===================================================================== *)

Module OrchestrationAgent.
Import Js Eff.

(** The task pushed for a row of [monitored_urls]. *)
Definition url_task (url : JsObj) : JsObj :=
  {[ "id" := VStr ("url-" ++ toStr (get url "id"));
     "message" := VStr ("Analyze this " ++ toStr (get url "url_type")
                        ++ " post for feature requests: " ++ toStr (get url "url"));
     "type" := VStr "url_analysis";
     "urlId" := get url "id";
     "url" := get url "url";
     "urlType" := get url "url_type";
     "priority" := get url "priority" ]}.

(** The task pushed for a deployment row, if it has a monitored url. *)
Definition deployment_task (deployment : JsObj) : option JsObj :=
  let monitored := get deployment "monitored_urls" in
  let repo := get deployment "github_repos" in
  if truthy (getOpt monitored "url") then
    Some {[ "id" := VStr ("deployment-" ++ toStr (get deployment "id"));
            "message" := VStr ("Monitor deployment: "
                               ++ toStr (get deployment "deployment_name")
                               ++ " - Check " ++ toStr (getv monitored "url"));
            "type" := VStr "deployment_monitoring";
            "deploymentId" := get deployment "id";
            "url" := getv monitored "url";
            "githubRepo" := VStr (toStr (getOpt repo "repo_owner") ++ "/"
                                  ++ toStr (getOpt repo "repo_name")) ]}
  else None.

(** The queue built by the two [forEach] loops of
    [loadTasksFromDatabase]. *)
Definition build_queue (urlsToCheck deployments : list JsObj) : list JsObj :=
  (url_task <$> urlsToCheck) ++ omap deployment_task deployments.

(** [this.database.method(..)] *)
Definition with_database {A} (method : string) (call : M A) : M A :=
  present ← gets (fun s => database (agent s));
  if (present : bool) then call
  else throw ("Cannot read properties of null (reading '" ++ method ++ "')").

(** [loadTasksFromDatabase()] *)
Definition loadTasksFromDatabase : M unit :=
  try_catch
    (urlsToCheck ← with_database "getUrlsToCheck" Db.getUrlsToCheck;
     deployments ← with_database "getDeploymentsToRun" Db.getDeploymentsToRun;
     let queue := build_queue urlsToCheck deployments in
     modify (set_agent (set_taskQueue queue));;
     console Log [VStr ("📝 Loaded " ++ pretty (length queue)
                        ++ " tasks from database")])
    (fun message =>
       console Err [VStr "❌ Failed to load tasks from database:"; VStr message];;
       console Log [VStr "📝 No fallback tasks - orchestration will wait for database tasks"]).

(** [setupDefaultTasks()] *)
Definition defaultTasks : list JsObj :=
  [ {[ "id" := VStr "monitor-1";
       "message" := VStr "Monitor recent trending tweets for feature requests";
       "type" := VStr "monitoring" ]};
    {[ "id" := VStr "analyze-1";
       "message" := VStr "What are people saying about this tweet: https://x.com/meetnpay/status/1937766635554976060";
       "type" := VStr "analysis" ]};
    {[ "id" := VStr "search-1";
       "message" := VStr "Find tweets about mobile app feature requests in the last hour";
       "type" := VStr "search" ]};
    {[ "id" := VStr "report-1";
       "message" := VStr "Generate a summary of all feature requests found today";
       "type" := VStr "reporting" ]} ].

Definition setupDefaultTasks : M unit :=
  modify (set_agent (set_taskQueue defaultTasks));;
  console Log [VStr "📝 Using default task queue"].

(** [initialize()] *)
Definition initialize : M unit :=
  try_catch
    (modify (set_agent (set_database true));;
     Db.initialize;;
     modify (set_agent (set_developerAgent true));;
     loadTasksFromDatabase;;
     modify (set_agent (set_initialized true));;
     console Log [VStr "🎯 Orchestration Agent initialized successfully with database"])
    (fun message =>
       console Err [VStr "❌ Failed to initialize Orchestration Agent:"; VStr message];;
       setupDefaultTasks;;
       modify (set_agent (set_initialized true))).

(** [addTask(task)] *)
Definition addTask (task : JsObj) : M unit :=
  t ← ask now;
  queue ← gets (fun s => taskQueue (agent s));
  modify (set_agent (set_taskQueue (queue ++ [
    {[ "id" := VStr ("task-" ++ pretty t);
       "message" := get task "message";
       "type" := jsOr (get task "type") (VStr "custom");
       "priority" := jsOr (get task "priority") (VStr "normal");
       "addedAt" := VDate t ]} ])));;
  head ← substring0 (get task "message") 50;
  console Log [VStr ("📝 Task added to queue: " ++ head ++ "...")].

(** [this.taskQueue[i]] *)
Definition nth_task (queue : list JsObj) (i : nat) : JsVal :=
  match queue !! i with
  | Some task => VObj task
  | None => VUndef
  end.

(** [getNextTask()] *)
Definition getNextTask : M JsVal :=
  queue ← gets (fun s => taskQueue (agent s));
  if (length queue =? 0)%nat then
    console Log [VStr "⚠️  No tasks in queue - waiting for database tasks to be loaded"];;
    mret VNull
  else
    i ← gets (fun s => currentTaskIndex (agent s));
    let task := nth_task queue i in
    modify (set_agent (set_currentTaskIndex ((i + 1) mod length queue)));;
    mret task.

(** [sendToAgent(message, taskId = null)] *)
Definition sendToAgent (message taskId : JsVal) : M JsObj :=
  let taskId := match taskId with VUndef => VNull | _ => taskId end in
  t ← ask now;
  session ← gets (fun s => sessionId (agent s));
  try_catch
    (let payload : JsObj :=
       {[ "message" := message;
          "sessionId" := VStr session;
          "orchestratorTask" := taskId;
          "timestamp" := VDate t ]} in
     head ← substring0 message 100;
     console Log [VStr ("🚀 Orchestrator sending to agent: " ++ head ++ "...")];;
     outcome ← ask (fun env => chat_post env payload);
     response_data ← match outcome with
                      | Ok d => mret d
                      | Throw e => throw e
                      end;
     console Log [VStr ("✅ Agent response received for task " ++ toStr taskId)];;
     r1 ← prop response_data "response";
     r2 ← prop response_data "message";
     let responseText := jsOr r1 (jsOr r2 (VStr "No response text")) in
     shown ← substring0 responseText 200;
     console Log [VStr ("📊 Response: " ++ shown ++ "...")];;
     mret ({[ "success" := VBool true;
              "taskId" := taskId;
              "request" := message;
              "response" := response_data;
              "timestamp" := VDate t ]} : JsObj))
    (fun error_message =>
       console Err [VStr "❌ Failed to send message to agent:"; VStr error_message];;
       mret ({[ "success" := VBool false;
                "taskId" := taskId;
                "request" := message;
                "error" := VStr error_message;
                "timestamp" := VDate t ]} : JsObj)).

Definition minutes : Z := 1000 * 60.

(** The largest time value of a [Date]. *)
Definition maxTime : Z := 8640000000000000.

(** [new Date(v).getTime()]; [None] is an invalid date.  A number is a
    time value when it is in range; a text is read by [Date.parse]
    ([parse]), the text of a timestamp giving its instant; an array or
    an object is read as its text. *)
Definition dateOf (parse : string -> option Z) (v : JsVal) : option Z :=
  match v with
  | VDate t => Some t
  | VNum t => if (Z.abs t <=? maxTime)%Z then Some t else None
  | VNull | VBool false => Some 0%Z
  | VBool true => Some 1%Z
  | VStr text => parse text
  | VArr _ | VObj _ => parse (toStr v)
  | VUndef | VInf => None
  end.

(** [minutesPending > 10], with [minutesPending = (now - startedAt) /
    (1000 * 60)], the division cleared. *)
Definition pendingTooLong (t : Z) (startedAt : option Z) : bool :=
  match startedAt with
  | Some t0 => (10 * minutes <? t - t0)%Z
  | None => false
  end.

(** [Math.round((now - startedAt) / (1000 * 60))] *)
Definition roundedMinutes (t t0 : Z) : Z :=
  ((2 * (t - t0) + minutes) / (2 * minutes))%Z.

(** [this.developerAgent.method(..)] *)
Definition with_developerAgent {A} (method : string) (call : M A) : M A :=
  present ← gets (fun s => developerAgent (agent s));
  if (present : bool) then call
  else throw ("Cannot read properties of null (reading '" ++ method ++ "')").

(** The part of the loop body of [processRequestedFeatureRequests] that
    follows the reply [result] of the developer agent. *)
Definition handleReply (implementedCount : nat) (feature : JsObj) (result : JsVal)
  : M nat :=
  let name := toStr (get feature "feature_name") in
  let id := get feature "id" in
  parsedResult ← with_developerAgent "parseImplementationResponse"
                   (DeveloperAgentClient.parseImplementationResponse result);
  if truthy (get parsedResult "success") then
    with_database "updateFeatureRequestStatus"
      (Db.updateFeatureRequestStatus id (VStr "shipped")
         {[ "pullRequestUrl" := get parsedResult "pullRequestUrl";
            "pullRequestNumber" := get parsedResult "pullRequestNumber" ]});;
    with_database "logDeveloperAgentInteraction"
      (Db.logDeveloperAgentInteraction
         {[ "featureRequestId" := id;
            "action" := VStr "receive_response";
            "responseReceived" := get parsedResult "content";
            "status" := VStr "success";
            "metadata" := VObj
              {[ "pullRequestUrl" := get parsedResult "pullRequestUrl";
                 "filesModified" := get parsedResult "filesModified" ]} ]});;
    console Log [VStr ("✅ Feature " ++ quoted name
                       ++ " implemented successfully - PR: "
                       ++ toStr (getv result "pullRequestUrl"))];;
    mret (S implementedCount)
  else if truthy (get parsedResult "error") then
    with_database "updateFeatureRequestStatus"
      (Db.updateFeatureRequestStatus id (VStr "failed")
         {[ "error" := get parsedResult "content" ]});;
    console Log [VStr ("❌ Feature " ++ quoted name ++ " implementation failed: "
                       ++ toStr (getv result "content"))];;
    mret implementedCount
  else
    console Log [VStr ("⏳ Feature " ++ quoted name
                       ++ " is still being processed by developer agent")];;
    mret implementedCount.

(** Body of the [for] loop of [processRequestedFeatureRequests]. *)
Definition implementOne (implementedCount : nat) (feature : JsObj) : M nat :=
  let name := toStr (get feature "feature_name") in
  let id := get feature "id" in
  try_catch
    (console Log [VStr ("🔨 Implementing feature: " ++ quoted name
                        ++ " (ID: " ++ toStr id ++ ")")];;
     with_database "updateFeatureRequestStatus"
       (Db.updateFeatureRequestStatus id (VStr "pending")
          {[ "assignedTo" := VStr "developer-agent" ]});;
     with_database "logDeveloperAgentInteraction"
       (Db.logDeveloperAgentInteraction
          {[ "featureRequestId" := id;
             "action" := VStr "send_request";
             "messageSent" := VStr ("implement " ++ name);
             "status" := VStr "pending" ]});;
     result ← with_developerAgent "implementFeature"
                (DeveloperAgentClient.implementFeature feature);
     handleReply implementedCount feature result)
    (fun message =>
       console Err [VStr ("❌ Error implementing feature " ++ quoted name ++ ":");
                    VStr message];;
       with_database "updateFeatureRequestStatus"
         (Db.updateFeatureRequestStatus id (VStr "failed")
            {[ "error" := VStr message ]});;
       with_database "logDeveloperAgentInteraction"
         (Db.logDeveloperAgentInteraction
            {[ "featureRequestId" := id;
               "action" := VStr "error";
               "status" := VStr "error";
               "error" := VStr message ]});;
       mret implementedCount).

(** [processRequestedFeatureRequests()] *)
Definition processRequestedFeatureRequests : M unit :=
  try_catch
    (requestedFeatures ← with_database "getRequestedFeatureRequests"
                           Db.getRequestedFeatureRequests;
     if (length requestedFeatures =? 0)%nat then
       console Log [VStr "📝 No requested feature requests found"]
     else
       console Log [VStr ("🎯 Processing " ++ pretty (length requestedFeatures)
                          ++ " requested feature requests")];;
       implementedCount ← forOfAcc requestedFeatures 0%nat implementOne;
       console Log [VStr ("🚀 " ++ pretty implementedCount
                          ++ " features implemented successfully")])
    (fun message =>
       console Err [VStr "❌ Error processing requested feature requests:";
                    VStr message]).

(** Body of the [for] loop of [checkPendingFeatureRequests]. *)
Definition checkOne (feature : JsObj) : M unit :=
  parse ← ask date_parse;
  let startedAt := dateOf parse (get feature "implementation_started_at") in
  t ← ask now;
  if pendingTooLong t startedAt then
    console Log [VStr ("⚠️ Feature " ++ quoted (toStr (get feature "feature_name"))
                       ++ " has been pending for "
                       ++ pretty (roundedMinutes t (default 0%Z startedAt))
                       ++ " minutes")]
  else mret tt.

(** [checkPendingFeatureRequests()] *)
Definition checkPendingFeatureRequests : M unit :=
  try_catch
    (pendingFeatures ← with_database "getPendingFeatureRequests"
                         Db.getPendingFeatureRequests;
     if (length pendingFeatures =? 0)%nat then mret tt
     else
       console Log [VStr ("🔍 Checking " ++ pretty (length pendingFeatures)
                          ++ " pending feature requests for updates")];;
       forOf pendingFeatures (fun feature =>
         try_catch (checkOne feature)
           (fun message =>
              console Err [VStr ("❌ Error checking pending feature "
                                 ++ toStr (get feature "id") ++ ":");
                           VStr message])))
    (fun message =>
       console Err [VStr "❌ Error checking pending feature requests:";
                    VStr message]).

(** [updateDatabaseAfterExecution(task, result)] *)
Definition updateDatabaseAfterExecution (task result : JsObj) : M unit :=
  present ← gets (fun s => database (agent s));
  if negb present then mret tt
  else
    try_catch
      ((if Db.is_str (get task "type") "url_analysis" && truthy (get task "urlId")
        then Db.updateUrlCheckStatus (get task "urlId");; mret tt
        else mret tt);;
       (if Db.is_str (get task "type") "deployment_monitoring"
           && truthy (get task "deploymentId")
        then Db.updateDeploymentRun (get task "deploymentId")
               (get result "success") (jsOr (get result "error") VNull);;
             mret tt
        else mret tt))
      (fun message =>
         console Err [VStr "❌ Failed to update database:"; VStr message]).

(** [v.length]; the length of a string is counted on its UTF-8 text. *)
Definition lengthOf (v : JsVal) : M JsVal :=
  match v with
  | VStr s => mret (VNum (Z.of_nat (String.length s)))
  | VArr xs => mret (VNum (Z.of_nat (length xs)))
  | VUndef => throw "Cannot read properties of undefined (reading 'length')"
  | VNull => throw "Cannot read properties of null (reading 'length')"
  | VObj o => mret (get o "length")
  | _ => mret VUndef
  end.

(** [logInteraction(result)]; the second argument of [console.log] is
    the entry that [JSON.stringify] renders. *)
Definition logInteraction (result : JsObj) : M unit :=
  requestLength ← lengthOf (get result "request");
  responseLength ←
    (if truthy (get result "success")
     then r ← prop (get result "response") "response";
          lengthOf (jsOr r (VStr ""))
     else mret (VNum 0));
  let logEntry : JsObj :=
    {[ "timestamp" := get result "timestamp";
       "taskId" := get result "taskId";
       "success" := get result "success";
       "requestLength" := requestLength;
       "responseLength" := responseLength;
       "error" := jsOr (get result "error") VNull ]} in
  console Log [VStr "📝 Interaction logged:"; VObj logEntry].

(** [processAgentResponse(result)] *)
Definition processAgentResponse (result : JsObj) : M unit :=
  if negb (truthy (get result "success")) then
    console Log [VStr "⚠️  Agent request failed, will retry in next cycle"]
  else
    r1 ← prop (get result "response") "response";
    r2 ← prop (get result "response") "message";
    let response := jsOr r1 (jsOr r2 (VStr "")) in
    text ← asString response "toLowerCase";
    let lowered := toLowerCase text in
    (if includes lowered "feature request" || includes lowered "saved to database"
     then console Log [VStr "🎯 Feature requests detected in response"]
     else mret tt);;
    (if includes lowered "error" || includes lowered "failed"
     then console Log [VStr "⚠️  Error detected in agent response"]
     else mret tt).

(** What [executeOrchestrationCycle] does with the selected task. *)
Definition dispatch (task : JsVal) : M unit :=
  type ← prop task "type";
  console Log [VStr ("🎭 Orchestration Cycle - Executing: " ++ toStr type ++ " task")];;
  id ← prop task "id";
  console Log [VStr ("📋 Task ID: " ++ toStr id)];;
  message ← prop task "message";
  result ← sendToAgent message id;
  updateDatabaseAfterExecution (match task with VObj o => o | _ => ∅ end) result;;
  logInteraction result;;
  processAgentResponse result.

(** Steps 1 to 3 of the cycle and the selection of the task. *)
Definition select : M JsVal :=
  processRequestedFeatureRequests;;
  checkPendingFeatureRequests;;
  loadTasksFromDatabase;;
  getNextTask.

(** [executeOrchestrationCycle()] *)
Definition executeOrchestrationCycle : M unit :=
  ready ← gets (fun s => initialized (agent s));
  (if (ready : bool) then mret tt else initialize);;
  try_catch
    (task ← select;
     if negb (truthy task) then
       console Log [VStr "⏳ Orchestration Cycle - No tasks available, trying to reload from database..."];;
       loadTasksFromDatabase
     else dispatch task)
    (fun message =>
       console Err [VStr "❌ Orchestration cycle failed:"; VStr message]).

End OrchestrationAgent.

(* ===================================================================== *)
(** * tools/featureRequestTool.js                                         *)
(* ===================================================================== *)

Module FeatureRequestTool.
Import Js Eff.

(** [keywords[featureName] || []] of [isFeatureRelated]: [keywords] is
    an object literal, so the two lower-case names it inherits resolve
    to values without a [some] method. *)
Definition relatedKeywords (featureName : string) : Result (list string) :=
  if String.eqb featureName "dark mode" then Ok ["dark"; "theme"; "night"; "mode"]
  else if String.eqb featureName "responsive"
    then Ok ["responsive"; "mobile"; "tablet"; "device"]
  else if String.eqb featureName "notification"
    then Ok ["notification"; "alert"; "notify"]
  else if String.eqb featureName "search" then Ok ["search"; "find"; "filter"]
  else if String.eqb featureName "authentication"
    then Ok ["auth"; "login"; "signup"; "account"]
  else if String.eqb featureName "constructor" || String.eqb featureName "__proto__"
    then Throw "relatedKeywords.some is not a function"
  else Ok [].

(** [isFeatureRelated(replyText, featureName)] *)
Definition isFeatureRelated (replyText featureName : string) : M bool :=
  match relatedKeywords featureName with
  | Ok keywords => mret (existsb (includes replyText) keywords)
  | Throw message => throw message
  end.

(** The values a [for .. of] loop draws from [v]. *)
Definition iterate (name : string) (v : JsVal) : M (list JsVal) :=
  match v with
  | VArr xs => mret xs
  | VStr s => mret ((fun c => VStr (String c EmptyString)) <$> list_ascii_of_string s)
  | _ => throw (name ++ " is not iterable")
  end.

Fixpoint firstMention (featureName : string) (replies : list JsVal)
  : M (option JsVal) :=
  match replies with
  | [] => mret None
  | reply :: rest =>
      text ← prop reply "text";
      replyText ← toLowerCase <$> asString text "toLowerCase";
      if includes replyText featureName then mret (Some reply)
      else
        related ← isFeatureRelated replyText featureName;
        if (related : bool) then mret (Some reply)
        else firstMention featureName rest
  end.

(** [findRequestingUser(feature, replies)] *)
Definition findRequestingUser (feature replies : JsVal) : M JsVal :=
  name ← prop feature "name";
  featureName ← toLowerCase <$> asString name "toLowerCase";
  items ← iterate "replies" replies;
  found ← firstMention featureName items;
  match found with
  | Some reply => mret reply
  | None =>
      mret (jsOr (match replies with
                  | VArr (first :: _) => first
                  | VStr (String c _) => VStr (String c EmptyString)
                  | _ => VUndef
                  end)
                 (VObj {[ "username" := VStr "unknown";
                          "text" := VStr "Feature request detected" ]}))
  end.

(** [getFeatureCount(targetAccount)] *)
Definition getFeatureCount (targetAccount : JsVal) : M JsVal :=
  r ← Pg.request (fun _ st =>
         ({| data := Some (length (filter
               (fun row => Is_true (Pg.eq_filter "target_account" targetAccount row))
               (feature_requests st)));
             error := None |}, st));
  match error r with
  | Some _ => mret (VStr "unknown")
  | None => mret (match data r with
                  | Some n => VNum (Z.of_nat n)
                  | None => VNull
                  end)
  end.

(** The row built for one entry of [features]. *)
Definition featureRequest (feature requestingUser tweetUrl targetAccount : JsVal)
  : M JsObj :=
  name ← prop feature "name";
  lowered ← toLowerCase <$> asString name "toLowerCase";
  username ← prop requestingUser "username";
  text ← prop requestingUser "text";
  mret ({[ "feature_name" := VStr (trim lowered);
           "description" := jsOr (getv feature "description")
                                 (VStr ("User requested " ++ toStr name));
           "category" := jsOr (getv feature "category") (VStr "feature");
           "priority" := jsOr (getv feature "priority") (VStr "medium");
           "requested_by_username" := username;
           "tweet_url" := tweetUrl;
           "target_account" := targetAccount;
           "reply_text" := text;
           "status" := VStr "requested" ]} : JsObj).

(** Body of the loop over [features]: the lists [savedFeatures] and
    [errors] are threaded through. *)
Definition saveOne (tweetUrl targetAccount replies : JsVal)
    (acc : list JsVal * list string) (feature : JsVal)
  : M (list JsVal * list string) :=
  let '(savedFeatures, errors) := acc in
  try_catch
    (requestingUser ← findRequestingUser feature replies;
     row ← featureRequest feature requestingUser tweetUrl targetAccount;
     modify (emit (DbUpsert "feature_requests" row));;
     r ← Pg.request (fun now st =>
            Pg.upsert_feature now row "feature_name,target_account" false st);
     match error r with
     | Some e =>
         if String.eqb (pg_code e) "23505"
         then mret (savedFeatures,
                    app errors ["Feature " ++ quoted (toStr (getv feature "name"))
                                ++ " already exists for " ++ toStr targetAccount])
         else mret (savedFeatures,
                    app errors ["Error saving " ++ quoted (toStr (getv feature "name"))
                                ++ ": " ++ pg_message e])
     | None => mret (app savedFeatures [getv feature "name"], errors)
     end)
    (fun message =>
       name ← prop feature "name";
       mret (savedFeatures,
             app errors ["Error processing " ++ quoted (toStr name) ++ ": " ++ message])).

Definition newline : string := String (ascii_of_nat 10) EmptyString.

Section Call.
(** [JSON.parse] *)
Variable JSON_parse : string -> Result JsVal.

(** [_call(input)] *)
Definition _call (input : string) : M string :=
  try_catch
    (configured ← ask credentials;
     if negb configured then
       mret "Feature request tracking is disabled. Please configure Supabase credentials."
     else
       match JSON_parse input with
       | Throw message =>
           mret ("Error parsing input JSON: " ++ message
                 ++ ". Expected format: features array, tweetUrl string, targetAccount string, replies array")
       | Ok data =>
           features ← prop data "features";
           let tweetUrl := getv data "tweetUrl" in
           let targetAccount := getv data "targetAccount" in
           let replies := getv data "replies" in
           match features with
           | VArr ((_ :: _) as items) =>
               '(savedFeatures, errors) ←
                 forOfAcc items ([], []) (saveOne tweetUrl targetAccount replies);
               let response :=
                 if (0 <? length savedFeatures)%nat
                 then "✅ Successfully saved " ++ pretty (length savedFeatures)
                      ++ " feature request(s): "
                      ++ join ", " (toItem <$> savedFeatures) ++ newline
                 else "" in
               let response :=
                 if (0 <? length errors)%nat
                 then response ++ "⚠️ Issues encountered: " ++ join "; " errors
                      ++ newline
                 else response in
               count ← getFeatureCount targetAccount;
               mret (response ++ "📊 Total features tracked for "
                     ++ toStr targetAccount ++ ": " ++ toStr count)
           | _ => mret "No features found to save."
           end
       end)
    (fun message => mret ("Error saving feature requests: " ++ message)).
End Call.

End FeatureRequestTool.

(* ===================================================================== *)
(** * routes/features.js                                                  *)
(* ===================================================================== *)

Module FeaturesRoute.
Import Js Eff.

(** What the handler sends: [res.status(code).json(body)]. *)
Record Response := { code : nat; body : JsObj }.

Definition failure (status : nat) (message : string) : Response :=
  {| code := status;
     body := {[ "success" := VBool false;
                "error" := VObj {[ "message" := VStr message ]} ]} |}.

(** The values the validator of [PUT /:id/status] lists. *)
Definition allowedStatuses : list string :=
  ["requested"; "developing"; "pr_raised"; "shipped"].

Definition validationFailed : Response :=
  {| code := 400;
     body := {[ "success" := VBool false;
                "error" := VObj {[ "message" := VStr "Validation failed" ]} ]} |}.

Definition notConfigured : Response :=
  failure 503 "Feature request tracking is not configured. Please set SUPABASE_URL and SUPABASE_ANON_KEY environment variables.".

(** [typeof v === 'string'] *)
Definition isString (v : JsVal) : bool :=
  match v with
  | VStr _ => true
  | _ => false
  end.

(** [.optional()]: a field that is undefined is not validated. *)
Definition optional (validator : JsVal -> bool) (v : JsVal) : bool :=
  match v with
  | VUndef => true
  | _ => validator v
  end.

(** [.optional().isString()]: [isString] is a custom validator, run on
    the value as it is. *)
Definition optionalString : JsVal -> bool := optional isString.

Section Handlers.
(** The text the validation library makes of a value before it runs a
    standard validator on it (its [toString]). *)
Variable stringify : JsVal -> string.
(** [isURL] of the validation library. *)
Variable isURL : string -> bool.

(** A standard validator of the library: it runs on the text of the
    value or, when the value is an array, on the text of each of its
    elements, and the field passes when no run fails. *)
Definition standard (check : string -> bool) (v : JsVal) : bool :=
  match v with
  | VArr items => forallb (fun item => check (stringify item)) items
  | _ => check (stringify v)
  end.

(** [body(field).isIn(values)] *)
Definition isIn (values : list string) : JsVal -> bool :=
  standard (fun text => existsb (String.eqb text) values).

(** [body(field).notEmpty()] *)
Definition notEmpty : JsVal -> bool :=
  standard (fun text => negb (String.eqb text "")).

(** [.optional().isURL()] *)
Definition optionalURL : JsVal -> bool := optional (standard isURL).

(** [.optional().isIn(values)] *)
Definition optionalIn (values : list string) : JsVal -> bool :=
  optional (isIn values).

(** The object [updateData] of [PUT /:id/status]. *)
Definition putStatus_updateData (req_body : JsObj) : JsObj :=
  let updateData : JsObj := {[ "status" := get req_body "status" ]} in
  let updateData :=
    match get req_body "assigned_to" with
    | VUndef => updateData
    | v => <["assigned_to" := v]> updateData
    end in
  match get req_body "github_issue_url" with
  | VUndef => updateData
  | v => <["github_issue_url" := v]> updateData
  end.

(** [PUT /api/features/:id/status]; a thrown error reaches the error
    middleware through [next(error)]. *)
Definition putStatus (id : JsVal) (req_body : JsObj) : M Response :=
  configured ← ask credentials;
  if negb configured then mret notConfigured
  else if negb (isIn allowedStatuses (get req_body "status")
                && optionalString (get req_body "assigned_to")
                && optionalURL (get req_body "github_issue_url"))
  then mret validationFailed
  else
    let updateData := putStatus_updateData req_body in
    modify (emit (DbUpdate "feature_requests" id updateData));;
    r ← Pg.request (fun now st =>
           let hit := Pg.eq_filter "id" id in
           let write row := <["updated_at" := VDate now]> (Pg.apply_update updateData row) in
           let tbl := (fun row => if hit row then write row else row)
                        <$> feature_requests st in
           ({| data := Some (filter (fun row => Is_true (hit row)) tbl);
               error := None |},
            Pg.set_feature_requests tbl st));
    match error r with
    | Some e => throw (pg_message e)
    | None =>
        match data r with
        | Some (row :: _) =>
            mret {| code := 200;
                    body := {[ "success" := VBool true;
                               "data" := VObj
                                 {[ "feature" := VObj row;
                                    "message" := VStr ("Feature status updated to: "
                                       ++ toStr (get req_body "status")) ]} ]} |}
        | _ => mret (failure 404 "Feature request not found")
        end
    end.

(** The row [POST /api/features] inserts. *)
Definition postFeature_row (req_body : JsObj) : M JsObj :=
  name ← asString (get req_body "feature_name") "toLowerCase";
  mret ({[ "feature_name" := VStr (trim (toLowerCase name));
           "description" := jsOr (get req_body "description")
                                 (VStr ("Manually created feature: " ++ name));
           "category" := jsOr (get req_body "category") (VStr "feature");
           "priority" := jsOr (get req_body "priority") (VStr "medium");
           "requested_by_username" := get req_body "requested_by_username";
           "target_account" := get req_body "target_account";
           "tweet_url" := jsOr (get req_body "tweet_url") (VStr "");
           "reply_text" := jsOr (get req_body "reply_text") (VStr "Manually created");
           "status" := VStr "requested" ]} : JsObj).

(** [POST /api/features] *)
Definition postFeature (req_body : JsObj) : M Response :=
  configured ← ask credentials;
  if negb configured then mret notConfigured
  else if negb (notEmpty (get req_body "feature_name")
                && notEmpty (get req_body "target_account")
                && notEmpty (get req_body "requested_by_username")
                && optionalString (get req_body "description")
                && optionalIn ["feature"; "ui"; "bug"; "enhancement"]
                              (get req_body "category")
                && optionalIn ["low"; "medium"; "high"; "critical"]
                              (get req_body "priority"))
  then mret validationFailed
  else
    row ← postFeature_row req_body;
    modify (emit (DbInsert "feature_requests" row));;
    r ← Pg.request (fun now st => Pg.insert_feature now row st);
    match error r with
    | Some e =>
        if String.eqb (pg_code e) "23505"
        then mret (failure 409
                     ("Feature " ++ quoted (toStr (get req_body "feature_name"))
                      ++ " already exists for "
                      ++ toStr (get req_body "target_account")))
        else throw (pg_message e)
    | None =>
        mret {| code := 201;
                body := {[ "success" := VBool true;
                           "data" := VObj
                             {[ "feature" := VObj (default ∅ (data r));
                                "message" := VStr "Feature request created successfully" ]} ]} |}
    end.
End Handlers.

End FeaturesRoute.

(* ===================================================================== *)
(** * routes/agent.js: the chat endpoint and its session table            *)
(* ===================================================================== *)

Module AgentRoute.
Import Js Eff.

Record Message := { role : string; content : JsVal; timestamp : Z }.

Record Session := {
  id : string;
  history : list Message;
  createdAt : Z;
  lastActivity : Z
}.

(** What the handler does with the request. *)
Inductive Outcome :=
| Sent (status : nat) (sessionId : string) (response : JsVal) (messageCount : Q)
| Rejected (status : nat)        (* validation failed *)
| Next (message : string).       (* [next(error)] *)

(** [history.slice(-n)] *)
Definition slice_last {A} (n : nat) (l : list A) : list A :=
  drop (length l - n) l.

Section Chat.
(** [validationResult(req).isEmpty()] for the validators of the route. *)
Variable valid : JsObj -> bool.
(** [agent.processMessage(message, history)]: its [response] member,
    or the error it throws. *)
Variable processMessage : JsVal -> list Message -> Result JsVal.
(** [generateSessionId()] *)
Variable generateSessionId : Z -> string.

(** [POST /api/agent/chat] at time [t], on the table [userSessions]. *)
Definition chat (t : Z) (req_body : JsObj) (userSessions : gmap string Session)
  : Outcome * gmap string Session :=
  if negb (valid req_body) then (Rejected 400, userSessions)
  else
    let message := get req_body "message" in
    let sessionId := get req_body "sessionId" in
    let currentSessionId :=
      if truthy sessionId then toStr sessionId else generateSessionId t in
    let session :=
      match userSessions !! currentSessionId with
      | Some session => session
      | None => {| id := currentSessionId; history := [];
                   createdAt := t; lastActivity := t |}
      end in
    let session :=
      {| id := id session; history := history session;
         createdAt := createdAt session; lastActivity := t |} in
    let userSessions := <[currentSessionId := session]> userSessions in
    match processMessage message (history session) with
    | Throw e => (Next e, userSessions)
    | Ok response =>
        let pushed :=
          app (history session)
            [ {| role := "user"; content := message; timestamp := t |};
              {| role := "assistant"; content := response; timestamp := t |} ] in
        let kept :=
          if (20 <? length pushed)%nat then slice_last 20 pushed else pushed in
        let session :=
          {| id := id session; history := kept;
             createdAt := createdAt session; lastActivity := t |} in
        (Sent 200 currentSessionId response (Z.of_nat (length kept) # 2),
         <[currentSessionId := session]> userSessions)
    end.

(** [POST /api/agent/reset] *)
Definition reset (t : Z) (sessionId : string) (userSessions : gmap string Session)
  : gmap string Session :=
  match userSessions !! sessionId with
  | Some session =>
      <[sessionId := {| id := id session; history := [];
                        createdAt := createdAt session; lastActivity := t |}]>
        userSessions
  | None => userSessions
  end.

(** The hourly sweep. *)
Definition cleanup (t : Z) (userSessions : gmap string Session)
  : gmap string Session :=
  filter (fun kv => ¬ (lastActivity kv.2 < t - 60 * 60 * 1000)%Z) userSessions.
End Chat.

End AgentRoute.

(* ===================================================================== *)
(** * services/orchestrationChatService.js: the fallback classifier       *)
(* ===================================================================== *)

Module OrchestrationChatService.
Import Js.

Record Intent := { type : string; confidence : Q }.

(** [fallbackIntentParsing(message)] *)
Definition fallbackIntentParsing (message : string) : Intent :=
  let lowerMessage := toLowerCase message in
  if includes lowerMessage "deploy"
     || (includes lowerMessage "github" && includes lowerMessage "monitor")
  then {| type := "deploy"; confidence := 0.6 |}
  else if includes lowerMessage "status" || includes lowerMessage "deployment"
  then {| type := "status"; confidence := 0.6 |}
  else if includes lowerMessage "feature" || includes lowerMessage "request"
  then {| type := "feature_query"; confidence := 0.6 |}
  else if includes lowerMessage "config" || includes lowerMessage "setting"
  then {| type := "config"; confidence := 0.6 |}
  else if includes lowerMessage "help" || includes lowerMessage "how"
  then {| type := "help"; confidence := 0.6 |}
  else {| type := "general"; confidence := 0.4 |}.

End OrchestrationChatService.

(* ===================================================================== *)
(** * Notions used to state the properties                                *)
(* ===================================================================== *)

Module Runs.
Import Js Eff.

(** [n] successive calls of [getNextTask], collecting what they return. *)
Fixpoint calls (n : nat) : M (list JsVal) :=
  match n with
  | 0 => mret []
  | S k =>
      task ← OrchestrationAgent.getNextTask;
      later ← calls k;
      mret (task :: later)
  end.

(** The elements a round-robin walk of [queue] visits in [n] steps
    from index [i]. *)
Fixpoint walk (queue : list JsObj) (i n : nat) : list JsVal :=
  match n with
  | 0 => []
  | S k =>
      OrchestrationAgent.nth_task queue i
        :: walk queue ((i + 1) mod length queue) k
  end.

(** The n-th round trip to the store goes through. *)
Definition reachable (env : Env) (n : nat) : bool :=
  match db_failure env n with
  | None => true
  | Some _ => false
  end.

(** [loadTasksFromDatabase] gets both of its lists. *)
Definition load_succeeds (env : Env) (s : State) : bool :=
  database (agent s) && (db_initialized s || credentials env)
  && reachable env (db_round s) && reachable env (S (db_round s)).

(** Every run of [m] takes a state to one related to it by [R]. *)
Definition keeps (R : State -> State -> Prop) {A} (m : M A) : Prop :=
  forall env s, R s (m env s).2.

(** [m] never throws. *)
Definition total {A} (m : M A) : Prop :=
  forall env s, exists a s', m env s = (Ok a, s').

End Runs.

(* ===================================================================== *)
(** * Sample worlds                                                       *)
(* ===================================================================== *)

Module Sample.
Import Js Eff.

Definition taskA : JsObj :=
  {[ "id" := VStr "A"; "message" := VStr "task A"; "type" := VStr "monitoring" ]}.
Definition taskB : JsObj :=
  {[ "id" := VStr "B"; "message" := VStr "task B"; "type" := VStr "analysis" ]}.
Definition taskC : JsObj :=
  {[ "id" := VStr "C"; "message" := VStr "task C"; "type" := VStr "search" ]}.

Definition repo1 : JsObj :=
  {[ "id" := VStr "r1"; "repo_owner" := VStr "acme"; "repo_name" := VStr "web";
     "repo_url" := VStr "https://github.com/acme/web" ]}.

Definition url1 : JsObj :=
  {[ "id" := VStr "u1"; "url" := VStr "https://x.com/acme/status/1";
     "url_type" := VStr "twitter"; "priority" := VStr "medium";
     "status" := VStr "paused" ]}.

Definition deployment1 : JsObj :=
  {[ "id" := VStr "d1"; "deployment_name" := VStr "acme web";
     "github_repo_id" := VStr "r1"; "monitored_url_id" := VStr "u1";
     "status" := VStr "active"; "next_run_at" := VNull;
     "run_count" := VNum 4; "error_count" := VNum 1; "last_error" := VNull ]}.

Definition darkMode : JsObj :=
  {[ "id" := VStr "f1"; "feature_name" := VStr "dark mode";
     "description" := VStr "Users want a dark theme";
     "target_account" := VStr "acme"; "requested_by_username" := VStr "ann";
     "status" := VStr "shipped"; "priority" := VStr "high";
     "github_repo" := VStr "https://github.com/acme/web";
     "created_at" := VDate 1749000000000; "updated_at" := VDate 1749000000000 ]}.

(** A feature request waiting to be implemented. *)
Definition exportCsv : JsObj :=
  {[ "id" := VStr "f2"; "feature_name" := VStr "export";
     "target_account" := VStr "acme"; "requested_by_username" := VStr "bob";
     "status" := VStr "requested"; "priority" := VStr "medium";
     "github_repo" := VStr "https://github.com/acme/web";
     "created_at" := VDate 1749500000000; "updated_at" := VDate 1749500000000 ]}.

Definition store0 : Store :=
  {| feature_requests := [darkMode];
     monitored_urls := [url1];
     github_repos := [repo1];
     orchestration_deployments := [deployment1];
     developer_agent_logs := [];
     serial := 7 |}.

(** A request the developer agent took on 26 minutes and 40 seconds
    before the clock of [env0] and has not answered; its start is the
    text the store returns for the timestamp. *)
Definition stuck : JsObj :=
  {[ "id" := VStr "f3"; "feature_name" := VStr "search";
     "target_account" := VStr "acme"; "requested_by_username" := VStr "cyd";
     "status" := VStr "pending"; "priority" := VStr "low";
     "github_repo" := VStr "https://github.com/acme/web";
     "implementation_started_at" := VStr "2025-06-15T14:40:00+00:00" ]}.

(** The same store with the request for an export added. *)
Definition store1 : Store :=
  {| feature_requests := [darkMode; exportCsv];
     monitored_urls := [url1];
     github_repos := [repo1];
     orchestration_deployments := [deployment1];
     developer_agent_logs := [];
     serial := 7 |}.

(** [Date.parse] on the one timestamp text the sample rows hold. *)
Definition date_parse0 (text : string) : option Z :=
  if String.eqb text "2025-06-15T14:40:00+00:00" then Some 1749998400000%Z
  else None.

(** The first store with the stuck request added. *)
Definition store2 : Store :=
  {| feature_requests := [darkMode; stuck];
     monitored_urls := [url1];
     github_repos := [repo1];
     orchestration_deployments := [deployment1];
     developer_agent_logs := [];
     serial := 7 |}.

(** The reply of the developer agent in [env0]. *)
Definition undecided : JsVal :=
  VObj {[ "payload" := VObj {[ "content" := VStr "Working on it" ]} ]}.

(** A world whose chat agent times out and whose developer agent
    answers without a verdict. *)
Definition env0 : Env :=
  {| now := 1750000000000;
     date_parse := date_parse0;
     credentials := true;
     db_failure := fun _ => None;
     chat_post := fun _ => Throw "timeout of 30000ms exceeded";
     dev_connect := Ok tt;
     dev_reply := fun _ => Ok undecided |}.

Definition state0 (queue : list JsObj) (index : nat) (st : Store) : State :=
  {| agent := {| taskQueue := queue; currentTaskIndex := index;
                 initialized := true; database := true;
                 developerAgent := true;
                 sessionId := "orchestrator-1750000000000" |};
     db_initialized := true;
     dev_connected := true;
     dev_connecting := true;
     store := st;
     db_round := 0;
     trace := [] |}.

End Sample.

Module Writes.
Import Js Eff.

(** Requests that change the store. *)
Definition is_write (e : Event) : bool :=
  match e with
  | Console _ _ => false
  | _ => true
  end.

(** The write requests issued on the way from state [s] to state [s']. *)
Definition issued (s s' : State) : list Event :=
  List.filter is_write (drop (length (trace s)) (trace s')).

(** The statuses the claimed invariant names. *)
Definition lifecycleStatuses : list string :=
  ["requested"; "pending"; "shipped"; "failed"; "rejected"].

(** The same set with the two further values the status route accepts. *)
Definition writtenStatuses : list string :=
  app lifecycleStatuses ["developing"; "pr_raised"].

(** The value a write request puts in the [status] column of
    [feature_requests], if it sets that column. *)
Definition written_status (e : Event) : option JsVal :=
  match e with
  | DbUpdate table _ payload | DbInsert table payload | DbUpsert table payload =>
      if String.eqb table "feature_requests" then payload !! "status" else None
  | Console _ _ => None
  end.

(** A request that, if it writes a feature request's status, writes one
    of [allowed]. *)
Definition writes_status_in (allowed : list string) (e : Event) : Prop :=
  match written_status e with
  | Some v => exists status, v = VStr status /\ In status allowed
  | None => True
  end.

(** A request that, if it writes a feature request's status, writes a
    value for which [good] holds. *)
Definition writes_status (good : JsVal -> Prop) (e : Event) : Prop :=
  match written_status e with
  | Some v => good v
  | None => True
  end.

(** A status that, when it is a text, is one of [allowed]. *)
Definition text_in (allowed : list string) (v : JsVal) : Prop :=
  forall status, v = VStr status -> In status allowed.

(** From [s] to [s'] the trace only grew, by events satisfying [ok]. *)
Definition extends (ok : Event -> Prop) (s s' : State) : Prop :=
  exists evs, trace s' = app (trace s) evs /\ Forall ok evs.

End Writes.


Module ClassifierTable.
Import Js OrchestrationChatService.

(** The keyword table of the classifier as the specification reads it:
    the intents in the order they are tried, each with its alternatives;
    an alternative is a group of keywords that all have to occur in the
    lower-cased message. *)
Definition keywordTable : list (string * list (list string)) :=
  [ ("deploy", [["deploy"]; ["github"; "monitor"]]);
    ("status", [["status"]; ["deployment"]]);
    ("feature_query", [["feature"]; ["request"]]);
    ("config", [["config"]; ["setting"]]);
    ("help", [["help"]; ["how"]]) ].

Definition matches (lowered : string) (entry : string * list (list string)) : bool :=
  existsb (forallb (includes lowered)) entry.2.

(** First matching intent with confidence 0.6, else 'general' with 0.4. *)
Definition classify (message : string) : Intent :=
  match List.find (matches (toLowerCase message)) keywordTable with
  | Some entry => {| type := entry.1; confidence := 0.6 |}
  | None => {| type := "general"; confidence := 0.4 |}
  end.

End ClassifierTable.

Module Sessions.
Import Js Eff AgentRoute.

(** The requests that touch the session table of routes/agent.js. *)
Inductive Request :=
| Chat (t : Z) (req_body : JsObj)
| Reset (t : Z) (sessionId : string)
| Sweep (t : Z).

Section Serve.
Variable valid : JsObj -> bool.
Variable processMessage : JsVal -> list Message -> Result JsVal.
Variable generateSessionId : Z -> string.

Definition handle (userSessions : gmap string Session) (request : Request)
  : gmap string Session :=
  match request with
  | Chat t req_body =>
      (chat valid processMessage generateSessionId t req_body userSessions).2
  | Reset t sessionId => reset t sessionId userSessions
  | Sweep t => cleanup t userSessions
  end.

(** The table after the server handled [requests], oldest first. *)
Definition serve (requests : list Request) (userSessions : gmap string Session)
  : gmap string Session :=
  fold_left handle requests userSessions.
End Serve.

(** The history of a session before a request, empty if there is none. *)
Definition historyOf (userSessions : gmap string Session) (sessionId : string)
  : list Message :=
  match userSessions !! sessionId with
  | Some session => history session
  | None => []
  end.

(** No session holds more than 20 messages. *)
Definition capped (userSessions : gmap string Session) : Prop :=
  map_Forall (fun _ session => length (history session) <= 20) userSessions.

(** A session that already holds 20 messages. *)
Definition fullSessions : gmap string Session :=
  {[ "s1" := {| id := "s1";
                history := replicate 20 {| role := "user"; content := VStr "hi";
                                           timestamp := 1 |};
                createdAt := 1; lastActivity := 1 |} ]}.

End Sessions.


Module ToolSample.
Import Js Eff.




End ToolSample.


Module Verdict.
Import Js Eff.

(** The text [parseImplementationResponse] searches:
    [response.payload?.content || '']. *)
Definition contentOf (response : JsVal) : JsVal :=
  jsOr (getOpt (getv response "payload") "content") (VStr "").

(** The success marker: a check mark together with 'Implementation
    Complete'. *)
Definition successMarker (text : string) : bool :=
  includes text "✅" && includes text "Implementation Complete".

(** The failure marker: a cross together with 'Implementation Failed'. *)
Definition failureMarker (text : string) : bool :=
  includes text "❌" && includes text "Implementation Failed".

(** The line the sweep over pending requests logs at time [t] for a
    request that was started at [t0]. *)
Definition pendingLine (feature : JsObj) (t t0 : Z) : Event :=
  Console Log
    [VStr ("⚠️ Feature " ++ quoted (toStr (get feature "feature_name"))
           ++ " has been pending for "
           ++ pretty (OrchestrationAgent.roundedMinutes t t0) ++ " minutes")].

(** The lines the sweep logs for [features], in their order: one for
    each request whose start lies more than ten minutes back. *)
Definition warnings (env : Env) (features : list JsObj) : list Event :=
  omap (fun feature =>
          match OrchestrationAgent.dateOf (date_parse env)
                  (get feature "implementation_started_at") with
          | Some t0 =>
              if (10 * (1000 * 60) <? now env - t0)%Z
              then Some (pendingLine feature (now env) t0)
              else None
          | None => None
          end) features.

(** From [s] to [s'] the store kept its contents and nothing but
    console lines was emitted. *)
Definition quiet (s s' : State) : Prop :=
  store s' = store s /\
  Writes.extends (fun e => Writes.is_write e = false) s s'.

End Verdict.


(* ===================================================================== *)
(** * [parseDeploymentCommand] of the database service                    *)
(* ===================================================================== *)

Module DeploymentCommand.
Import Js.

(** A prefix of [s] that equals [p] up to the case of the letters A-Z
    (the [i] flag of a regular expression on a literal): the prefix as
    it stands in [s], and what follows it. *)
Fixpoint strip_prefix_ci (p s : string) : option (string * string) :=
  match p, s with
  | EmptyString, _ => Some (EmptyString, s)
  | String a p', String b s' =>
      if Ascii.eqb (lower_ascii a) (lower_ascii b)
      then match strip_prefix_ci p' s' with
           | Some (m, rest) => Some (String b m, rest)
           | None => None
           end
      else None
  | String _ _, EmptyString => None
  end.

Definition is_letter (c : ascii) : bool :=
  let n := nat_of_ascii c in
  ((65 <=? n)%nat && (n <=? 90)%nat) || ((97 <=? n)%nat && (n <=? 122)%nat).

(** [\w] *)
Definition is_word (c : ascii) : bool :=
  is_letter c || is_digit c || Ascii.eqb c "_"%char.

(** [[a-zA-Z0-9-_]] *)
Definition is_repo_char (c : ascii) : bool :=
  is_letter c || is_digit c || Ascii.eqb c "-"%char || Ascii.eqb c "_"%char.

(** [a | b] on matchers: the first alternative that matches. *)
Definition orelse {A} (a b : option A) : option A :=
  match a with
  | Some x => Some x
  | None => b
  end.

(** [([a-zA-Z0-9-_]+\/[a-zA-Z0-9-_]+)] at the start of [s]. *)
Definition repo_at (s : string) : option string :=
  let '(owner, rest) := span is_repo_char s in
  if String.eqb owner "" then None else
  match strip_prefix "/" rest with
  | Some rest =>
      let '(name, _) := span is_repo_char rest in
      if String.eqb name "" then None else Some (owner ++ "/" ++ name)
  | None => None
  end.

(** A match of
    [/(?:github\.com\/|gh:)([a-zA-Z0-9-_]+\/[a-zA-Z0-9-_]+)/i]
    anchored at the start of [s]: the matched text and group 1. *)
Definition github_at (s : string) : option (string * string) :=
  let after (found : option (string * string)) :=
    match found with
    | Some (lead, rest) =>
        match repo_at rest with
        | Some repo => Some (lead ++ repo, repo)
        | None => None
        end
    | None => None
    end in
  orelse (after (strip_prefix_ci "github.com/" s)) (after (strip_prefix_ci "gh:" s)).

(** What follows [https?] in
    [/(https?:\/\/(?:twitter\.com|x\.com)\/\w+\/status\/\d+)/i]. *)
Definition status_url_after (s : string) : option string :=
  match strip_prefix_ci "://" s with
  | Some (colon, rest) =>
      match orelse (strip_prefix_ci "twitter.com" rest) (strip_prefix_ci "x.com" rest) with
      | Some (host, rest) =>
          match strip_prefix "/" rest with
          | Some rest =>
              let '(user, rest) := span is_word rest in
              if String.eqb user "" then None else
              match strip_prefix_ci "/status/" rest with
              | Some (status, rest) =>
                  let '(digits, _) := span is_digit rest in
                  if String.eqb digits "" then None
                  else Some (colon ++ host ++ "/" ++ user ++ status ++ digits)
              | None => None
              end
          | None => None
          end
      | None => None
      end
  | None => None
  end.

(** A match of the status-url expression anchored at the start of [s]. *)
Definition twitter_at (s : string) : option string :=
  match strip_prefix_ci "http" s with
  | Some (http, rest) =>
      let with_s :=
        match strip_prefix_ci "s" rest with
        | Some (letter, rest') =>
            match status_url_after rest' with
            | Some tail => Some (http ++ letter ++ tail)
            | None => None
            end
        | None => None
        end in
      let without_s :=
        match status_url_after rest with
        | Some tail => Some (http ++ tail)
        | None => None
        end in
      orelse with_s without_s
  | None => None
  end.

(** [text.match(re)] without the [g] flag: the leftmost match. *)
Fixpoint first_match {A} (at_start : string -> option A) (text : string) : option A :=
  match at_start text with
  | Some m => Some m
  | None =>
      match text with
      | EmptyString => None
      | String _ rest => first_match at_start rest
      end
  end.

(** [text.split('/')] *)
Fixpoint split_slash (text : string) : list string :=
  match text with
  | EmptyString => [EmptyString]
  | String c rest =>
      if Ascii.eqb c "/"%char then EmptyString :: split_slash rest
      else match split_slash rest with
           | piece :: pieces => String c piece :: pieces
           | [] => [String c EmptyString]
           end
  end.

(** [pieces[i]] *)
Definition piece (pieces : list string) (i : nat) : JsVal :=
  match pieces !! i with
  | Some text => VStr text
  | None => VUndef
  end.

(** [parseDeploymentCommand(message)], on the text of a message.  A
    match array is rendered by its elements. *)
Definition parseDeploymentCommand (message : string) : JsObj :=
  let githubMatch := first_match github_at message in
  let twitterMatch := first_match twitter_at message in
  {[ "githubRepo" :=
       match githubMatch with
       | Some (_, repo) =>
           VObj {[ "fullName" := VStr repo;
                   "owner" := piece (split_slash repo) 0;
                   "name" := piece (split_slash repo) 1 ]}
       | None => VNull
       end;
     "twitterUrl" :=
       match twitterMatch with
       | Some url => VStr url
       | None => VNull
       end;
     "isDeployCommand" :=
       if includes (toLowerCase message) "deploy"
       then match githubMatch, twitterMatch with
            | Some (matched, repo), _ => VArr [VStr matched; VStr repo]
            | None, Some url => VArr [VStr url; VStr url]
            | None, None => VNull
            end
       else VBool false ]}.

End DeploymentCommand.

(* ===================================================================== *)
(** * routes/orchestration.js: adding a task by hand                      *)
(* ===================================================================== *)

Module OrchestrationRoute.
Import Js Eff.

(** The fields of the agent that its timer and its configuration own. *)
Record Runner := {
  isRunning : bool;
  intervalMinutes : JsVal;
  apiUrl : string
}.

(** [getStatus()] of services/orchestrationService.js, the agent the
    routes use; its [addTask] is, word for word, the scheduler's. *)
Definition getStatus (runner : Runner) : M JsObj :=
  a ← gets agent;
  mret ({[ "isRunning" := VBool (isRunning runner);
           "initialized" := VBool (initialized a);
           "sessionId" := VStr (sessionId a);
           "intervalMinutes" := intervalMinutes runner;
           "tasksInQueue" := VNum (Z.of_nat (length (taskQueue a)));
           "currentTaskIndex" := VNum (Z.of_nat (currentTaskIndex a));
           "apiUrl" := VStr (apiUrl runner);
           "nextTask" := jsOr (OrchestrationAgent.nth_task (taskQueue a)
                                 (currentTaskIndex a)) VNull ]} : JsObj).

(** [POST /api/orchestration/task]; [res.json] answers with status 200. *)
Definition postTask (runner : Runner) (req_body : JsObj)
  : M FeaturesRoute.Response :=
  try_catch
    (let message := get req_body "message" in
     let type := get req_body "type" in
     let priority := get req_body "priority" in
     if negb (truthy message) then
       mret {| FeaturesRoute.code := 400;
               FeaturesRoute.body :=
                 {[ "success" := VBool false;
                    "error" := VStr "Message is required" ]} |}
     else
       OrchestrationAgent.addTask
         {[ "message" := message;
            "type" := jsOr type (VStr "custom");
            "priority" := jsOr priority (VStr "normal") ]};;
       status ← getStatus runner;
       mret {| FeaturesRoute.code := 200;
               FeaturesRoute.body :=
                 {[ "success" := VBool true;
                    "message" := VStr "Task added to orchestration queue";
                    "status" := VObj status ]} |})
    (fun details =>
       console Err [VStr "Failed to add orchestration task:"; VStr details];;
       mret {| FeaturesRoute.code := 500;
               FeaturesRoute.body :=
                 {[ "success" := VBool false;
                    "error" := VStr "Failed to add orchestration task";
                    "details" := VStr details ]} |}).

End OrchestrationRoute.

(* ===================================================================== *)
(** * Rows and their ids                                                  *)
(* ===================================================================== *)

Module Rows.
Import Js Eff.

(** The primary keys of a table, in its order. *)
Definition ids (tbl : list JsObj) : list JsVal := (fun row => get row "id") <$> tbl.

(** From [st] to [st'] no feature request, monitored url, deployment or
    repository was added or removed, and the log only grew. *)
Definition same_rows (st st' : Store) : Prop :=
  ids (feature_requests st') = ids (feature_requests st) /\
  ids (monitored_urls st') = ids (monitored_urls st) /\
  ids (orchestration_deployments st') = ids (orchestration_deployments st) /\
  github_repos st' = github_repos st /\
  exists more, developer_agent_logs st' = app (developer_agent_logs st) more.

(** The same, between two states. *)
Definition keeps_rows (s s' : State) : Prop := same_rows (store s) (store s').

(** From [s] to [s'] the rows are kept and the deployments are what
    they were, column by column. *)
Definition kept (s s' : State) : Prop :=
  keeps_rows s s' /\
  orchestration_deployments (store s') = orchestration_deployments (store s).

End Rows.


(* ===================================================================== *)
(** * Properties                                                          *)
(* ===================================================================== *)

Import Js Eff.
Open Scope list_scope.

(** ** Stepping the monad *)

Lemma bind_ok {A B} (m : M A) (f : A -> M B) env s a s' :
  m env s = (Ok a, s') -> (m ≫= f) env s = f a env s'.
Proof. intros H. unfold mbind, M_bind. by rewrite H. Qed.

Lemma bind_throw {A B} (m : M A) (f : A -> M B) env s e s' :
  m env s = (Throw e, s') -> (m ≫= f) env s = (Throw e, s').
Proof. intros H. unfold mbind, M_bind. by rewrite H. Qed.

Lemma try_ok {A} (m : M A) h env s a s' :
  m env s = (Ok a, s') -> try_catch m h env s = (Ok a, s').
Proof. intros H. unfold try_catch. by rewrite H. Qed.

Lemma try_throw {A} (m : M A) h env s e s' :
  m env s = (Throw e, s') -> try_catch m h env s = h e env s'.
Proof. intros H. unfold try_catch. by rewrite H. Qed.

Ltac run_monad :=
  unfold Db.unwrap, Pg.request, console, mbind, M_bind, fmap, M_fmap, mret,
    M_ret, ask, gets, modify, throw, try_catch.

Ltac state_fields :=
  cbn [trace store agent db_round db_initialized dev_connected dev_connecting
       emit set_store next_round set_db_initialized set_dev_connected
       set_dev_connecting set_agent fst snd error data] in *.

(** Runs a computation through all of its branches. *)
Ltac exec :=
  repeat first [ progress run_monad
               | progress state_fields
               | progress simplify_eq
               | case_match ].

(** ** Round-robin selection *)

Section RoundRobin.
Import OrchestrationAgent Runs.

Lemma getNextTask_step env s :
  taskQueue (agent s) ≠ [] ->
  getNextTask env s =
    (Ok (nth_task (taskQueue (agent s)) (currentTaskIndex (agent s))),
     set_agent (set_currentTaskIndex
                  ((currentTaskIndex (agent s) + 1) mod length (taskQueue (agent s))))
               s).
Proof.
  intros Hq. unfold getNextTask, mbind, M_bind, gets, modify, mret, M_ret.
  destruct (taskQueue (agent s)) as [|task rest] eqn:E; [done|].
  reflexivity.
Qed.

Lemma calls_walk env n : forall s,
  taskQueue (agent s) ≠ [] ->
  exists s',
    calls n env s =
      (Ok (walk (taskQueue (agent s)) (currentTaskIndex (agent s)) n), s')
    /\ taskQueue (agent s') = taskQueue (agent s).
Proof.
  induction n as [|n IH]; intros s Hq.
  - exists s. split; reflexivity.
  - cbn [calls walk].
    pose proof (getNextTask_step env s Hq) as Hstep.
    set (s1 := set_agent _ s) in Hstep.
    destruct (IH s1) as (s' & Hrun & Hsame); [exact Hq|].
    exists s'. split; [|by rewrite Hsame].
    rewrite (bind_ok _ _ _ _ _ _ Hstep), (bind_ok _ _ _ _ _ _ Hrun).
    reflexivity.
Qed.

Lemma walk_mod (queue : list JsObj) n : forall i,
  walk queue i n =
    (fun j => nth_task queue (if (j =? 0)%nat then i else (i + j) mod length queue))
      <$> seq 0 n.
Proof.
  induction n as [|n IH]; intros i; [reflexivity|].
  cbn [walk seq fmap list_fmap]. f_equal.
  rewrite IH, <- seq_shift, <- list_fmap_compose.
  apply list_fmap_ext. intros _ j _. cbn.
  destruct j as [|j]; cbn [Nat.eqb]; [done|].
  f_equal. rewrite Nat.Div0.add_mod_idemp_l. f_equal. lia.
Qed.

Lemma nth_task_seq (queue : list JsObj) :
  nth_task queue <$> seq 0 (length queue) = VObj <$> queue.
Proof.
  apply list_eq. intros j. rewrite !list_lookup_fmap.
  destruct (decide (j < length queue)) as [Hlt|Hge].
  - rewrite lookup_seq_lt by done. cbn. unfold nth_task.
    destruct (queue !! j) eqn:E; [done|].
    apply lookup_ge_None in E. lia.
  - rewrite lookup_seq_ge by lia.
    by rewrite (proj2 (lookup_ge_None queue j)) by lia.
Qed.

Lemma walk_full_turn (queue : list JsObj) :
  queue ≠ [] ->
  walk queue 0 (S (length queue)) = (VObj <$> queue) ++ [nth_task queue 0].
Proof.
  intros Hq. rewrite walk_mod, seq_S, fmap_app. cbn [fmap list_fmap].
  assert (0 < length queue) by (destruct queue; [done | cbn; lia]).
  f_equal.
  - rewrite <- nth_task_seq. apply list_fmap_ext. intros k j Hj.
    apply lookup_seq in Hj as [-> Hlt]. cbn.
    destruct k; [done|]. cbn [Nat.eqb]. by rewrite Nat.mod_small.
  - cbn. destruct (length queue) as [|n] eqn:E; [lia|].
    cbn [Nat.eqb]. by rewrite Nat.Div0.mod_same.
Qed.

End RoundRobin.

(** ** Relations that every step of a computation maintains *)

Create HintDb keeps.

Section Frame.
Import Runs.

Variable R : State -> State -> Prop.
Hypothesis R_refl : forall s, R s s.
Hypothesis R_trans : forall s1 s2 s3, R s1 s2 -> R s2 s3 -> R s1 s3.

Lemma keeps_ret {A} (a : A) : keeps R (mret a).
Proof. intros env s. apply R_refl. Qed.

Lemma keeps_throw {A} e : keeps R (@throw A e).
Proof. intros env s. apply R_refl. Qed.

Lemma keeps_ask {A} (f : Env -> A) : keeps R (ask f).
Proof. intros env s. apply R_refl. Qed.

Lemma keeps_gets {A} (f : State -> A) : keeps R (gets f).
Proof. intros env s. apply R_refl. Qed.

Lemma keeps_bind {A B} (m : M A) (f : A -> M B) :
  keeps R m -> (forall a, keeps R (f a)) -> keeps R (m ≫= f).
Proof.
  intros Hm Hf env s. unfold mbind, M_bind.
  specialize (Hm env s). destruct (m env s) as [[a|e] s1]; cbn in *.
  - eapply R_trans; [exact Hm | apply Hf].
  - exact Hm.
Qed.

Lemma keeps_fmap {A B} (g : A -> B) (m : M A) :
  keeps R m -> keeps R (g <$> m).
Proof.
  intros Hm env s. unfold fmap, M_fmap.
  specialize (Hm env s). by destruct (m env s) as [[a|e] s1].
Qed.

Lemma keeps_try_catch {A} (m : M A) h :
  keeps R m -> (forall e, keeps R (h e)) -> keeps R (try_catch m h).
Proof.
  intros Hm Hh env s. unfold try_catch.
  specialize (Hm env s). destruct (m env s) as [[a|e] s1]; cbn in *.
  - exact Hm.
  - eapply R_trans; [exact Hm | apply Hh].
Qed.

Lemma keeps_modify f : (forall s, R s (f s)) -> keeps R (modify f).
Proof. intros Hf env s. apply Hf. Qed.

Lemma keeps_forOf {A} (xs : list A) body :
  (forall x, keeps R (body x)) -> keeps R (forOf xs body).
Proof.
  intros Hb. induction xs as [|x xs IH]; cbn [forOf].
  - apply keeps_ret.
  - apply keeps_bind; [apply Hb | intros _; exact IH].
Qed.

Lemma keeps_forOfAcc {A B} (xs : list A) (body : B -> A -> M B) : forall acc,
  (forall b x, keeps R (body b x)) -> keeps R (forOfAcc xs acc body).
Proof.
  induction xs as [|x xs IH]; intros acc Hb; cbn [forOfAcc].
  - apply keeps_ret.
  - apply keeps_bind; [apply Hb | intros b; by apply IH].
Qed.

Lemma keeps_prop v k : keeps R (prop v k).
Proof. destruct v; first [apply keeps_throw | apply keeps_ret]. Qed.

Lemma keeps_asString v k : keeps R (asString v k).
Proof. destruct v; first [apply keeps_throw | apply keeps_ret]. Qed.

Lemma keeps_substring0 v n : keeps R (substring0 v n).
Proof.
  apply keeps_bind; [apply keeps_asString | intros; apply keeps_ret].
Qed.

(** *** The console and the store's read side *)

Hypothesis R_console : forall lvl args s, R s (emit (Console lvl args) s).
Hypothesis R_round : forall s, R s (next_round s).
Hypothesis R_db_initialized : forall s, R s (set_db_initialized true s).

Lemma keeps_console lvl args : keeps R (console lvl args).
Proof. apply keeps_modify, R_console. Qed.

Hint Resolve keeps_ret keeps_throw keeps_ask keeps_gets keeps_console
  keeps_prop keeps_asString keeps_substring0 : keeps.

Lemma keeps_Db_initialize : keeps R Db.initialize.
Proof.
  apply keeps_try_catch.
  - apply keeps_bind; [auto with keeps|]. intros [|]; cbn [negb].
    + apply keeps_bind; [apply keeps_modify, R_db_initialized|].
      intros; auto with keeps.
    + auto with keeps.
  - intros e. apply keeps_bind; auto with keeps.
Qed.

Lemma keeps_ensure_initialized : keeps R Db.ensure_initialized.
Proof.
  apply keeps_bind; [auto with keeps|].
  intros [|]; [auto with keeps | apply keeps_Db_initialize].
Qed.

Lemma keeps_unwrap {A} (fallback : A) r : keeps R (Db.unwrap fallback r).
Proof. unfold Db.unwrap. destruct (error r); auto with keeps. Qed.

Lemma set_store_same s : set_store (store s) (next_round s) = next_round s.
Proof. by destruct s. Qed.

(** A request that only reads. *)
Lemma keeps_request_read {A} (q : Z -> Store -> Reply A * Store) :
  (forall t st, (q t st).2 = st) -> keeps R (Pg.request q).
Proof.
  intros Hq env s. unfold Pg.request.
  destruct (db_failure env (db_round s)); cbn; [apply R_round|].
  specialize (Hq (now env) (store s)).
  destruct (q (now env) (store s)) as [r st]; cbn in *. subst st.
  rewrite set_store_same. apply R_round.
Qed.

Hint Resolve keeps_ensure_initialized keeps_unwrap : keeps.

Lemma keeps_getUrlsToCheck : keeps R Db.getUrlsToCheck.
Proof.
  apply keeps_bind; [auto with keeps|]. intros _.
  apply keeps_bind; [by apply keeps_request_read | intros; auto with keeps].
Qed.

Lemma keeps_getDeploymentsToRun : keeps R Db.getDeploymentsToRun.
Proof.
  apply keeps_bind; [auto with keeps|]. intros _.
  apply keeps_bind; [by apply keeps_request_read | intros; auto with keeps].
Qed.

Lemma keeps_getRequestedFeatureRequests : keeps R Db.getRequestedFeatureRequests.
Proof.
  apply keeps_bind; [auto with keeps|]. intros _.
  apply keeps_bind; [by apply keeps_request_read | intros; auto with keeps].
Qed.

Lemma keeps_getPendingFeatureRequests : keeps R Db.getPendingFeatureRequests.
Proof.
  apply keeps_bind; [auto with keeps|]. intros _.
  apply keeps_bind; [by apply keeps_request_read | intros; auto with keeps].
Qed.

Lemma keeps_with_database {A} name (m : M A) :
  keeps R m -> keeps R (OrchestrationAgent.with_database name m).
Proof.
  intros Hm. apply keeps_bind; [auto with keeps|].
  intros [|]; [exact Hm | auto with keeps].
Qed.

Lemma keeps_with_developerAgent {A} name (m : M A) :
  keeps R m -> keeps R (OrchestrationAgent.with_developerAgent name m).
Proof.
  intros Hm. apply keeps_bind; [auto with keeps|].
  intros [|]; [exact Hm | auto with keeps].
Qed.

(** *** Reloading the queue *)

Hypothesis R_taskQueue : forall q s, R s (set_agent (set_taskQueue q) s).

Lemma keeps_loadTasksFromDatabase :
  keeps R OrchestrationAgent.loadTasksFromDatabase.
Proof.
  apply keeps_try_catch.
  - apply keeps_bind; [apply keeps_with_database, keeps_getUrlsToCheck|].
    intros urls.
    apply keeps_bind; [apply keeps_with_database, keeps_getDeploymentsToRun|].
    intros deployments.
    apply keeps_bind; [apply keeps_modify, R_taskQueue | intros; auto with keeps].
  - intros e. apply keeps_bind; auto with keeps.
Qed.

(** *** Everything else the scheduler, the routes and the tool do *)

Hypothesis R_silent : forall s s', trace s' = trace s -> R s s'.

(** The write requests [R] lets through. *)
Variable ok : Event -> Prop.
Hypothesis R_emit : forall e s, ok e -> R s (emit e s).

Ltac kstep :=
  lazymatch goal with
  | |- keeps _ (mret _) => apply keeps_ret
  | |- keeps _ (throw _) => apply keeps_throw
  | |- keeps _ (ask _) => apply keeps_ask
  | |- keeps _ (gets _) => apply keeps_gets
  | |- keeps _ (console _ _) => apply keeps_console
  | |- keeps _ (prop _ _) => apply keeps_prop
  | |- keeps _ (asString _ _) => apply keeps_asString
  | |- keeps _ (substring0 _ _) => apply keeps_substring0
  | |- keeps _ (Db.unwrap _ _) => apply keeps_unwrap
  | |- keeps _ Db.ensure_initialized => apply keeps_ensure_initialized
  | |- keeps _ (mbind _ _) => apply keeps_bind; [|intros ?]
  | |- keeps _ (try_catch _ _) => apply keeps_try_catch; [|intros ?]
  | |- keeps _ (fmap _ _) => apply keeps_fmap
  | |- keeps _ (OrchestrationAgent.with_database _ _) => apply keeps_with_database
  | |- keeps _ (OrchestrationAgent.with_developerAgent _ _) =>
      apply keeps_with_developerAgent
  | |- keeps _ (forOf _ _) => apply keeps_forOf; intros ?
  | |- keeps _ (forOfAcc _ _ _) => apply keeps_forOfAcc; intros ? ?
  | |- keeps _ (modify _) => apply keeps_modify; intros ?; apply R_silent; reflexivity
  | |- keeps _ (if ?b then _ else _) => destruct b
  | |- keeps _ (match ?x with _ => _ end) => destruct x
  end.

Lemma keeps_request {A} (q : Z -> Store -> Reply A * Store) :
  keeps R (Pg.request q).
Proof.
  intros env s. unfold Pg.request. apply R_silent.
  destruct (db_failure env (db_round s)); [reflexivity|].
  by destruct (q (now env) (store s)).
Qed.

Lemma keeps_emit e : ok e -> keeps R (modify (emit e)).
Proof. intros He env s. by apply R_emit. Qed.

Lemma keeps_updateFeatureRequestStatus id status metadata :
  (forall t, ok (DbUpdate "feature_requests" id
                   (Db.updateFeatureRequestStatus_updateData t status metadata))) ->
  keeps R (Db.updateFeatureRequestStatus id status metadata).
Proof.
  intros Hok. unfold Db.updateFeatureRequestStatus.
  kstep; [kstep|]. kstep; [kstep|]. kstep; [by apply keeps_emit|].
  kstep; [apply keeps_request|]. repeat kstep.
Qed.

Lemma keeps_updateUrlCheckStatus urlId :
  (forall data, ok (DbUpdate "monitored_urls" urlId data)) ->
  keeps R (Db.updateUrlCheckStatus urlId).
Proof.
  intros Hok. unfold Db.updateUrlCheckStatus.
  kstep; [kstep|]. kstep; [kstep|]. kstep; [by apply keeps_emit|].
  kstep; [apply keeps_request|]. repeat kstep.
Qed.

(** A call of [raw] ends the computation it is in. *)
Lemma keeps_raw {A} sql (rest : JsVal -> M A) : keeps R (Db.raw sql ≫= rest).
Proof. intros env s. apply R_refl. Qed.

Lemma keeps_updateDeploymentRun deploymentId success error :
  keeps R (Db.updateDeploymentRun deploymentId success error).
Proof.
  unfold Db.updateDeploymentRun.
  kstep; [kstep|]. kstep; [kstep|]. apply keeps_raw.
Qed.

Lemma keeps_logDeveloperAgentInteraction interactionData :
  (forall row, ok (DbInsert "developer_agent_logs" row)) ->
  keeps R (Db.logDeveloperAgentInteraction interactionData).
Proof.
  intros Hok. unfold Db.logDeveloperAgentInteraction.
  kstep; [kstep|]. kstep; [kstep|]. kstep; [by apply keeps_emit|].
  kstep; [apply keeps_request|]. repeat kstep.
Qed.

Lemma keeps_connect : keeps R DeveloperAgentClient.connect.
Proof. unfold DeveloperAgentClient.connect. repeat kstep. Qed.

Lemma keeps_implementFeature feature :
  keeps R (DeveloperAgentClient.implementFeature feature).
Proof.
  unfold DeveloperAgentClient.implementFeature.
  kstep; [kstep|]. kstep; [kstep; [kstep | apply keeps_connect]|].
  repeat kstep.
Qed.

Lemma keeps_parseImplementationResponse response :
  keeps R (DeveloperAgentClient.parseImplementationResponse response).
Proof. unfold DeveloperAgentClient.parseImplementationResponse. repeat kstep. Qed.

(** The three statuses the scheduler hands to [updateFeatureRequestStatus]. *)
Hypothesis ok_status : forall id t status metadata,
  In status ["pending"; "shipped"; "failed"] ->
  ok (DbUpdate "feature_requests" id
        (Db.updateFeatureRequestStatus_updateData t (VStr status) metadata)).
Hypothesis ok_log : forall row, ok (DbInsert "developer_agent_logs" row).
Hypothesis ok_url : forall id data, ok (DbUpdate "monitored_urls" id data).

Lemma keeps_scheduler_status id status metadata :
  In status ["pending"; "shipped"; "failed"] ->
  keeps R (Db.updateFeatureRequestStatus id (VStr status) metadata).
Proof.
  intros Hin. apply keeps_updateFeatureRequestStatus. intros t. by apply ok_status.
Qed.

Lemma keeps_implementOne count feature :
  keeps R (OrchestrationAgent.implementOne count feature).
Proof.
  unfold OrchestrationAgent.implementOne, OrchestrationAgent.handleReply.
  repeat first
    [ kstep
    | lazymatch goal with
      | |- keeps _ (Db.updateFeatureRequestStatus _ _ _) =>
          apply keeps_scheduler_status; cbn; tauto
      | |- keeps _ (Db.logDeveloperAgentInteraction _) =>
          apply keeps_logDeveloperAgentInteraction; exact ok_log
      | |- keeps _ (DeveloperAgentClient.implementFeature _) =>
          apply keeps_implementFeature
      | |- keeps _ (DeveloperAgentClient.parseImplementationResponse _) =>
          apply keeps_parseImplementationResponse
      end ].
Qed.

Lemma keeps_processRequestedFeatureRequests :
  keeps R OrchestrationAgent.processRequestedFeatureRequests.
Proof.
  unfold OrchestrationAgent.processRequestedFeatureRequests.
  repeat first
    [ kstep
    | lazymatch goal with
      | |- keeps _ Db.getRequestedFeatureRequests =>
          apply keeps_getRequestedFeatureRequests
      | |- keeps _ (OrchestrationAgent.implementOne _ _) => apply keeps_implementOne
      end ].
Qed.

Lemma keeps_checkPendingFeatureRequests :
  keeps R OrchestrationAgent.checkPendingFeatureRequests.
Proof.
  unfold OrchestrationAgent.checkPendingFeatureRequests.
  repeat first
    [ kstep
    | lazymatch goal with
      | |- keeps _ Db.getPendingFeatureRequests => apply keeps_getPendingFeatureRequests
      | |- keeps _ (OrchestrationAgent.checkOne _) =>
          unfold OrchestrationAgent.checkOne
      end ].
Qed.

Lemma keeps_agent_initialize : keeps R OrchestrationAgent.initialize.
Proof.
  unfold OrchestrationAgent.initialize.
  repeat first
    [ kstep
    | lazymatch goal with
      | |- keeps _ Db.initialize => apply keeps_Db_initialize
      | |- keeps _ OrchestrationAgent.loadTasksFromDatabase =>
          apply keeps_loadTasksFromDatabase
      | |- keeps _ OrchestrationAgent.setupDefaultTasks =>
          unfold OrchestrationAgent.setupDefaultTasks
      end ].
Qed.

Lemma keeps_getNextTask : keeps R OrchestrationAgent.getNextTask.
Proof. unfold OrchestrationAgent.getNextTask. repeat kstep. Qed.

Lemma keeps_sendToAgent message taskId :
  keeps R (OrchestrationAgent.sendToAgent message taskId).
Proof. unfold OrchestrationAgent.sendToAgent. repeat kstep. Qed.

Lemma keeps_updateDatabaseAfterExecution task result :
  keeps R (OrchestrationAgent.updateDatabaseAfterExecution task result).
Proof.
  unfold OrchestrationAgent.updateDatabaseAfterExecution.
  repeat first
    [ kstep
    | lazymatch goal with
      | |- keeps _ (Db.updateUrlCheckStatus _) =>
          apply keeps_updateUrlCheckStatus; apply ok_url
      | |- keeps _ (Db.updateDeploymentRun _ _ _) =>
          apply keeps_updateDeploymentRun
      end ].
Qed.

Lemma keeps_lengthOf v : keeps R (OrchestrationAgent.lengthOf v).
Proof. unfold OrchestrationAgent.lengthOf. repeat kstep. Qed.

Lemma keeps_logInteraction result :
  keeps R (OrchestrationAgent.logInteraction result).
Proof.
  unfold OrchestrationAgent.logInteraction.
  repeat first
    [ kstep
    | lazymatch goal with
      | |- keeps _ (OrchestrationAgent.lengthOf _) => apply keeps_lengthOf
      end ].
Qed.

Lemma keeps_processAgentResponse result :
  keeps R (OrchestrationAgent.processAgentResponse result).
Proof. unfold OrchestrationAgent.processAgentResponse. repeat kstep. Qed.

Lemma keeps_dispatch task : keeps R (OrchestrationAgent.dispatch task).
Proof.
  unfold OrchestrationAgent.dispatch.
  repeat first
    [ kstep
    | lazymatch goal with
      | |- keeps _ (OrchestrationAgent.sendToAgent _ _) => apply keeps_sendToAgent
      | |- keeps _ (OrchestrationAgent.updateDatabaseAfterExecution _ _) =>
          apply keeps_updateDatabaseAfterExecution
      | |- keeps _ (OrchestrationAgent.logInteraction _) => apply keeps_logInteraction
      | |- keeps _ (OrchestrationAgent.processAgentResponse _) =>
          apply keeps_processAgentResponse
      end ].
Qed.

Lemma keeps_select : keeps R OrchestrationAgent.select.
Proof.
  unfold OrchestrationAgent.select.
  repeat first
    [ kstep
    | lazymatch goal with
      | |- keeps _ OrchestrationAgent.processRequestedFeatureRequests =>
          apply keeps_processRequestedFeatureRequests
      | |- keeps _ OrchestrationAgent.checkPendingFeatureRequests =>
          apply keeps_checkPendingFeatureRequests
      | |- keeps _ OrchestrationAgent.loadTasksFromDatabase =>
          apply keeps_loadTasksFromDatabase
      | |- keeps _ OrchestrationAgent.getNextTask => apply keeps_getNextTask
      end ].
Qed.

Lemma keeps_executeOrchestrationCycle :
  keeps R OrchestrationAgent.executeOrchestrationCycle.
Proof.
  unfold OrchestrationAgent.executeOrchestrationCycle.
  repeat first
    [ kstep
    | lazymatch goal with
      | |- keeps _ OrchestrationAgent.initialize => apply keeps_agent_initialize
      | |- keeps _ OrchestrationAgent.select => apply keeps_select
      | |- keeps _ (OrchestrationAgent.dispatch _) => apply keeps_dispatch
      | |- keeps _ OrchestrationAgent.loadTasksFromDatabase =>
          apply keeps_loadTasksFromDatabase
      end ].
Qed.

(** *** The feature routes, [createFeatureRequest] and the tool *)

Lemma keeps_bind_post {A B} (Q : A -> Prop) (m : M A) (f : A -> M B) :
  (forall env s a s', m env s = (Ok a, s') -> Q a) ->
  keeps R m -> (forall a, Q a -> keeps R (f a)) -> keeps R (m ≫= f).
Proof.
  intros HQ Hm Hf env s. unfold mbind, M_bind.
  specialize (Hm env s). specialize (HQ env s).
  destruct (m env s) as [[a|e] s1]; cbn in *.
  - eapply R_trans; [exact Hm | by apply Hf, (HQ a s1)].
  - exact Hm.
Qed.

Variable stringify : JsVal -> string.
Variable isURL : string -> bool.
Variable JSON_parse : string -> Result JsVal.

Hypothesis ok_put : forall id req_body,
  FeaturesRoute.isIn stringify FeaturesRoute.allowedStatuses (get req_body "status")
  = true ->
  ok (DbUpdate "feature_requests" id (FeaturesRoute.putStatus_updateData req_body)).
Hypothesis ok_insert : forall row,
  row !! "status" = Some (VStr "requested") -> ok (DbInsert "feature_requests" row).
Hypothesis ok_upsert : forall row,
  row !! "status" = Some (VStr "requested") -> ok (DbUpsert "feature_requests" row).

Lemma keeps_putStatus id req_body :
  keeps R (FeaturesRoute.putStatus stringify isURL id req_body).
Proof.
  unfold FeaturesRoute.putStatus.
  kstep; [kstep|]. kstep; [kstep|].
  destruct (FeaturesRoute.isIn stringify FeaturesRoute.allowedStatuses
              (get req_body "status"))
    eqn:Hin; cbn [andb negb]; [|kstep].
  repeat first
    [ kstep
    | lazymatch goal with
      | |- keeps _ (modify (emit _)) => by apply keeps_emit, ok_put
      | |- keeps _ (Pg.request _) => apply keeps_request
      end ].
Qed.

Lemma postFeature_row_status req_body env s row s' :
  FeaturesRoute.postFeature_row req_body env s = (Ok row, s') ->
  row !! "status" = Some (VStr "requested").
Proof.
  unfold FeaturesRoute.postFeature_row. run_monad.
  destruct (asString _ _ env s) as [[name|e] s1]; [|discriminate].
  intros [= <- <-]. by simplify_map_eq.
Qed.

Lemma keeps_postFeature req_body :
  keeps R (FeaturesRoute.postFeature stringify req_body).
Proof.
  unfold FeaturesRoute.postFeature.
  kstep; [kstep|]. kstep; [kstep|]. kstep; [kstep|].
  eapply keeps_bind_post; [apply postFeature_row_status| |].
  { unfold FeaturesRoute.postFeature_row. repeat kstep. }
  intros row Hrow.
  repeat first
    [ kstep
    | lazymatch goal with
      | |- keeps _ (modify (emit _)) => by apply keeps_emit, ok_insert
      | |- keeps _ (Pg.request _) => apply keeps_request
      end ].
Qed.

Lemma keeps_createFeatureRequest featureData :
  keeps R (Db.createFeatureRequest featureData).
Proof.
  unfold Db.createFeatureRequest.
  repeat first
    [ kstep
    | lazymatch goal with
      | |- keeps _ (modify (emit _)) =>
          apply keeps_emit, ok_insert; unfold Db.createFeatureRequest_row;
          by simplify_map_eq
      | |- keeps _ (Pg.request _) => apply keeps_request
      end ].
Qed.

Lemma keeps_firstMention featureName replies :
  keeps R (FeatureRequestTool.firstMention featureName replies).
Proof.
  induction replies as [|reply rest IH]; cbn [FeatureRequestTool.firstMention].
  - kstep.
  - unfold FeatureRequestTool.isFeatureRelated. repeat first [kstep | exact IH].
Qed.

Lemma keeps_findRequestingUser feature replies :
  keeps R (FeatureRequestTool.findRequestingUser feature replies).
Proof.
  unfold FeatureRequestTool.findRequestingUser, FeatureRequestTool.iterate.
  repeat first
    [ kstep
    | lazymatch goal with
      | |- keeps _ (FeatureRequestTool.firstMention _ _) => apply keeps_firstMention
      end ].
Qed.

Lemma featureRequest_status feature user tweetUrl targetAccount env s row s' :
  FeatureRequestTool.featureRequest feature user tweetUrl targetAccount env s
  = (Ok row, s') ->
  row !! "status" = Some (VStr "requested").
Proof.
  unfold FeatureRequestTool.featureRequest. run_monad.
  repeat (case_match; try discriminate).
  intros [= <- <-]. by simplify_map_eq.
Qed.

Lemma keeps_saveOne tweetUrl targetAccount replies acc feature :
  keeps R (FeatureRequestTool.saveOne tweetUrl targetAccount replies acc feature).
Proof.
  unfold FeatureRequestTool.saveOne. destruct acc as [savedFeatures errors].
  kstep; [|repeat kstep].
  kstep; [apply keeps_findRequestingUser|].
  eapply keeps_bind_post; [apply featureRequest_status| |].
  { unfold FeatureRequestTool.featureRequest. repeat kstep. }
  intros row Hrow.
  repeat first
    [ kstep
    | lazymatch goal with
      | |- keeps _ (modify (emit _)) => by apply keeps_emit, ok_upsert
      | |- keeps _ (Pg.request _) => apply keeps_request
      end ].
Qed.

Lemma keeps_call input : keeps R (FeatureRequestTool._call JSON_parse input).
Proof.
  unfold FeatureRequestTool._call, FeatureRequestTool.getFeatureCount.
  repeat first
    [ kstep
    | lazymatch goal with
      | |- keeps _ (FeatureRequestTool.saveOne _ _ _ _ _) => apply keeps_saveOne
      | |- keeps _ (Pg.request _) => apply keeps_request
      | |- keeps _ (let '(_, _) := ?x in _) => destruct x
      end ].
Qed.

End Frame.

(** ** A stale index after the queue shrank *)

Lemma loadTasksFromDatabase_keeps_index env s :
  currentTaskIndex (agent (OrchestrationAgent.loadTasksFromDatabase env s).2)
  = currentTaskIndex (agent s).
Proof.
  apply (keeps_loadTasksFromDatabase
           (fun s s' => currentTaskIndex (agent s') = currentTaskIndex (agent s)));
    try done.
  intros s1 s2 s3 H1 H2. congruence.
Qed.

(** C1.  On a non-empty queue of length N, with [currentTaskIndex] at 0
    and no reload in between, N + 1 successive calls of [getNextTask]
    return the elements at positions 0 .. N-1 in order, each once, and
    then the element at position 0 again. *)
Theorem round_robin_full_turn env s :
  taskQueue (agent s) ≠ [] ->
  currentTaskIndex (agent s) = 0 ->
  exists first s',
    taskQueue (agent s) !! 0 = Some first /\
    Runs.calls (S (length (taskQueue (agent s)))) env s
    = (Ok ((VObj <$> taskQueue (agent s)) ++ [VObj first]), s') /\
    taskQueue (agent s') = taskQueue (agent s).
Proof.
  intros Hq Hi.
  destruct (calls_walk env (S (length (taskQueue (agent s)))) s Hq)
    as (s' & Hrun & Hsame).
  rewrite Hi, walk_full_turn in Hrun by exact Hq.
  destruct (taskQueue (agent s)) as [|first rest] eqn:E; [done|].
  exists first, s'. split; [done|]. split; [exact Hrun | exact Hsame].
Qed.

Lemma round_robin_full_turn_witness :
  exists s',
    Runs.calls 4 Sample.env0
      (Sample.state0 [Sample.taskA; Sample.taskB; Sample.taskC] 0 Sample.store0)
    = (Ok [VObj Sample.taskA; VObj Sample.taskB; VObj Sample.taskC;
           VObj Sample.taskA], s').
Proof.
  destruct (round_robin_full_turn Sample.env0
              (Sample.state0 [Sample.taskA; Sample.taskB; Sample.taskC] 0
                 Sample.store0))
    as (first & s' & Hfirst & Hrun & _).
  - discriminate.
  - reflexivity.
  - exists s'. injection Hfirst as <-. exact Hrun.
Defined.

(** C10.  When [currentTaskIndex] is at or past the end of a non-empty
    queue (reloading the queue never resets it, so a queue that shrank
    leaves it stale), [getNextTask] returns [undefined] once, brings the
    index back below the length, and the following call returns a task. *)
Theorem stale_index_skips_one_call env s :
  taskQueue (agent s) ≠ [] ->
  length (taskQueue (agent s)) <= currentTaskIndex (agent s) ->
  (forall env' s',
     currentTaskIndex (agent (OrchestrationAgent.loadTasksFromDatabase env' s').2)
     = currentTaskIndex (agent s')) /\
  exists s1 s2 task,
    OrchestrationAgent.getNextTask env s = (Ok VUndef, s1) /\
    currentTaskIndex (agent s1)
    = (currentTaskIndex (agent s) + 1) mod length (taskQueue (agent s)) /\
    taskQueue (agent s1) = taskQueue (agent s) /\
    taskQueue (agent s) !! currentTaskIndex (agent s1) = Some task /\
    OrchestrationAgent.getNextTask env s1 = (Ok (VObj task), s2).
Proof.
  intros Hq Hstale. split; [apply loadTasksFromDatabase_keeps_index|].
  pose proof (getNextTask_step env s Hq) as Hstep.
  set (s1 := set_agent _ s) in Hstep.
  assert (Hlen : 0 < length (taskQueue (agent s)))
    by (destruct (taskQueue (agent s)); [done | cbn; lia]).
  pose proof (Nat.mod_upper_bound (currentTaskIndex (agent s) + 1)
                (length (taskQueue (agent s))) ltac:(lia)) as Hlt.
  destruct (lookup_lt_is_Some_2 (taskQueue (agent s)) _ Hlt) as [task Htask].
  pose proof (getNextTask_step env s1 Hq) as Hstep2.
  set (s2 := set_agent _ s1) in Hstep2.
  exists s1, s2, task. repeat split; try done.
  - rewrite Hstep. unfold OrchestrationAgent.nth_task.
    by rewrite (proj2 (lookup_ge_None _ _) Hstale).
  - rewrite Hstep2. unfold OrchestrationAgent.nth_task. cbn.
    by rewrite Htask.
Qed.

Lemma stale_index_skips_one_call_witness :
  exists s1 s2,
    OrchestrationAgent.getNextTask Sample.env0
      (Sample.state0 [Sample.taskA; Sample.taskB] 2 Sample.store0)
    = (Ok VUndef, s1) /\
    currentTaskIndex (agent s1) = 1 /\
    OrchestrationAgent.getNextTask Sample.env0 s1 = (Ok (VObj Sample.taskB), s2).
Proof.
  destruct (stale_index_skips_one_call Sample.env0
              (Sample.state0 [Sample.taskA; Sample.taskB] 2 Sample.store0))
    as (_ & s1 & s2 & task & Hfirst & Hidx & _ & Htask & Hsecond).
  - discriminate.
  - cbn. lia.
  - exists s1, s2. rewrite Hidx in Htask. cbn in Htask, Hidx.
    injection Htask as <-. done.
Defined.

(** ** The update built by [updateFeatureRequestStatus] *)

Lemma is_str_spec v text : Db.is_str v text = true <-> v = VStr text.
Proof.
  destruct v; cbn; try (split; [discriminate | congruence]).
  rewrite String.eqb_eq. split; congruence.
Qed.

Lemma status_update_lookup t status metadata key stamp :
  (key, stamp) ∈ [("implementation_started_at", "pending");
                  ("implementation_completed_at", "shipped");
                  ("implementation_failed_at", "failed")] ->
  Db.updateFeatureRequestStatus_updateData t status metadata !! key
  = if Db.is_str status stamp then Some (VDate t) else None.
Proof.
  intros Hin. unfold Db.updateFeatureRequestStatus_updateData.
  set_unfold in Hin.
  destruct Hin as [[= -> ->]|[[= -> ->]|[[= -> ->]|[]]]];
    destruct status; cbn [Db.is_str];
    repeat case_match;
    repeat match goal with
           | H : String.eqb _ _ = true |- _ => apply String.eqb_eq in H; subst
           end;
    try discriminate;
    by simplify_map_eq.
Qed.

Lemma issued_app s s' evs :
  trace s' = trace s ++ evs -> Writes.issued s s' = List.filter Writes.is_write evs.
Proof.
  intros H. unfold Writes.issued. by rewrite H, drop_app_length.
Qed.

Lemma updateFeatureRequestStatus_issues id status metadata env s :
  Writes.issued s (Db.updateFeatureRequestStatus id status metadata env s).2
  = if db_initialized s || credentials env
    then [DbUpdate "feature_requests" id
            (Db.updateFeatureRequestStatus_updateData (now env) status metadata)]
    else [].
Proof.
  unfold Db.updateFeatureRequestStatus, Db.ensure_initialized, Db.initialize.
  run_monad.
  destruct (db_initialized s) eqn:Ei, (credentials env) eqn:Ec;
    exec; cbn [orb];
    (erewrite issued_app; [|state_fields; rewrite <- ?app_assoc; reflexivity]);
    reflexivity.
Qed.

Lemma status_update_status t status metadata :
  Db.updateFeatureRequestStatus_updateData t status metadata !! "status"
  = Some status.
Proof.
  unfold Db.updateFeatureRequestStatus_updateData.
  repeat case_match; by simplify_map_eq.
Qed.

(** C2.  The update that [updateFeatureRequestStatus] sends carries
    [implementation_started_at] exactly for status 'pending',
    [implementation_completed_at] exactly for 'shipped' and
    [implementation_failed_at] exactly for 'failed', whatever the id and
    the metadata; no other status sets any of the three. *)
Theorem status_timestamps (featureId status : JsVal) (metadata : JsObj) env s :
  let updateData :=
    Db.updateFeatureRequestStatus_updateData (now env) status metadata in
  Writes.issued s (Db.updateFeatureRequestStatus featureId status metadata env s).2
  = (if db_initialized s || credentials env
     then [DbUpdate "feature_requests" featureId updateData] else []) /\
  updateData !! "implementation_started_at"
  = (if Db.is_str status "pending" then Some (VDate (now env)) else None) /\
  updateData !! "implementation_completed_at"
  = (if Db.is_str status "shipped" then Some (VDate (now env)) else None) /\
  updateData !! "implementation_failed_at"
  = (if Db.is_str status "failed" then Some (VDate (now env)) else None) /\
  updateData !! "status" = Some status.
Proof.
  cbv zeta. split; [apply updateFeatureRequestStatus_issues|].
  repeat split; try (apply status_update_lookup; set_solver).
  apply status_update_status.
Qed.

(** ** The fallback intent classifier *)

(** C8.  [fallbackIntentParsing] is a function of the message alone: it
    lower-cases the message and returns the first intent of the fixed
    keyword table (deploy, status, feature_query, config, help, in this
    order) one of whose keyword groups occurs in it, with confidence
    0.6, and 'general' with confidence 0.4 when none does. *)
Theorem fallback_classifier_is_table_lookup (message : string) :
  OrchestrationChatService.fallbackIntentParsing message
  = ClassifierTable.classify message.
Proof.
  unfold OrchestrationChatService.fallbackIntentParsing, ClassifierTable.classify,
    ClassifierTable.keywordTable, ClassifierTable.matches.
  cbn [List.find existsb forallb snd fst].
  generalize (toLowerCase message). intros lowered.
  repeat (match goal with
          | |- context [includes lowered ?k] => destruct (includes lowered k)
          end; cbn [andb orb]); reflexivity.
Qed.

(** ** The session table of the chat endpoint *)

Section ChatHistory.
Import AgentRoute Sessions.

Variable valid : JsObj -> bool.
Variable processMessage : JsVal -> list Message -> Result JsVal.
Variable generateSessionId : Z -> string.

Lemma slice_last_length {A} (n : nat) (l : list A) :
  n <= length l -> length (slice_last n l) = n.
Proof. intros H. unfold slice_last. rewrite length_drop. lia. Qed.

Lemma slice_last_suffix {A} (n : nat) (l : list A) :
  take (length l - n) l ++ slice_last n l = l.
Proof. apply take_drop. Qed.

Lemma chat_capped t req_body userSessions :
  capped userSessions ->
  capped (chat valid processMessage generateSessionId t req_body userSessions).2.
Proof.
  intros Hcap. unfold chat.
  destruct (valid req_body); cbn [negb snd]; [|exact Hcap].
  set (sid := if truthy (get req_body "sessionId") then _ else _).
  assert (Hold : length (historyOf userSessions sid) <= 20).
  { unfold historyOf. destruct (userSessions !! sid) as [session|] eqn:E.
    - exact (Hcap _ _ E).
    - cbn. lia. }
  unfold historyOf in Hold.
  destruct (userSessions !! sid) as [session|] eqn:E; cbn [history] in *;
    (destruct (processMessage _ _) as [response|e]; cbn [snd];
     [ apply map_Forall_insert_2;
       [ cbn [history]; case_match;
         [ apply Nat.ltb_lt in H; rewrite slice_last_length; lia
         | apply Nat.ltb_ge in H; exact H ]
       | by apply map_Forall_insert_2 ]
     | by apply map_Forall_insert_2 ]).
Qed.

Lemma handle_capped userSessions request :
  capped userSessions ->
  capped (handle valid processMessage generateSessionId userSessions request).
Proof.
  intros Hcap. destruct request as [t req_body|t sessionId|t]; cbn [handle].
  - by apply chat_capped.
  - unfold reset. destruct (userSessions !! sessionId); [|exact Hcap].
    apply map_Forall_insert_2; [cbn; lia | exact Hcap].
  - unfold cleanup. intros k session Hk.
    apply map_lookup_filter_Some in Hk as [Hk _]. exact (Hcap _ _ Hk).
Qed.

Lemma serve_capped requests : forall userSessions,
  capped userSessions ->
  capped (serve valid processMessage generateSessionId requests userSessions).
Proof.
  induction requests as [|request rest IH]; intros userSessions Hcap; [exact Hcap|].
  cbn [serve fold_left]. apply IH. by apply handle_capped.
Qed.

(** What a successful chat request leaves in the session it served. *)
Lemma chat_sent t req_body userSessions code sid response count tbl :
  chat valid processMessage generateSessionId t req_body userSessions
  = (Sent code sid response count, tbl) ->
  exists session,
    tbl !! sid = Some session /\
    let pushed :=
      historyOf userSessions sid ++
        [ {| role := "user"; content := get req_body "message"; timestamp := t |};
          {| role := "assistant"; content := response; timestamp := t |} ] in
    history session
    = if (20 <? length pushed)%nat then slice_last 20 pushed else pushed.
Proof.
  unfold chat. destruct (valid req_body); cbn [negb]; [|discriminate].
  set (sid' := if truthy (get req_body "sessionId") then _ else _).
  unfold historyOf.
  destruct (userSessions !! sid') as [session|] eqn:E; cbn [history];
    (destruct (processMessage _ _) as [r|e]; [|discriminate]);
    intros [= <- <- <- <- <-]; rewrite E;
    eexists; (split; [apply lookup_insert_eq|]); reflexivity.
Qed.

End ChatHistory.

(** C9.  After every handled request the in-memory history of every
    session holds at most 20 messages; and when a chat request pushes
    the history past 20, what is kept is exactly the last 20 of the
    messages, the two new ones included. *)
Theorem chat_history_capped valid processMessage generateSessionId
    (requests : list Sessions.Request) :
  map_Forall (fun _ session => length (AgentRoute.history session) <= 20)
    (Sessions.serve valid processMessage generateSessionId requests ∅) /\
  forall t req_body userSessions code sid response count tbl,
    AgentRoute.chat valid processMessage generateSessionId t req_body userSessions
    = (AgentRoute.Sent code sid response count, tbl) ->
    exists session older,
      tbl !! sid = Some session /\
      older ++ AgentRoute.history session
      = Sessions.historyOf userSessions sid ++
          [ {| AgentRoute.role := "user";
               AgentRoute.content := get req_body "message";
               AgentRoute.timestamp := t |};
            {| AgentRoute.role := "assistant";
               AgentRoute.content := response;
               AgentRoute.timestamp := t |} ] /\
      (20 < length (Sessions.historyOf userSessions sid) + 2 ->
       length (AgentRoute.history session) = 20) /\
      (length (Sessions.historyOf userSessions sid) + 2 <= 20 -> older = []).
Proof.
  split.
  - apply serve_capped. apply map_Forall_empty.
  - intros t req_body userSessions code sid response count tbl Hchat.
    apply chat_sent in Hchat as (session & Hsid & Hkept). cbv zeta in Hkept.
    set (pushed := _ ++ [_; _]) in *.
    assert (Hlen : length pushed = length (Sessions.historyOf userSessions sid) + 2)
      by (unfold pushed; rewrite length_app; reflexivity).
    destruct (20 <? length pushed)%nat eqn:E.
    + apply Nat.ltb_lt in E.
      exists session, (take (length pushed - 20) pushed).
      rewrite Hkept. repeat split; [exact Hsid | apply slice_last_suffix | | lia].
      intros _. apply slice_last_length. lia.
    + apply Nat.ltb_ge in E.
      exists session, []. rewrite Hkept. repeat split; [exact Hsid | lia].
Qed.

Lemma chat_history_capped_witness :
  exists session,
    (AgentRoute.chat (fun _ => true) (fun _ _ => Ok (VStr "hello")) (fun _ => "sess_x")
       5 {[ "message" := VStr "one more"; "sessionId" := VStr "s1" ]}
       Sessions.fullSessions).2 !! "s1" = Some session /\
    length (AgentRoute.history session) = 20.
Proof.
  set (out := AgentRoute.chat _ _ _ _ _ _).
  destruct (proj2 (chat_history_capped (fun _ => true) (fun _ _ => Ok (VStr "hello"))
                     (fun _ => "sess_x") [])
              5%Z {[ "message" := VStr "one more"; "sessionId" := VStr "s1" ]}
              Sessions.fullSessions 200 "s1" (VStr "hello") (20 # 2)%Q out.2)
    as (session & older & Hsid & _ & Hfull & _).
  - vm_compute. reflexivity.
  - exists session. split; [exact Hsid|]. apply Hfull. vm_compute. lia.
Defined.

(** ** Reloading the queue *)

Lemma loadTasksFromDatabase_effect env s :
  let s' := (OrchestrationAgent.loadTasksFromDatabase env s).2 in
  store s' = store s /\
  database (agent s') = database (agent s) /\
  taskQueue (agent s')
  = (if Runs.load_succeeds env s
     then OrchestrationAgent.build_queue (Db.urlsToCheck (store s))
            (Db.deploymentsToRun (now env) (store s))
     else taskQueue (agent s)) /\
  db_initialized s' || credentials env = db_initialized s || credentials env /\
  exists k, db_round s' = db_round s + k.
Proof.
  unfold OrchestrationAgent.loadTasksFromDatabase, OrchestrationAgent.with_database,
    Db.getUrlsToCheck, Db.getDeploymentsToRun, Db.ensure_initialized, Db.initialize,
    Runs.load_succeeds, Runs.reachable.
  run_monad.
  destruct (database (agent s)) eqn:Ed, (db_initialized s) eqn:Ei,
    (credentials env) eqn:Ec;
    exec; cbn [database taskQueue set_taskQueue andb orb];
    rewrite ?Ed, ?Ei, ?Ec; cbn [andb orb];
    repeat match goal with
           | H : db_failure _ _ = _ |- _ => rewrite H
           end;
    repeat split;
    solve [ reflexivity | congruence | exists 0; lia | exists 1; lia | exists 2; lia ].
Qed.

Lemma load_succeeds_again env s :
  (forall n m, db_failure env n = db_failure env m) ->
  Runs.load_succeeds env (OrchestrationAgent.loadTasksFromDatabase env s).2
  = Runs.load_succeeds env s.
Proof.
  intros Hsame.
  destruct (loadTasksFromDatabase_effect env s) as (_ & Hd & _ & Hi & _).
  cbv zeta in *. unfold Runs.load_succeeds, Runs.reachable.
  rewrite Hd, Hi.
  rewrite (Hsame (db_round (OrchestrationAgent.loadTasksFromDatabase env s).2)
             (db_round s)).
  rewrite (Hsame (S (db_round (OrchestrationAgent.loadTasksFromDatabase env s).2))
             (S (db_round s))).
  reflexivity.
Qed.

(** C7.  With the database in a fixed state (the store answers every
    round trip alike, so both reloads get the same lists of active
    monitored urls and of runnable deployments), two calls of
    [loadTasksFromDatabase] in a row leave task queues that are equal:
    same length, same tasks, same order. *)
Theorem reload_twice_same_queue env s :
  (forall n m, db_failure env n = db_failure env m) ->
  let s1 := (OrchestrationAgent.loadTasksFromDatabase env s).2 in
  let s2 := (OrchestrationAgent.loadTasksFromDatabase env s1).2 in
  taskQueue (agent s2) = taskQueue (agent s1) /\
  length (taskQueue (agent s2)) = length (taskQueue (agent s1)) /\
  (Runs.load_succeeds env s = true ->
   taskQueue (agent s1)
   = OrchestrationAgent.build_queue (Db.urlsToCheck (store s))
       (Db.deploymentsToRun (now env) (store s))).
Proof.
  intros Hsame s1 s2.
  destruct (loadTasksFromDatabase_effect env s) as (Hst & _ & Hq1 & _).
  destruct (loadTasksFromDatabase_effect env s1) as (_ & _ & Hq2 & _).
  cbv zeta in *. fold s1 in Hst, Hq1, Hq2. fold s2 in Hq2.
  assert (Hagain : Runs.load_succeeds env s1 = Runs.load_succeeds env s)
    by (apply load_succeeds_again, Hsame).
  assert (Heq : taskQueue (agent s2) = taskQueue (agent s1)).
  { rewrite Hq2, Hagain, Hst. destruct (Runs.load_succeeds env s) eqn:E.
    - by rewrite Hq1.
    - reflexivity. }
  split; [exact Heq|]. split; [by rewrite Heq|].
  intros E. by rewrite Hq1, E.
Qed.

Lemma reload_twice_same_queue_witness :
  let s := Sample.state0 [Sample.taskA] 0 Sample.store0 in
  let s1 := (OrchestrationAgent.loadTasksFromDatabase Sample.env0 s).2 in
  let s2 := (OrchestrationAgent.loadTasksFromDatabase Sample.env0 s1).2 in
  taskQueue (agent s2) = taskQueue (agent s1) /\
  length (taskQueue (agent s1)) = 1.
Proof.
  intros s s1 s2.
  destruct (reload_twice_same_queue Sample.env0 s) as (Heq & _ & Hbuilt).
  - reflexivity.
  - split; [exact Heq|]. unfold s1. rewrite Hbuilt; [|vm_compute; reflexivity].
    vm_compute. reflexivity.
Defined.

(** ** The statuses the program writes *)

Section Extends.
Import Writes.
Variable ok : Event -> Prop.

Lemma extends_refl s : extends ok s s.
Proof. exists []. by rewrite app_nil_r. Qed.

Lemma extends_trans s1 s2 s3 :
  extends ok s1 s2 -> extends ok s2 s3 -> extends ok s1 s3.
Proof.
  intros (e1 & H1 & F1) (e2 & H2 & F2). exists (e1 ++ e2).
  split; [by rewrite H2, H1, app_assoc | by apply Forall_app].
Qed.

Lemma extends_silent s s' : trace s' = trace s -> extends ok s s'.
Proof. intros H. exists []. by rewrite app_nil_r. Qed.

Lemma extends_emit e s : ok e -> extends ok s (emit e s).
Proof. intros H. exists [e]. split; [reflexivity | by constructor]. Qed.

Lemma extends_issued s s' :
  extends ok s s' -> Forall ok (issued s s').
Proof.
  intros (evs & Htrace & Hall). rewrite (issued_app _ _ _ Htrace).
  apply Forall_forall. intros e He.
  apply list_elem_of_In, filter_In in He as [He _].
  rewrite Forall_forall in Hall. by apply Hall, list_elem_of_In.
Qed.

End Extends.

Lemma isIn_text stringify values text :
  stringify (VStr text) = text ->
  FeaturesRoute.isIn stringify values (VStr text) = true -> In text values.
Proof.
  intros Htext. unfold FeaturesRoute.isIn, FeaturesRoute.standard. rewrite Htext.
  intros H. apply existsb_exists in H as (x & Hx & Heq).
  apply String.eqb_eq in Heq. by subst.
Qed.

Lemma isIn_array stringify values items :
  FeaturesRoute.isIn stringify values (VArr items) = true
  <-> Forall (fun item => In (stringify item) values) items.
Proof.
  unfold FeaturesRoute.isIn, FeaturesRoute.standard.
  rewrite forallb_forall, Forall_forall.
  split; intros H item Hitem.
  - apply list_elem_of_In, H, existsb_exists in Hitem as (x & Hx & Heq).
    apply String.eqb_eq in Heq. by rewrite Heq.
  - apply existsb_exists. exists (stringify item).
    split; [by apply H, list_elem_of_In | apply String.eqb_refl].
Qed.

Lemma putStatus_updateData_status req_body :
  FeaturesRoute.putStatus_updateData req_body !! "status"
  = Some (get req_body "status").
Proof.
  unfold FeaturesRoute.putStatus_updateData.
  repeat case_match; by simplify_map_eq.
Qed.

Lemma writes_status_in_text allowed e :
  Writes.writes_status_in allowed e -> Writes.writes_status (Writes.text_in allowed) e.
Proof.
  unfold Writes.writes_status_in, Writes.writes_status, Writes.text_in.
  destruct (Writes.written_status e) as [v|]; [|done].
  intros (status & -> & Hin) status' [= <-]. exact Hin.
Qed.

Lemma writes_status_mono (good good' : JsVal -> Prop) e :
  (forall v, good v -> good' v) ->
  Writes.writes_status good e -> Writes.writes_status good' e.
Proof.
  intros Himp. unfold Writes.writes_status.
  destruct (Writes.written_status e); [apply Himp | done].
Qed.

Lemma extends_mono (ok ok' : Event -> Prop) s s' :
  (forall e, ok e -> ok' e) -> Writes.extends ok s s' -> Writes.extends ok' s s'.
Proof.
  intros Himp (evs & Htrace & Hall). exists evs. split; [exact Htrace|].
  eapply Forall_impl; [exact Hall | exact Himp].
Qed.

Section WrittenStatuses.
Import Writes.
Variable allowed : list string.

Let ok := writes_status_in allowed.

Lemma ok_console lvl args : ok (Console lvl args).
Proof. exact I. Qed.

Lemma ok_other_update table id payload :
  String.eqb table "feature_requests" = false -> ok (DbUpdate table id payload).
Proof. intros H. unfold ok, writes_status_in, written_status. by rewrite H. Qed.

Lemma ok_other_insert table row :
  String.eqb table "feature_requests" = false -> ok (DbInsert table row).
Proof. intros H. unfold ok, writes_status_in, written_status. by rewrite H. Qed.

Lemma ok_update_text table id payload status :
  payload !! "status" = Some (VStr status) -> In status allowed ->
  ok (DbUpdate table id payload).
Proof.
  intros Hs Hin. unfold ok, writes_status_in, written_status.
  destruct (String.eqb table "feature_requests"); [|done].
  rewrite Hs. eauto.
Qed.

Lemma ok_insert_text table payload status :
  payload !! "status" = Some (VStr status) -> In status allowed ->
  ok (DbInsert table payload) /\ ok (DbUpsert table payload).
Proof.
  intros Hs Hin. unfold ok, writes_status_in, written_status.
  destruct (String.eqb table "feature_requests"); [|done].
  rewrite Hs. split; eauto.
Qed.

(** The scheduler tick writes 'pending', 'shipped' and 'failed' only. *)
Lemma cycle_writes env s :
  incl ["pending"; "shipped"; "failed"] allowed ->
  extends ok s (OrchestrationAgent.executeOrchestrationCycle env s).2.
Proof.
  intros Hincl.
  apply (keeps_executeOrchestrationCycle (extends ok)) with (ok := ok);
    try (intros; first [ apply extends_refl | eapply extends_trans; eassumption
                       | apply extends_emit, ok_console
                       | apply extends_silent; reflexivity
                       | by apply extends_silent
                       | by apply extends_emit
                       | by apply ok_other_update
                       | by apply ok_other_insert ]).
  intros id t status metadata Hin.
  eapply ok_update_text; [apply status_update_status | by apply Hincl].
Qed.

(** The three insertion paths write 'requested'. *)
Lemma inserts_write stringify JSON_parse env s :
  In "requested" allowed ->
  (forall req_body,
     extends ok s (FeaturesRoute.postFeature stringify req_body env s).2) /\
  (forall featureData, extends ok s (Db.createFeatureRequest featureData env s).2) /\
  (forall input, extends ok s (FeatureRequestTool._call JSON_parse input env s).2).
Proof.
  intros Hin.
  assert (Hrow : forall row, row !! "status" = Some (VStr "requested") ->
                 ok (DbInsert "feature_requests" row)
                 /\ ok (DbUpsert "feature_requests" row)).
  { intros row Hrow. by eapply ok_insert_text. }
  repeat split; intros x.
  - apply (keeps_postFeature (extends ok)) with (ok := ok);
      try (intros; first [ apply extends_refl | eapply extends_trans; eassumption
                         | apply extends_emit, ok_console
                         | apply extends_silent; reflexivity
                         | by apply extends_silent
                         | by apply extends_emit
                         | by apply Hrow ]).
  - apply (keeps_createFeatureRequest (extends ok)) with (ok := ok);
      try (intros; first [ apply extends_refl | eapply extends_trans; eassumption
                         | apply extends_emit, ok_console
                         | apply extends_silent; reflexivity
                         | by apply extends_silent
                         | by apply extends_emit
                         | by apply Hrow ]).
  - apply (keeps_call (extends ok)) with (ok := ok);
      try (intros; first [ apply extends_refl | eapply extends_trans; eassumption
                         | apply extends_emit, ok_console
                         | apply extends_silent; reflexivity
                         | by apply extends_silent
                         | by apply extends_emit
                         | by apply Hrow ]).
Qed.

End WrittenStatuses.

(** The status route writes the status of the request body, and only
    when its validator has passed it. *)
Lemma putStatus_writes stringify isURL id req_body env s :
  Writes.extends
    (Writes.writes_status
       (fun v => FeaturesRoute.isIn stringify FeaturesRoute.allowedStatuses v = true))
    s (FeaturesRoute.putStatus stringify isURL id req_body env s).2.
Proof.
  apply (keeps_putStatus (Writes.extends _))
    with (ok := Writes.writes_status
                  (fun v => FeaturesRoute.isIn stringify FeaturesRoute.allowedStatuses v
                            = true));
    try (intros; first [ apply extends_refl | eapply extends_trans; eassumption
                       | by apply extends_emit
                       | apply extends_silent; reflexivity
                       | by apply extends_silent ]).
  intros id' body Hin. unfold Writes.writes_status, Writes.written_status.
  cbn [String.eqb Ascii.eqb Bool.eqb]. by rewrite putStatus_updateData_status.
Qed.

(** C4, as the sources have it.  A status that a scheduler tick, the
    status route, the creation route, [createFeatureRequest] or the
    feature-request tool writes to a feature request is, when it is a
    text, one of requested, pending, shipped, failed, rejected,
    developing, pr_raised.  The tick writes the texts pending, shipped
    or failed and the three insertion paths write the text requested.
    The status route writes the status of the request body once its
    validator has passed it: a text among requested, developing,
    pr_raised, shipped, or a value that is not a text, since the
    validator checks an array element by element ([stringify] is the
    text it makes of a value: a text reads as itself). *)
Theorem written_statuses stringify isURL JSON_parse env s :
  (forall text, stringify (VStr text) = text) ->
  let passes v :=
    FeaturesRoute.isIn stringify FeaturesRoute.allowedStatuses v = true in
  let ok := Writes.writes_status (Writes.text_in Writes.writtenStatuses) in
  Writes.extends (Writes.writes_status_in ["pending"; "shipped"; "failed"]) s
    (OrchestrationAgent.executeOrchestrationCycle env s).2 /\
  (forall id req_body,
     Writes.extends
       (Writes.writes_status
          (fun v => passes v /\ Writes.text_in FeaturesRoute.allowedStatuses v))
       s (FeaturesRoute.putStatus stringify isURL id req_body env s).2) /\
  (forall items,
     passes (VArr items)
     <-> Forall (fun item => In (stringify item) FeaturesRoute.allowedStatuses) items) /\
  (forall req_body,
     Writes.extends (Writes.writes_status_in ["requested"]) s
       (FeaturesRoute.postFeature stringify req_body env s).2) /\
  (forall featureData,
     Writes.extends (Writes.writes_status_in ["requested"]) s
       (Db.createFeatureRequest featureData env s).2) /\
  (forall input,
     Writes.extends (Writes.writes_status_in ["requested"]) s
       (FeatureRequestTool._call JSON_parse input env s).2) /\
  Writes.extends ok s (OrchestrationAgent.executeOrchestrationCycle env s).2 /\
  (forall id req_body,
     Writes.extends ok s
       (FeaturesRoute.putStatus stringify isURL id req_body env s).2) /\
  (forall req_body,
     Writes.extends ok s (FeaturesRoute.postFeature stringify req_body env s).2) /\
  (forall featureData,
     Writes.extends ok s (Db.createFeatureRequest featureData env s).2) /\
  (forall input,
     Writes.extends ok s (FeatureRequestTool._call JSON_parse input env s).2).
Proof.
  intros Htext. cbv zeta.
  assert (Hroute : forall id req_body,
            Writes.extends
              (Writes.writes_status
                 (fun v => FeaturesRoute.isIn stringify FeaturesRoute.allowedStatuses v
                           = true
                           /\ Writes.text_in FeaturesRoute.allowedStatuses v))
              s (FeaturesRoute.putStatus stringify isURL id req_body env s).2).
  { intros id req_body. eapply extends_mono; [|apply putStatus_writes].
    intros e. apply writes_status_mono. intros v Hv. split; [exact Hv|].
    intros status ->. by apply (isIn_text stringify). }
  assert (Hwide : forall allowed e,
            incl allowed Writes.writtenStatuses ->
            Writes.writes_status_in allowed e ->
            Writes.writes_status (Writes.text_in Writes.writtenStatuses) e).
  { intros allowed e Hincl He. apply writes_status_in_text in He.
    revert He. apply writes_status_mono. intros v Hv status Hs.
    by apply Hincl, Hv. }
  destruct (inserts_write ["requested"] stringify JSON_parse env s) as (Hp & Hc & Ht);
    [by left|].
  pose proof (cycle_writes ["pending"; "shipped"; "failed"] env s (incl_refl _))
    as Hcycle.
  split; [exact Hcycle|]. split; [exact Hroute|]. split; [apply isIn_array|].
  split; [exact Hp|]. split; [exact Hc|]. split; [exact Ht|].
  split.
  { eapply extends_mono; [|exact Hcycle]. intros e. apply Hwide.
    intros x Hx. cbn in *. tauto. }
  split.
  { intros id req_body. eapply extends_mono; [|apply Hroute].
    intros e. apply writes_status_mono. intros v [_ Hv] status Hs.
    specialize (Hv status Hs). cbn in *. tauto. }
  split.
  { intros req_body. eapply extends_mono; [|apply Hp]. intros e. apply Hwide.
    intros x Hx. cbn in *. tauto. }
  split.
  { intros featureData. eapply extends_mono; [|apply Hc]. intros e. apply Hwide.
    intros x Hx. cbn in *. tauto. }
  intros input. eapply extends_mono; [|apply Ht]. intros e. apply Hwide.
  intros x Hx. cbn in *. tauto.
Qed.

Lemma written_statuses_witness :
  Writes.extends (Writes.writes_status (Writes.text_in Writes.writtenStatuses))
    (Sample.state0 [] 0 Sample.store0)
    (FeaturesRoute.putStatus toItem (fun _ => true) (VStr "f1")
       {[ "status" := VArr [VStr "shipped"] ]} Sample.env0
       (Sample.state0 [] 0 Sample.store0)).2.
Proof.
  destruct (written_statuses toItem (fun _ => true) (fun _ => Throw "unused")
              Sample.env0 (Sample.state0 [] 0 Sample.store0))
    as (_ & _ & _ & _ & _ & _ & _ & Hput & _); [reflexivity|].
  apply Hput.
Defined.

(** C4 as claimed fails: a request [PUT /api/features/f1/status] with
    status 'developing' passes the validator and writes 'developing',
    which is not one of requested, pending, shipped, failed, rejected. *)
Lemma status_route_writes_developing :
  let s := Sample.state0 [] 0 Sample.store0 in
  let s' := (FeaturesRoute.putStatus toItem (fun _ => true) (VStr "f1")
               {[ "status" := VStr "developing" ]} Sample.env0 s).2 in
  (fun row => get row "status") <$> feature_requests (store s')
  = [VStr "developing"] /\
  ~ In "developing" Writes.lifecycleStatuses /\
  ~ Writes.extends (Writes.writes_status_in Writes.lifecycleStatuses) s s'.
Proof.
  intros s s'. split; [vm_compute; reflexivity|].
  split; [cbn; intuition discriminate|].
  intros Hext. apply extends_issued in Hext.
  assert (Hw : Writes.written_status <$> Writes.issued s s'
               = [Some (VStr "developing")]) by (vm_compute; reflexivity).
  destruct (Writes.issued s s') as [|e rest]; [discriminate|].
  injection Hw as Hw _. apply Forall_cons_1 in Hext as [Hok _].
  unfold Writes.writes_status_in in Hok. rewrite Hw in Hok.
  destruct Hok as (status & [= <-] & Hin).
  cbn in Hin. intuition discriminate.
Qed.

(** The validator of the status route checks an array element by
    element: an array of listed values passes, and so does the empty
    array, and the array is what the route then writes. *)
Example status_route_writes_arrays :
  let s := Sample.state0 [] 0 Sample.store0 in
  let put status :=
    FeaturesRoute.putStatus toItem (fun _ => true) (VStr "f1")
      {[ "status" := status ]} Sample.env0 s in
  Writes.written_status <$> Writes.issued s (put (VArr [VStr "shipped"])).2
  = [Some (VArr [VStr "shipped"])] /\
  Writes.written_status <$> Writes.issued s (put (VArr [])).2 = [Some (VArr [])] /\
  Writes.issued s (put (VArr [VStr "done"])).2 = [] /\
  FeaturesRoute.code <$> match (put (VArr [VStr "done"])).1 with
                         | Ok r => Some r
                         | Throw _ => None
                         end = Some 400.
Proof. repeat split; vm_compute; exact eq_refl. Qed.

(** ** Saving a feature that already exists *)

Lemma upsert_never_conflicts t row ignoreDuplicates st :
  error (Pg.upsert_feature t row "feature_name,target_account" ignoreDuplicates st).1
  = None.
Proof.
  unfold Pg.upsert_feature. cbn [String.eqb Ascii.eqb Bool.eqb negb].
  destruct (existsb _ _); [destruct ignoreDuplicates|]; reflexivity.
Qed.




(** ** A reply without a verdict, and the sweep over pending requests *)

Lemma total_try_catch {A} (m : M A) h :
  (forall e, Runs.total (h e)) -> Runs.total (try_catch m h).
Proof.
  intros Hh env s. unfold try_catch.
  destruct (m env s) as [[a|e] s1]; [eauto | apply Hh].
Qed.

Lemma total_console lvl args : Runs.total (console lvl args).
Proof. intros env s. by eexists _, _. Qed.

Lemma quiet_issued s s' : Verdict.quiet s s' -> Writes.issued s s' = [].
Proof.
  intros [_ (evs & Htrace & Hall)]. rewrite (issued_app _ _ _ Htrace).
  clear Htrace. induction Hall as [|e evs He _ IH]; [reflexivity|].
  cbn in *. by rewrite He.
Qed.

Lemma with_database_on {A} name (m : M A) env s :
  database (agent s) = true ->
  OrchestrationAgent.with_database name m env s = m env s.
Proof.
  intros H. unfold OrchestrationAgent.with_database, mbind, M_bind, gets.
  by rewrite H.
Qed.

Lemma with_developerAgent_on {A} name (m : M A) env s :
  developerAgent (agent s) = true ->
  OrchestrationAgent.with_developerAgent name m env s = m env s.
Proof.
  intros H. unfold OrchestrationAgent.with_developerAgent, mbind, M_bind, gets.
  by rewrite H.
Qed.

Lemma sweep_is_quiet env s :
  Verdict.quiet s (OrchestrationAgent.checkPendingFeatureRequests env s).2.
Proof.
  apply (keeps_checkPendingFeatureRequests Verdict.quiet).
  - intros s0. split; [reflexivity | apply extends_refl].
  - intros s1 s2 s3 [E1 X1] [E2 X2].
    split; [congruence | by eapply extends_trans].
  - intros lvl args s0. split; [reflexivity | by apply extends_emit].
  - intros s0. split; [reflexivity | by apply extends_silent].
  - intros s0. split; [reflexivity | by apply extends_silent].
Qed.

Lemma sweep_returns env s :
  exists s', OrchestrationAgent.checkPendingFeatureRequests env s = (Ok tt, s').
Proof.
  destruct (total_try_catch
              (pendingFeatures ← OrchestrationAgent.with_database
                                   "getPendingFeatureRequests"
                                   Db.getPendingFeatureRequests;
               if (length pendingFeatures =? 0)%nat then mret tt
               else
                 console Log [VStr ("🔍 Checking " ++ pretty (length pendingFeatures)
                                    ++ " pending feature requests for updates")%string];;
                 forOf pendingFeatures (fun feature =>
                   try_catch (OrchestrationAgent.checkOne feature)
                     (fun message =>
                        console Err
                          [VStr ("❌ Error checking pending feature "
                                 ++ toStr (get feature "id") ++ ":")%string;
                           VStr message])))
              (fun message =>
                 console Err [VStr "❌ Error checking pending feature requests:";
                              VStr message])
              (fun e => total_console _ _) env s) as ([] & s' & H).
  exists s'. exact H.
Qed.

Lemma checkOne_exact feature env s :
  OrchestrationAgent.checkOne feature env s
  = (Ok tt,
     let startedAt :=
       OrchestrationAgent.dateOf (date_parse env)
         (get feature "implementation_started_at") in
     if OrchestrationAgent.pendingTooLong (now env) startedAt
     then emit (Console Log
                  [VStr ("⚠️ Feature " ++ quoted (toStr (get feature "feature_name"))
                         ++ " has been pending for "
                         ++ pretty (OrchestrationAgent.roundedMinutes (now env)
                                      (default 0%Z startedAt))
                         ++ " minutes")%string]) s
     else s).
Proof.
  unfold OrchestrationAgent.checkOne. run_monad.
  by destruct (OrchestrationAgent.pendingTooLong _ _).
Qed.

Lemma pendingTooLong_spec t t0 :
  OrchestrationAgent.pendingTooLong t (Some t0) = true
  <-> (10 * (1000 * 60) < t - t0)%Z.
Proof. unfold OrchestrationAgent.pendingTooLong. apply Z.ltb_lt. Qed.

(** The loop of the sweep logs the warnings of its list, in order, and
    does nothing else. *)
Lemma sweep_loop env (handler : JsObj -> string -> M unit) features : forall s,
  exists s',
    forOf features (fun feature =>
      try_catch (OrchestrationAgent.checkOne feature) (handler feature)) env s
    = (Ok tt, s') /\
    trace s' = trace s ++ Verdict.warnings env features /\
    store s' = store s.
Proof.
  induction features as [|feature rest IH]; intros s; cbn [forOf].
  - exists s. split; [reflexivity|]. split; [by rewrite app_nil_r | reflexivity].
  - rewrite (bind_ok _ _ _ _ tt _ (try_ok _ _ _ _ _ _ (checkOne_exact feature env s))).
    cbv zeta. unfold Verdict.warnings. cbn [omap list_omap].
    fold (Verdict.warnings env rest).
    unfold OrchestrationAgent.pendingTooLong.
    destruct (OrchestrationAgent.dateOf (date_parse env)
                (get feature "implementation_started_at")) as [t0|].
    + change (10 * OrchestrationAgent.minutes)%Z with (10 * (1000 * 60))%Z.
      destruct (10 * (1000 * 60) <? now env - t0)%Z.
      * destruct (IH (emit (Verdict.pendingLine feature (now env) t0) s))
          as (s' & Hrun & Htrace & Hstore).
        exists s'. split; [exact Hrun|].
        split; [rewrite Htrace; state_fields; by rewrite <- app_assoc | exact Hstore].
      * apply IH.
    + apply IH.
Qed.

Lemma getPendingFeatureRequests_reads env s :
  db_initialized s = true ->
  db_failure env (db_round s) = None ->
  Db.getPendingFeatureRequests env s
  = (Ok (Pg.order_by ["implementation_started_at"]
           (filter (fun row => Is_true (Pg.eq_filter "status" (VStr "pending") row))
                   (feature_requests (store s)))),
     next_round s).
Proof.
  intros Hi Hf. unfold Db.getPendingFeatureRequests, Db.ensure_initialized.
  run_monad. rewrite Hi. state_fields. rewrite Hf. state_fields.
  by destruct s.
Qed.

(** When the store answers, the sweep logs its heading and then the
    warnings of the pending requests. *)
Lemma sweep_warns env s :
  database (agent s) = true ->
  db_initialized s = true ->
  db_failure env (db_round s) = None ->
  let pending :=
    Pg.order_by ["implementation_started_at"]
      (filter (fun row => Is_true (Pg.eq_filter "status" (VStr "pending") row))
              (feature_requests (store s))) in
  exists s',
    OrchestrationAgent.checkPendingFeatureRequests env s = (Ok tt, s') /\
    trace s'
    = trace s
      ++ (if (length pending =? 0)%nat then []
          else Console Log
                 [VStr ("🔍 Checking " ++ pretty (length pending)
                        ++ " pending feature requests for updates")%string]
               :: Verdict.warnings env pending).
Proof.
  intros Hdb Hi Hf pending.
  unfold OrchestrationAgent.checkPendingFeatureRequests.
  pose proof (getPendingFeatureRequests_reads env s Hi Hf) as Hread.
  fold pending in Hread.
  destruct (length pending =? 0)%nat eqn:E.
  - exists (next_round s). split; [|by rewrite app_nil_r].
    apply try_ok.
    rewrite (bind_ok _ _ _ _ pending (next_round s));
      [|by rewrite with_database_on]. by rewrite E.
  - edestruct (sweep_loop env) as (s' & Hloop & Htrace & _).
    exists s'. split.
    + apply try_ok.
      rewrite (bind_ok _ _ _ _ pending (next_round s));
        [|by rewrite with_database_on]. rewrite E.
      erewrite bind_ok by reflexivity. exact Hloop.
    + rewrite Htrace. state_fields. by rewrite <- app_assoc.
Qed.

(** The start of a request is read off its row: a timestamp gives its
    instant, any other text what [Date.parse] makes of it. *)
Lemma warning_of_start env feature t0 :
  get feature "implementation_started_at" = VDate t0
  \/ (exists text, get feature "implementation_started_at" = VStr text
                   /\ date_parse env text = Some t0) ->
  Verdict.warnings env [feature]
  = if (10 * (1000 * 60) <? now env - t0)%Z
    then [Verdict.pendingLine feature (now env) t0] else [].
Proof.
  intros Hstart. unfold Verdict.warnings. cbn [omap list_omap].
  assert (OrchestrationAgent.dateOf (date_parse env)
            (get feature "implementation_started_at") = Some t0) as ->.
  { destruct Hstart as [-> | (text & -> & Hparse)]; [reflexivity | exact Hparse]. }
  by destruct (10 * (1000 * 60) <? now env - t0)%Z.
Qed.

Lemma parse_no_verdict response text env s :
  Pg.is_null response = false ->
  Verdict.contentOf response = VStr text ->
  Verdict.successMarker text = false ->
  Verdict.failureMarker text = false ->
  exists parsed,
    DeveloperAgentClient.parseImplementationResponse response env s = (Ok parsed, s)
    /\ get parsed "success" = VBool false
    /\ get parsed "error" = VBool false.
Proof.
  intros Hnn Hc Hs Hf.
  unfold DeveloperAgentClient.parseImplementationResponse.
  assert (Hp : prop response "payload" env s = (Ok (getv response "payload"), s))
    by (destruct response; try discriminate; reflexivity).
  rewrite (bind_ok _ _ _ _ _ _ Hp).
  unfold Verdict.contentOf in Hc. rewrite Hc.
  change (asString (VStr text) "includes") with (mret text : M string).
  unfold mbind, M_bind, mret, M_ret.
  unfold Verdict.successMarker in Hs. unfold Verdict.failureMarker in Hf.
  rewrite Hs, Hf.
  eexists. split; [reflexivity|]. unfold get. by simplify_map_eq.
Qed.

Lemma handleReply_no_verdict env s count feature response text :
  Pg.is_null response = false ->
  Verdict.contentOf response = VStr text ->
  Verdict.successMarker text = false ->
  Verdict.failureMarker text = false ->
  developerAgent (agent s) = true ->
  OrchestrationAgent.handleReply count feature response env s
  = (Ok count,
     emit (Console Log
             [VStr ("⏳ Feature " ++ quoted (toStr (get feature "feature_name"))
                    ++ " is still being processed by developer agent")%string]) s).
Proof.
  intros Hnn Hc Hs Hf Hdev.
  destruct (parse_no_verdict response text env s Hnn Hc Hs Hf)
    as (parsed & Hparse & Hsuccess & Herror).
  unfold OrchestrationAgent.handleReply.
  assert (Hwith : OrchestrationAgent.with_developerAgent "parseImplementationResponse"
                    (DeveloperAgentClient.parseImplementationResponse response) env s
                  = (Ok parsed, s)).
  { unfold OrchestrationAgent.with_developerAgent, mbind, M_bind, gets.
    by rewrite Hdev. }
  rewrite (bind_ok _ _ _ _ _ _ Hwith), Hsuccess, Herror.
  reflexivity.
Qed.

Lemma issued_emit_console s lvl args :
  Writes.issued s (emit (Console lvl args) s) = [].
Proof.
  unfold Writes.issued. cbn. by rewrite drop_app_length.
Qed.

Lemma updateFeatureRequestStatus_ok id status metadata env s row :
  db_initialized s = true ->
  db_failure env (db_round s) = None ->
  filter (fun r => Is_true (Pg.eq_filter "id" id r)) (feature_requests (store s))
  = [row] ->
  let updateData :=
    Db.updateFeatureRequestStatus_updateData (now env) status metadata in
  Db.updateFeatureRequestStatus id status metadata env s
  = (Ok (VObj (Pg.apply_update updateData row)),
     set_store
       (Pg.set_feature_requests
          ((fun r => if Pg.eq_filter "id" id r
                     then Pg.apply_update updateData r else r)
             <$> feature_requests (store s))
          (store s))
       (next_round (emit (DbUpdate "feature_requests" id updateData) s))).
Proof.
  intros Hi Hf Hrow updateData.
  unfold Db.updateFeatureRequestStatus, Db.ensure_initialized.
  run_monad. rewrite Hi. state_fields. rewrite Hf.
  unfold Pg.update_single. rewrite Hrow. reflexivity.
Qed.

Lemma logDeveloperAgentInteraction_ok interactionData env s :
  db_initialized s = true ->
  db_failure env (db_round s) = None ->
  let row := Db.log_row (now env) interactionData in
  let row' := row ∪ Pg.defaults (now env) (serial (store s)) in
  Db.logDeveloperAgentInteraction interactionData env s
  = (Ok (VObj row'),
     set_store
       (Pg.next_serial
          (Pg.set_developer_agent_logs (developer_agent_logs (store s) ++ [row'])
             (store s)))
       (next_round (emit (DbInsert "developer_agent_logs" row) s))).
Proof.
  intros Hi Hf row row'.
  unfold Db.logDeveloperAgentInteraction, Db.ensure_initialized.
  run_monad. rewrite Hi. state_fields. rewrite Hf. reflexivity.
Qed.

Lemma implementFeature_ok feature response env s :
  dev_connected s = true ->
  truthy (get feature "github_repo") = true ->
  dev_reply env feature = Ok response ->
  DeveloperAgentClient.implementFeature feature env s = (Ok response, s).
Proof.
  intros Hc Hrepo Hreply. unfold DeveloperAgentClient.implementFeature.
  run_monad. rewrite Hc, Hrepo. cbn [negb]. cbv beta. by rewrite Hreply.
Qed.

(** A member of a request body: an undefined member is left out, the
    others travel as [json] has them. *)
Lemma wire_lookup (o : JsObj) k :
  wire o !! k
  = o !! k ≫= (fun x => match x with VUndef => None | _ => Some (json x) end).
Proof. apply lookup_omap. Qed.

Lemma apply_update_status t status metadata row :
  Pg.apply_update (Db.updateFeatureRequestStatus_updateData t (VStr status) metadata)
    row !! "status" = Some (VStr status).
Proof.
  unfold Pg.apply_update.
  apply lookup_union_Some_l. by rewrite wire_lookup, status_update_status.
Qed.

Lemma implementOne_no_verdict env s count feature response text row :
  database (agent s) = true ->
  developerAgent (agent s) = true ->
  db_initialized s = true ->
  dev_connected s = true ->
  db_failure env (db_round s) = None ->
  db_failure env (S (db_round s)) = None ->
  filter (fun r => Is_true (Pg.eq_filter "id" (get feature "id") r))
    (feature_requests (store s)) = [row] ->
  truthy (get feature "github_repo") = true ->
  dev_reply env feature = Ok response ->
  Pg.is_null response = false ->
  Verdict.contentOf response = VStr text ->
  Verdict.successMarker text = false ->
  Verdict.failureMarker text = false ->
  let updateData :=
    Db.updateFeatureRequestStatus_updateData (now env) (VStr "pending")
      {[ "assignedTo" := VStr "developer-agent" ]} in
  exists s',
    OrchestrationAgent.implementOne count feature env s = (Ok count, s') /\
    feature_requests (store s')
    = (fun r => if Pg.eq_filter "id" (get feature "id") r
                then Pg.apply_update updateData r else r)
        <$> feature_requests (store s) /\
    Writes.written_status <$> Writes.issued s s' = [Some (VStr "pending"); None].
Proof.
  intros Hdb Hdev Hi Hc Hf1 Hf2 Hrow Hrepo Hreply Hnn Hcontent Hs Hf updateData.
  unfold OrchestrationAgent.implementOne.
  eexists. split; [|split].
  - apply try_ok.
    erewrite bind_ok by reflexivity.
    erewrite bind_ok;
      [|rewrite with_database_on by exact Hdb;
        apply updateFeatureRequestStatus_ok; [exact Hi | exact Hf1 | exact Hrow]].
    erewrite bind_ok;
      [|rewrite with_database_on by exact Hdb;
        apply logDeveloperAgentInteraction_ok; [exact Hi | exact Hf2]].
    erewrite bind_ok;
      [|rewrite with_developerAgent_on by exact Hdev;
        apply implementFeature_ok; [exact Hc | exact Hrepo | exact Hreply]].
    apply (handleReply_no_verdict _ _ _ _ _ text);
      [exact Hnn | exact Hcontent | exact Hs | exact Hf | exact Hdev].
  - reflexivity.
  - erewrite issued_app;
      [|state_fields; rewrite <- !app_assoc; reflexivity].
    cbn [List.filter app Writes.is_write fmap list_fmap Writes.written_status
         String.eqb Ascii.eqb Bool.eqb].
    fold updateData. unfold updateData. by rewrite status_update_status.
Qed.

(** C5.  A reply of the developer agent whose content holds neither the
    success marker nor the failure marker makes the scheduler issue no
    status update: handling it only logs a line and leaves the store as
    it is, so the request keeps the 'pending' it got at the start of
    the loop body.  The sweep over pending requests never writes to the
    store and returns in every world; when the store answers, what it
    logs is its heading followed by one warning for each pending
    request whose start lies more than 10 minutes back, the start being
    the instant of the row's timestamp. *)
Theorem no_verdict_stays_pending env response text :
  Pg.is_null response = false ->
  Verdict.contentOf response = VStr text ->
  Verdict.successMarker text = false ->
  Verdict.failureMarker text = false ->
  (forall s count feature,
     developerAgent (agent s) = true ->
     exists s',
       OrchestrationAgent.handleReply count feature response env s = (Ok count, s')
       /\ store s' = store s /\ Writes.issued s s' = []) /\
  (forall s count feature row,
     database (agent s) = true ->
     developerAgent (agent s) = true ->
     db_initialized s = true ->
     dev_connected s = true ->
     db_failure env (db_round s) = None ->
     db_failure env (S (db_round s)) = None ->
     filter (fun r => Is_true (Pg.eq_filter "id" (get feature "id") r))
       (feature_requests (store s)) = [row] ->
     truthy (get feature "github_repo") = true ->
     dev_reply env feature = Ok response ->
     exists s' written,
       OrchestrationAgent.implementOne count feature env s = (Ok count, s') /\
       written !! "status" = Some (VStr "pending") /\
       feature_requests (store s')
       = (fun r => if Pg.eq_filter "id" (get feature "id") r then written ∪ r else r)
           <$> feature_requests (store s) /\
       Writes.written_status <$> Writes.issued s s' = [Some (VStr "pending"); None]) /\
  (forall env' s,
     exists s',
       OrchestrationAgent.checkPendingFeatureRequests env' s = (Ok tt, s')
       /\ store s' = store s /\ Writes.issued s s' = []) /\
  (forall env' s,
     database (agent s) = true ->
     db_initialized s = true ->
     db_failure env' (db_round s) = None ->
     let pending :=
       Pg.order_by ["implementation_started_at"]
         (filter (fun row => Is_true (Pg.eq_filter "status" (VStr "pending") row))
                 (feature_requests (store s))) in
     exists s',
       OrchestrationAgent.checkPendingFeatureRequests env' s = (Ok tt, s') /\
       trace s'
       = trace s
         ++ (if (length pending =? 0)%nat then []
             else Console Log
                    [VStr ("🔍 Checking " ++ pretty (length pending)
                           ++ " pending feature requests for updates")%string]
                  :: Verdict.warnings env' pending)) /\
  (forall env' feature t0,
     get feature "implementation_started_at" = VDate t0
     \/ (exists started, get feature "implementation_started_at" = VStr started
                         /\ date_parse env' started = Some t0) ->
     Verdict.warnings env' [feature]
     = if (10 * (1000 * 60) <? now env' - t0)%Z
       then [Console Log
               [VStr ("⚠️ Feature " ++ quoted (toStr (get feature "feature_name"))
                      ++ " has been pending for "
                      ++ pretty (OrchestrationAgent.roundedMinutes (now env') t0)
                      ++ " minutes")%string]]
       else []) /\
  (forall env' features more,
     Verdict.warnings env' (features ++ more)
     = Verdict.warnings env' features ++ Verdict.warnings env' more).
Proof.
  intros Hnn Hcontent Hs Hf. repeat apply conj.
  - intros s count feature Hdev. eexists. split; [|split].
    + by apply (handleReply_no_verdict _ _ _ _ _ text).
    + reflexivity.
    + by apply issued_emit_console.
  - intros s count feature row Hdb Hdev Hi Hc Hf1 Hf2 Hrow Hrepo Hreply.
    destruct (implementOne_no_verdict env s count feature response text row)
      as (s' & Hrun & Hrows & Hwritten); try done.
    exists s', (wire (Db.updateFeatureRequestStatus_updateData (now env)
                        (VStr "pending")
                        {[ "assignedTo" := VStr "developer-agent" ]})).
    split; [exact Hrun|]. split; [|split; [|exact Hwritten]].
    + by rewrite wire_lookup, status_update_status.
    + rewrite Hrows. apply list_fmap_ext. intros i r Hr.
      destruct (Pg.eq_filter "id" (get feature "id") r) eqn:E; [|reflexivity].
      assert (r = row) as ->; [|reflexivity].
      assert (Hin : r ∈ filter (fun r => Is_true (Pg.eq_filter "id" (get feature "id") r))
                      (feature_requests (store s))).
      { apply list_elem_of_filter. split; [by rewrite E | by eapply list_elem_of_lookup_2]. }
      rewrite Hrow in Hin. by apply list_elem_of_singleton in Hin.
  - intros env' s. destruct (sweep_returns env' s) as (s' & Hrun).
    pose proof (sweep_is_quiet env' s) as Hquiet. rewrite Hrun in Hquiet.
    exists s'. split; [exact Hrun|]. split; [apply Hquiet | by apply quiet_issued].
  - intros env' s. apply sweep_warns.
  - intros env' feature t0. apply warning_of_start.
  - intros env' features more. unfold Verdict.warnings. apply omap_app.
Qed.

Lemma no_verdict_stays_pending_witness :
  (exists s',
     OrchestrationAgent.implementOne 0 Sample.exportCsv Sample.env0
       (Sample.state0 [] 0 Sample.store1) = (Ok 0, s') /\
     (fun r => get r "status") <$> feature_requests (store s')
     = [VStr "shipped"; VStr "pending"]) /\
  (exists s',
     OrchestrationAgent.checkPendingFeatureRequests Sample.env0
       (Sample.state0 [] 0 Sample.store2) = (Ok tt, s') /\
     trace s'
     = [Console Log [VStr "🔍 Checking 1 pending feature requests for updates"];
        Console Log
          [VStr ("⚠️ Feature " ++ quoted "search"
                 ++ " has been pending for 27 minutes")%string]]).
Proof.
  destruct (no_verdict_stays_pending Sample.env0 Sample.undecided "Working on it")
    as (_ & Hbody & _ & Hsweep & Hwarn & _); [reflexivity ..|].
  split.
  - destruct (Hbody (Sample.state0 [] 0 Sample.store1) 0 Sample.exportCsv
                Sample.exportCsv)
      as (s' & written & Hrun & Hstatus & Hrows & _); [reflexivity ..|].
    exists s'. split; [exact Hrun|]. rewrite Hrows.
    cbn [Sample.state0 Sample.store1 store feature_requests fmap list_fmap].
    assert (H1 : Pg.eq_filter "id" (get Sample.exportCsv "id") Sample.darkMode = false)
      by (vm_compute; reflexivity).
    assert (H2 : Pg.eq_filter "id" (get Sample.exportCsv "id") Sample.exportCsv = true)
      by (vm_compute; reflexivity).
    rewrite H1, H2.
    assert (H3 : get Sample.darkMode "status" = VStr "shipped")
      by (vm_compute; reflexivity).
    assert (H4 : get (written ∪ Sample.exportCsv) "status" = VStr "pending")
      by (unfold get; by rewrite (lookup_union_Some_l _ _ _ _ Hstatus)).
    by rewrite H3, H4.
  - destruct (Hsweep Sample.env0 (Sample.state0 [] 0 Sample.store2))
      as (s' & Hrun & Htrace); [reflexivity ..|].
    exists s'. split; [exact Hrun|]. rewrite Htrace.
    assert (Hp : Pg.order_by ["implementation_started_at"]
                   (filter (fun row => Is_true (Pg.eq_filter "status" (VStr "pending")
                                                  row))
                      (feature_requests (store (Sample.state0 [] 0 Sample.store2))))
                 = [Sample.stuck]) by (vm_compute; exact eq_refl).
    rewrite Hp.
    rewrite (Hwarn Sample.env0 Sample.stuck 1749998400000%Z);
      [vm_compute; exact eq_refl|].
    right. exists "2025-06-15T14:40:00+00:00". split; vm_compute; exact eq_refl.
Defined.

(** ** A failing chat agent during a deployment tick *)

Lemma total_ret {A} (a : A) : Runs.total (mret a).
Proof. intros env s. by eexists _, _. Qed.

Lemma total_bind {A B} (m : M A) (f : A -> M B) :
  Runs.total m -> (forall a, Runs.total (f a)) -> Runs.total (m ≫= f).
Proof.
  intros Hm Hf env s. destruct (Hm env s) as (a & s1 & H1).
  destruct (Hf a env s1) as (b & s2 & H2).
  exists b, s2. by rewrite (bind_ok _ _ _ _ _ _ H1).
Qed.

Lemma total_modify f : Runs.total (modify f).
Proof. intros env s. by eexists _, _. Qed.

Lemma total_gets {A} (f : State -> A) : Runs.total (gets f).
Proof. intros env s. by eexists _, _. Qed.

Lemma total_sendToAgent message taskId :
  Runs.total (OrchestrationAgent.sendToAgent message taskId).
Proof.
  unfold OrchestrationAgent.sendToAgent.
  apply total_bind; [intros env s; by eexists _, _|]. intros t.
  apply total_bind; [apply total_gets|]. intros session.
  apply total_try_catch. intros e.
  apply total_bind; [apply total_console | intros; apply total_ret].
Qed.

Lemma total_agent_initialize : Runs.total OrchestrationAgent.initialize.
Proof.
  apply total_try_catch. intros e.
  apply total_bind; [apply total_console|]. intros _.
  apply total_bind; [|intros; apply total_modify].
  apply total_bind; [apply total_modify | intros; apply total_console].
Qed.

Lemma total_executeOrchestrationCycle :
  Runs.total OrchestrationAgent.executeOrchestrationCycle.
Proof.
  apply total_bind; [apply total_gets|]. intros ready.
  apply total_bind.
  - destruct ready; [apply total_ret | apply total_agent_initialize].
  - intros _. apply total_try_catch. intros e. apply total_console.
Qed.

Lemma cycle_returns env s :
  exists s', OrchestrationAgent.executeOrchestrationCycle env s = (Ok tt, s').
Proof.
  destruct (total_executeOrchestrationCycle env s) as ([] & s' & H). eauto.
Qed.

Lemma sendToAgent_failure env s m taskId e :
  (forall payload, chat_post env payload = Throw e) ->
  exists result line,
    OrchestrationAgent.sendToAgent (VStr m) taskId env s
    = (Ok result,
       emit (Console Err [VStr "❌ Failed to send message to agent:"; VStr e])
         (emit (Console Log [VStr line]) s)) /\
    get result "success" = VBool false /\
    get result "error" = VStr e /\
    get result "request" = VStr m.
Proof.
  intros Hpost. unfold OrchestrationAgent.sendToAgent, substring0.
  cbn [asString]. run_monad. cbv beta. rewrite Hpost.
  eexists _, _. split; [reflexivity|].
  unfold get. by simplify_map_eq.
Qed.

(** Once the database service is initialised, [updateDeploymentRun]
    stops at its first call of [raw]: it throws before any request is
    made and changes nothing. *)
Lemma updateDeploymentRun_throws id success error env s :
  db_initialized s = true ->
  Db.updateDeploymentRun id success error env s
  = (Throw "this.supabase.raw is not a function", s).
Proof.
  intros Hi. unfold Db.updateDeploymentRun, Db.ensure_initialized, Db.raw.
  run_monad. by rewrite Hi.
Qed.

Lemma updateDatabaseAfterExecution_deployment env s task result :
  get task "type" = VStr "deployment_monitoring" ->
  truthy (get task "deploymentId") = true ->
  database (agent s) = true ->
  db_initialized s = true ->
  OrchestrationAgent.updateDatabaseAfterExecution task result env s
  = (Ok tt,
     emit (Console Err [VStr "❌ Failed to update database:";
                        VStr "this.supabase.raw is not a function"]) s).
Proof.
  intros Htype Hid Hdb Hi.
  unfold OrchestrationAgent.updateDatabaseAfterExecution.
  erewrite bind_ok by reflexivity. rewrite Hdb. cbn [negb].
  erewrite try_throw; [reflexivity|].
  rewrite Htype, Hid.
  cbn [Db.is_str String.eqb Ascii.eqb Bool.eqb andb].
  erewrite bind_ok by reflexivity.
  erewrite bind_throw; [reflexivity|].
  by apply updateDeploymentRun_throws.
Qed.

Lemma logInteraction_failure env s result m :
  get result "success" = VBool false ->
  get result "request" = VStr m ->
  exists entry,
    OrchestrationAgent.logInteraction result env s
    = (Ok tt, emit (Console Log [VStr "📝 Interaction logged:"; VObj entry]) s).
Proof.
  intros Hsuccess Hrequest. unfold OrchestrationAgent.logInteraction.
  rewrite Hsuccess, Hrequest. cbn [OrchestrationAgent.lengthOf truthy].
  eexists. reflexivity.
Qed.

Lemma processAgentResponse_failure env s result :
  get result "success" = VBool false ->
  OrchestrationAgent.processAgentResponse result env s
  = (Ok tt,
     emit (Console Log
             [VStr "⚠️  Agent request failed, will retry in next cycle"]) s).
Proof.
  intros Hsuccess. unfold OrchestrationAgent.processAgentResponse.
  by rewrite Hsuccess.
Qed.

Lemma dispatch_failure env s task m e :
  get task "type" = VStr "deployment_monitoring" ->
  truthy (get task "deploymentId") = true ->
  get task "message" = VStr m ->
  (forall payload, chat_post env payload = Throw e) ->
  database (agent s) = true ->
  db_initialized s = true ->
  exists s',
    OrchestrationAgent.dispatch (VObj task) env s = (Ok tt, s') /\
    store s' = store s /\
    db_round s' = db_round s /\
    Writes.issued s s' = [] /\
    Console Err [VStr "❌ Failed to update database:";
                 VStr "this.supabase.raw is not a function"] ∈ trace s'.
Proof.
  intros Htype Hid Hmsg Hpost Hdb Hi.
  unfold OrchestrationAgent.dispatch. cbn [prop getv].
  do 5 (erewrite bind_ok by reflexivity). rewrite Hmsg.
  edestruct (sendToAgent_failure env) as (result & line & Hsend & Hsucc & Herr & Hreq);
    [exact Hpost|].
  erewrite bind_ok by exact Hsend.
  erewrite bind_ok;
    [|apply (updateDatabaseAfterExecution_deployment _ _ task result);
      [exact Htype | exact Hid | exact Hdb | exact Hi]].
  edestruct (logInteraction_failure env) as (entry & Hlog);
    [exact Hsucc | exact Hreq|].
  erewrite bind_ok by exact Hlog.
  rewrite processAgentResponse_failure by exact Hsucc.
  eexists. split; [reflexivity|]. split; [reflexivity|]. split; [reflexivity|].
  split.
  - erewrite issued_app; [|state_fields; rewrite <- !app_assoc; reflexivity].
    reflexivity.
  - state_fields. rewrite !elem_of_app, !list_elem_of_singleton. tauto.
Qed.

Lemma cycle_dispatches env s s1 task :
  initialized (agent s) = true ->
  OrchestrationAgent.select env s = (Ok (VObj task), s1) ->
  OrchestrationAgent.executeOrchestrationCycle env s
  = try_catch (OrchestrationAgent.dispatch (VObj task))
      (fun message =>
         console Err [VStr "❌ Orchestration cycle failed:"; VStr message])
      env s1.
Proof.
  intros Hinit Hselect. unfold OrchestrationAgent.executeOrchestrationCycle.
  erewrite bind_ok by reflexivity. rewrite Hinit.
  erewrite bind_ok by reflexivity.
  unfold try_catch at 1. rewrite (bind_ok _ _ _ _ _ _ Hselect).
  reflexivity.
Qed.

(** C6 on the sources.  When the chat agent's endpoint throws during a
    tick on a deployment_monitoring task, [sendToAgent] catches the
    error and returns a result with [success: false] and the error's
    message, and [executeOrchestrationCycle] returns normally, as it
    does in every world.  The failed run is not recorded, though:
    [updateDeploymentRun] throws at its call of [raw] before it sends
    anything, [updateDatabaseAfterExecution] logs that error, and the
    tick issues no write and leaves the store, the deployment's
    [error_count] and [last_error] included, as it was. *)
Theorem chat_agent_error_is_not_recorded env s s1 task m e :
  (forall payload, chat_post env payload = Throw e) ->
  initialized (agent s) = true ->
  OrchestrationAgent.select env s = (Ok (VObj task), s1) ->
  get task "type" = VStr "deployment_monitoring" ->
  truthy (get task "deploymentId") = true ->
  get task "message" = VStr m ->
  database (agent s1) = true ->
  db_initialized s1 = true ->
  (exists result s2,
     OrchestrationAgent.sendToAgent (VStr m) (get task "id") env s1 = (Ok result, s2)
     /\ get result "success" = VBool false
     /\ get result "error" = VStr e) /\
  (exists s3,
     OrchestrationAgent.executeOrchestrationCycle env s = (Ok tt, s3) /\
     Writes.issued s1 s3 = [] /\
     db_round s3 = db_round s1 /\
     store s3 = store s1 /\
     Console Err [VStr "❌ Failed to update database:";
                  VStr "this.supabase.raw is not a function"] ∈ trace s3) /\
  (forall message taskId env' s',
     exists result s'',
       OrchestrationAgent.sendToAgent message taskId env' s' = (Ok result, s'')) /\
  (forall env' s',
     exists s'', OrchestrationAgent.executeOrchestrationCycle env' s' = (Ok tt, s'')).
Proof.
  intros Hpost Hinit Hselect Htype Hid Hmsg Hdb Hi.
  split; [|split; [|split]].
  - destruct (sendToAgent_failure env s1 m (get task "id") e Hpost)
      as (result & line & Hsend & Hsucc & Herr & _).
    eauto 6.
  - destruct (dispatch_failure env s1 task m e)
      as (s3 & Hrun & Hstore & Hround & Hissued & Hlog); try done.
    exists s3.
    split; [|split; [exact Hissued|split; [exact Hround|split; [exact Hstore|exact Hlog]]]].
    rewrite (cycle_dispatches env s s1 task Hinit Hselect).
    by apply try_ok.
  - intros message taskId env' s'. apply total_sendToAgent.
  - intros env' s'. apply cycle_returns.
Qed.

Lemma chat_agent_error_is_not_recorded_witness :
  exists s3,
    OrchestrationAgent.executeOrchestrationCycle Sample.env0
      (Sample.state0 [] 0 Sample.store0) = (Ok tt, s3) /\
    (fun r => (get r "error_count", get r "last_error"))
      <$> orchestration_deployments (store s3)
    = [(VNum 1, VNull)].
Proof.
  set (s := Sample.state0 [] 0 Sample.store0).
  set (selected := OrchestrationAgent.select Sample.env0 s).
  set (task := match selected.1 with Ok (VObj t) => t | _ => ∅ end).
  destruct (chat_agent_error_is_not_recorded Sample.env0 s selected.2 task
              "Monitor deployment: acme web - Check https://x.com/acme/status/1"
              "timeout of 30000ms exceeded")
    as (_ & (s3 & Hrun & _ & _ & Hstore & _) & _);
    [intros; vm_compute; exact eq_refl ..|].
  exists s3. split; [exact Hrun|]. rewrite Hstore.
  vm_compute. exact eq_refl.
Defined.

(** ** The definitions at work *)

Example classify_deploy :
  OrchestrationChatService.fallbackIntentParsing
    "Deploy agent on this GitHub @https://github.com/acme/web"
  = {| OrchestrationChatService.type := "deploy";
       OrchestrationChatService.confidence := 0.6 |}.
Proof. reflexivity. Qed.

(** 'deployment' contains 'deploy', so the first rule takes it. *)
Example classify_deployment :
  OrchestrationChatService.type
    (OrchestrationChatService.fallbackIntentParsing "Show the deployment list")
  = "deploy".
Proof. reflexivity. Qed.

Example classify_general :
  OrchestrationChatService.fallbackIntentParsing "Good morning"
  = {| OrchestrationChatService.type := "general";
       OrchestrationChatService.confidence := 0.4 |}.
Proof. reflexivity. Qed.

Example pull_request_url_found :
  DeveloperAgentClient.prUrlMatch
    "✅ Implementation Complete, see https://github.com/acme/web/pull/42."
  = Some ("https://github.com/acme/web/pull/42", "42").
Proof. reflexivity. Qed.

Example pull_request_url_needs_owner :
  DeveloperAgentClient.prUrlMatch "https://github.com//web/pull/42" = None.
Proof. reflexivity. Qed.

Example iso_text_of_an_instant :
  toISOString 1700000000123 = "2023-11-14T22:13:20.123Z".
Proof. reflexivity. Qed.

Example trim_and_lower : trim (toLowerCase "  Dark Mode ") = "dark mode".
Proof. reflexivity. Qed.

(** A tick in the sample world: no requested feature, one runnable
    deployment, the chat agent times out. *)
Example sample_tick :
  let run := OrchestrationAgent.executeOrchestrationCycle Sample.env0
               (Sample.state0 [] 0 Sample.store0) in
  run.1 = Ok tt /\
  (fun task => get task "id") <$> taskQueue (agent run.2) = [VStr "deployment-d1"] /\
  Writes.issued (Sample.state0 [] 0 Sample.store0) run.2 = [] /\
  (fun row => (get row "run_count", get row "error_count"))
    <$> orchestration_deployments (store run.2)
  = [(VNum 4, VNum 1)].
Proof. repeat split; vm_compute; exact eq_refl. Qed.

(* ===================================================================== *)
(** * Further properties of the same code                                 *)
(* ===================================================================== *)

(** ** Rows that an update touches *)


Lemma eq_filter_apply_update column v data row :
  data !! column = None ->
  Pg.eq_filter column v (Pg.apply_update data row) = Pg.eq_filter column v row.
Proof.
  intros Hnone. unfold Pg.eq_filter, Pg.apply_update, get.
  by rewrite lookup_union_r by (by rewrite wire_lookup, Hnone).
Qed.

Lemma get_apply_update_other data row column :
  data !! column = None -> get (Pg.apply_update data row) column = get row column.
Proof.
  intros Hnone. unfold Pg.apply_update, get.
  by rewrite lookup_union_r by (by rewrite wire_lookup, Hnone).
Qed.

Lemma get_apply_update_set data row column v :
  data !! column = Some v ->
  get (Pg.apply_update data row) column
  = match v with VUndef => get row column | _ => json v end.
Proof.
  intros Hsome. unfold Pg.apply_update, get.
  destruct v;
    first [ by rewrite lookup_union_r by (by rewrite wire_lookup, Hsome)
          | by erewrite lookup_union_Some_l by (by rewrite wire_lookup, Hsome) ].
Qed.

(** Rewriting the rows a filter selects, by a function that keeps them
    selected, commutes with the filter. *)
Lemma filter_rewrite_rows (hit : JsObj -> bool) (f : JsObj -> JsObj)
    (tbl : list JsObj) :
  (forall r, hit (f r) = hit r) ->
  filter (fun r => Is_true (hit r)) ((fun r => if hit r then f r else r) <$> tbl)
  = f <$> filter (fun r => Is_true (hit r)) tbl.
Proof.
  intros Hkeep. induction tbl as [|r rest IH]; [reflexivity|].
  cbn [fmap list_fmap]. rewrite !filter_cons.
  destruct (hit r) eqn:E.
  - rewrite Hkeep, E. cbn. destruct (decide True); [|done].
    cbn [fmap list_fmap]. f_equal. exact IH.
  - rewrite E. cbn. destruct (decide False); [done|]. exact IH.
Qed.


Lemma rewrite_rows_single (hit : JsObj -> bool) (f : JsObj -> JsObj)
    (tbl : list JsObj) row :
  filter (fun r => Is_true (hit r)) tbl = [row] ->
  (fun r => if hit r then f r else r) <$> tbl
  = (fun r => if hit r then f row else r) <$> tbl.
Proof.
  intros Hrow. apply list_fmap_ext. intros i r Hr.
  destruct (hit r) eqn:E; [|reflexivity].
  assert (Hin : r ∈ filter (fun r => Is_true (hit r)) tbl).
  { apply list_elem_of_filter. split; [by rewrite E | by eapply list_elem_of_lookup_2]. }
  rewrite Hrow in Hin. apply list_elem_of_singleton in Hin. by subst.
Qed.

Lemma status_update_no_id t status metadata :
  Db.updateFeatureRequestStatus_updateData t status metadata !! "id" = None.
Proof.
  unfold Db.updateFeatureRequestStatus_updateData.
  repeat case_match;
    repeat (rewrite lookup_insert_ne by discriminate);
    by apply lookup_singleton_ne.
Qed.

Lemma rewrite_rows_twice (hit : JsObj -> bool) (f g : JsObj -> JsObj)
    (tbl : list JsObj) row :
  filter (fun r => Is_true (hit r)) tbl = [row] ->
  (forall r, hit (f r) = hit r) ->
  (fun r => if hit r then g r else r) <$> ((fun r => if hit r then f r else r) <$> tbl)
  = (fun r => if hit r then g (f row) else r) <$> tbl.
Proof.
  intros Hrow Hkeep. rewrite <- list_fmap_compose.
  apply list_fmap_ext. intros i r Hr. cbn.
  destruct (hit r) eqn:E.
  - rewrite Hkeep, E.
    assert (Hin : r ∈ filter (fun r => Is_true (hit r)) tbl).
    { apply list_elem_of_filter. split; [by rewrite E | by eapply list_elem_of_lookup_2]. }
    rewrite Hrow in Hin. apply list_elem_of_singleton in Hin. by subst.
  - by rewrite E.
Qed.

(** ** What a reply of the developer agent does to the request *)

(** What [parseImplementationResponse] reads off a reply whose content
    is the text [text]. *)
Lemma parse_text response text :
  Pg.is_null response = false ->
  Verdict.contentOf response = VStr text ->
  exists parsed, forall env s,
    DeveloperAgentClient.parseImplementationResponse response env s = (Ok parsed, s)
    /\ get parsed "success" = VBool (Verdict.successMarker text)
    /\ get parsed "error" = VBool (Verdict.failureMarker text)
    /\ get parsed "content" = VStr text
    /\ get parsed "pullRequestUrl"
       = match DeveloperAgentClient.prUrlMatch text with
         | Some (url, _) => VStr url
         | None => VNull
         end
    /\ get parsed "pullRequestNumber"
       = match DeveloperAgentClient.prUrlMatch text with
         | Some (_, digits) => parseInt digits
         | None => VNull
         end.
Proof.
  intros Hnn Hc. eexists. intros env s.
  unfold DeveloperAgentClient.parseImplementationResponse.
  assert (Hp : prop response "payload" env s = (Ok (getv response "payload"), s))
    by (destruct response; try discriminate; reflexivity).
  rewrite (bind_ok _ _ _ _ _ _ Hp).
  unfold Verdict.contentOf in Hc. rewrite Hc.
  change (asString (VStr text) "includes") with (mret text : M string).
  unfold mbind, M_bind, mret, M_ret.
  split; [reflexivity|].
  unfold get, Verdict.successMarker, Verdict.failureMarker.
  repeat split; by simplify_map_eq.
Qed.

(** ** The pull-request URL read off a reply *)

Lemma strip_prefix_app p : forall s r,
  strip_prefix p s = Some r -> s = (p ++ r)%string.
Proof.
  induction p as [|a p IH]; intros s r H; cbn in H.
  - by injection H as ->.
  - destruct s as [|b s]; [discriminate|].
    destruct (Ascii.eqb a b) eqn:E; [|discriminate].
    apply Ascii.eqb_eq in E as ->. by rewrite (IH s r H).
Qed.

Lemma span_app p : forall s a b,
  span p s = (a, b) ->
  s = (a ++ b)%string /\ Forall (fun c => p c = true) (list_ascii_of_string a).
Proof.
  induction s as [|c s IH]; intros a b H; cbn in H.
  - injection H as <- <-. split; [reflexivity | constructor].
  - destruct (p c) eqn:E.
    + destruct (span p s) as [a' b'] eqn:E'. injection H as <- <-.
      destruct (IH a' b' eq_refl) as [-> Hall].
      split; [reflexivity | by constructor].
    + injection H as <- <-. split; [reflexivity | constructor].
Qed.

Lemma append_cons a p r : (String a p ++ r)%string = String a (p ++ r)%string.
Proof. reflexivity. Qed.

Lemma prefix_app p : forall r, String.prefix p (p ++ r) = true.
Proof.
  induction p as [|a p IH]; intros r; [by destruct r|].
  rewrite append_cons. cbn [String.prefix].
  destruct (ascii_dec a a); [apply IH | done].
Qed.

Lemma includes_prefix hay needle :
  String.prefix needle hay = true -> includes hay needle = true.
Proof. intros H. destruct hay; cbn [includes]; by rewrite H. Qed.

Lemma includes_app before : forall needle after,
  includes (before ++ needle ++ after) needle = true.
Proof.
  induction before as [|c before IH]; intros needle after.
  - change (includes (needle ++ after) needle = true).
    apply includes_prefix, prefix_app.
  - rewrite append_cons. cbn [includes]. rewrite IH. apply orb_true_r.
Qed.

Lemma append_assoc (a b c : string) : ((a ++ b) ++ c)%string = (a ++ (b ++ c))%string.
Proof. induction a as [|x a IH]; [reflexivity|]. by rewrite !append_cons, IH. Qed.

Lemma span_stops p : forall s a b,
  span p s = (a, b) ->
  match b with String c _ => p c = false | EmptyString => True end.
Proof.
  induction s as [|c s IH]; intros a b H; cbn in H.
  - by injection H as <- <-.
  - destruct (p c) eqn:E.
    + destruct (span p s) as [a' b'] eqn:E'. injection H as <- <-.
      by apply (IH a').
    + by injection H as <- <-.
Qed.

Lemma pr_url_at_spec s url digits :
  DeveloperAgentClient.pr_url_at s = Some (url, digits) ->
  exists owner repo rest,
    url = ("https://github.com/" ++ owner ++ "/" ++ repo ++ "/pull/" ++ digits)%string
    /\ s = (url ++ rest)%string
    /\ owner <> "" /\ repo <> "" /\ digits <> ""
    /\ Forall (fun c => c <> "/"%char) (list_ascii_of_string owner)
    /\ Forall (fun c => c <> "/"%char) (list_ascii_of_string repo)
    /\ Forall (fun c => is_digit c = true) (list_ascii_of_string digits)
    /\ match rest with String c _ => is_digit c = false | EmptyString => True end.
Proof.
  unfold DeveloperAgentClient.pr_url_at. intros H.
  destruct (strip_prefix "https://github.com/" s) as [r1|] eqn:E1; [|discriminate].
  cbn [mbind option_bind] in H.
  destruct (span DeveloperAgentClient.not_slash r1) as [owner r2] eqn:E2.
  destruct (String.eqb owner "") eqn:Eo; [discriminate|].
  destruct (strip_prefix "/" r2) as [r3|] eqn:E3; [|discriminate].
  cbn [mbind option_bind] in H.
  destruct (span DeveloperAgentClient.not_slash r3) as [repo r4] eqn:E4.
  destruct (String.eqb repo "") eqn:Er; [discriminate|].
  destruct (strip_prefix "/pull/" r4) as [r5|] eqn:E5; [|discriminate].
  cbn [mbind option_bind] in H.
  destruct (span is_digit r5) as [ds rest] eqn:E6.
  destruct (String.eqb ds "") eqn:Ed; [discriminate|].
  injection H as <- <-.
  apply strip_prefix_app in E1, E3, E5.
  pose proof (span_stops _ _ _ _ E6) as Hstop.
  apply span_app in E2 as [-> Ho], E4 as [-> Hr], E6 as [-> Hd].
  exists owner, repo, rest. subst.
  repeat split.
  - by rewrite !append_assoc.
  - intros ->. discriminate.
  - intros ->. discriminate.
  - intros ->. discriminate.
  - eapply Forall_impl; [exact Ho|]. intros c Hc ->. discriminate.
  - eapply Forall_impl; [exact Hr|]. intros c Hc ->. discriminate.
  - exact Hd.
  - exact Hstop.
Qed.

Lemma prUrlMatch_spec text : forall url digits,
  DeveloperAgentClient.prUrlMatch text = Some (url, digits) ->
  exists before after,
    text = (before ++ url ++ after)%string /\
    DeveloperAgentClient.pr_url_at (url ++ after) = Some (url, digits).
Proof.
  induction text as [|c text IH]; intros url digits H; cbn [DeveloperAgentClient.prUrlMatch] in H.
  - destruct (DeveloperAgentClient.pr_url_at "") as [m|] eqn:E; [|discriminate].
    injection H as ->. destruct (pr_url_at_spec _ _ _ E) as (o & r & rest & -> & Hs & _).
    exists "", rest. split; [exact Hs|]. by rewrite <- Hs.
  - destruct (DeveloperAgentClient.pr_url_at (String c text)) as [m|] eqn:E.
    + injection H as ->. destruct (pr_url_at_spec _ _ _ E) as (o & r & rest & Hu & Hs & _).
      exists "", rest. split; [exact Hs|]. by rewrite <- Hs.
    + destruct (IH _ _ H) as (before & after & -> & Hat).
      exists (String c before), after. split; [reflexivity | exact Hat].
Qed.

Lemma parseDigits_nonneg digits : (0 <= parseDigits digits)%Z.
Proof.
  unfold parseDigits.
  assert (H : forall l acc, (0 <= acc)%Z ->
            (0 <= fold_left
                    (fun acc c => (10 * acc + Z.of_nat (nat_of_ascii c - 48))%Z)
                    l acc)%Z).
  { induction l as [|c l IH]; intros acc Hacc; [exact Hacc|].
    cbn [fold_left]. apply IH. lia. }
  by apply H.
Qed.

(** A natural number below 2^53 is a double. *)
Lemma nearestDouble_small n :
  (0 <= n < 2 ^ 53)%Z -> nearestDouble n = Some n.
Proof.
  intros [H0 H53]. unfold nearestDouble.
  destruct (Z.log2 n + 1 <=? 53)%Z eqn:E; [reflexivity|].
  apply Z.leb_gt in E. exfalso.
  destruct (Z.eq_dec n 0%Z) as [->|Hn]; [cbn in E; lia|].
  assert (Z.log2 n < 53)%Z by (apply Z.log2_lt_pow2; lia). lia.
Qed.

Lemma parseInt_small digits :
  (parseDigits digits < 2 ^ 53)%Z -> parseInt digits = VNum (parseDigits digits).
Proof.
  intros H. unfold parseInt.
  by rewrite nearestDouble_small by (split; [apply parseDigits_nonneg | exact H]).
Qed.

(** The pull request that [parseImplementationResponse] reports is read
    off the text of the reply: either there is none, and both the URL
    and the number are null, or the text holds
    https://github.com/OWNER/REPO/pull/DIGITS with non-empty OWNER and
    REPO free of slashes, the URL is that piece of text and the number
    is what [parseInt] makes of all its digits: their value when that
    is below 2^53, the nearest double from there on. *)
Theorem pull_request_is_read_off_reply response text :
  Pg.is_null response = false ->
  Verdict.contentOf response = VStr text ->
  exists parsed,
    (forall env s,
       DeveloperAgentClient.parseImplementationResponse response env s
       = (Ok parsed, s)) /\
    get parsed "success" = VBool (Verdict.successMarker text) /\
    get parsed "error" = VBool (Verdict.failureMarker text) /\
    ((get parsed "pullRequestUrl" = VNull /\ get parsed "pullRequestNumber" = VNull)
     \/
     exists before owner repo digits after,
       text = (before ++ "https://github.com/" ++ owner ++ "/" ++ repo
               ++ "/pull/" ++ digits ++ after)%string /\
       get parsed "pullRequestUrl"
       = VStr ("https://github.com/" ++ owner ++ "/" ++ repo ++ "/pull/" ++ digits) /\
       get parsed "pullRequestNumber" = parseInt digits /\
       ((parseDigits digits < 2 ^ 53)%Z ->
        get parsed "pullRequestNumber" = VNum (parseDigits digits)) /\
       owner <> "" /\ repo <> "" /\ digits <> "" /\
       Forall (fun c => c <> "/"%char) (list_ascii_of_string owner) /\
       Forall (fun c => c <> "/"%char) (list_ascii_of_string repo) /\
       Forall (fun c => is_digit c = true) (list_ascii_of_string digits) /\
       match after with String c _ => is_digit c = false | EmptyString => True end).
Proof.
  intros Hnn Hc.
  destruct (parse_text response text Hnn Hc) as (parsed & Hparse).
  exists parsed.
  destruct (Hparse (Sample.env0) (Sample.state0 [] 0 Sample.store0))
    as (_ & Hs & He & _ & Hurl & Hnum).
  split; [intros env s; apply Hparse|]. split; [exact Hs|]. split; [exact He|].
  destruct (DeveloperAgentClient.prUrlMatch text) as [[url digits]|] eqn:E;
    [right | left; by split].
  destruct (prUrlMatch_spec _ _ _ E) as (before & after & Htext & Hat).
  destruct (pr_url_at_spec _ _ _ Hat)
    as (owner & repo & rest & Hu & Hrest & Ho & Hr & Hd & Hso & Hsr & Hds & Hstop).
  assert (rest = after) as ->.
  { clear - Hrest. revert Hrest. generalize url. induction url0 as [|c u IH]; intros H.
    - exact (eq_sym H).
    - rewrite !append_cons in H. injection H as H. by apply IH. }
  exists before, owner, repo, digits, after. subst url.
  rewrite Hurl, Hnum. rewrite !append_assoc in Htext.
  split; [exact Htext|]. split; [reflexivity|]. split; [reflexivity|].
  split; [apply parseInt_small|]. repeat split; assumption.
Qed.

Lemma pull_request_is_read_off_reply_witness :
  exists parsed,
    DeveloperAgentClient.parseImplementationResponse
      (VObj {[ "payload" := VObj {[ "content" :=
         VStr "Done. ✅ Implementation Complete: https://github.com/acme/web/pull/42!" ]} ]})
      Sample.env0 (Sample.state0 [] 0 Sample.store0)
    = (Ok parsed, Sample.state0 [] 0 Sample.store0) /\
    get parsed "success" = VBool true.
Proof.
  destruct (pull_request_is_read_off_reply
              (VObj {[ "payload" := VObj {[ "content" :=
                 VStr "Done. ✅ Implementation Complete: https://github.com/acme/web/pull/42!" ]} ]})
              "Done. ✅ Implementation Complete: https://github.com/acme/web/pull/42!")
    as (parsed & Hrun & Hs & _); [reflexivity | reflexivity |].
  exists parsed. split; [apply Hrun | exact Hs].
Defined.

(** ** The three ways a requested feature leaves the loop body *)

Lemma try_bind_ok {A B} (m : M A) (f : A -> M B) h env s a s' :
  m env s = (Ok a, s') -> try_catch (m ≫= f) h env s = try_catch (f a) h env s'.
Proof. intros H. unfold try_catch. by rewrite (bind_ok _ _ _ _ _ _ H). Qed.

Lemma shipped_update t url number :
  let data :=
    Db.updateFeatureRequestStatus_updateData t (VStr "shipped")
      {[ "pullRequestUrl" := url; "pullRequestNumber" := number ]} in
  data !! "pull_request_url" = (if truthy url then Some url else None) /\
  data !! "pull_request_number" = (if truthy number then Some number else None) /\
  data !! "implementation_started_at" = None /\
  data !! "assigned_to" = None.
Proof.
  cbv zeta. unfold Db.updateFeatureRequestStatus_updateData, get.
  cbn [Db.is_str String.eqb Ascii.eqb Bool.eqb].
  assert (H1 : ({[ "pullRequestUrl" := url; "pullRequestNumber" := number ]} : JsObj)
               !! "pullRequestUrl" = Some url) by by simplify_map_eq.
  assert (H2 : ({[ "pullRequestUrl" := url; "pullRequestNumber" := number ]} : JsObj)
               !! "pullRequestNumber" = Some number) by by simplify_map_eq.
  rewrite H1, H2. clear H1 H2. change (default VUndef (Some url)) with url.
  change (default VUndef (Some number)) with number.
  destruct (truthy url), (truthy number); (destruct (0 <? _)%nat);
    repeat split; (by simplify_map_eq).
Qed.

Lemma failed_update t message :
  let data :=
    Db.updateFeatureRequestStatus_updateData t (VStr "failed")
      {[ "error" := message ]} in
  data !! "implementation_error" = (if truthy message then Some message else None) /\
  data !! "implementation_started_at" = None /\
  data !! "assigned_to" = None /\
  data !! "pull_request_url" = None.
Proof.
  cbv zeta. unfold Db.updateFeatureRequestStatus_updateData, get.
  cbn [Db.is_str String.eqb Ascii.eqb Bool.eqb].
  assert (H1 : ({[ "error" := message ]} : JsObj) !! "error" = Some message)
    by by simplify_map_eq.
  rewrite H1. clear H1. change (default VUndef (Some message)) with message.
  destruct (truthy message); (destruct (0 <? _)%nat); (repeat split; by simplify_map_eq).
Qed.

Lemma pending_update t :
  let data :=
    Db.updateFeatureRequestStatus_updateData t (VStr "pending")
      {[ "assignedTo" := VStr "developer-agent" ]} in
  data !! "assigned_to" = Some (VStr "developer-agent") /\
  data !! "implementation_started_at" = Some (VDate t) /\
  data !! "pull_request_url" = None /\
  data !! "implementation_error" = None.
Proof.
  cbv zeta. unfold Db.updateFeatureRequestStatus_updateData, get.
  cbn [Db.is_str String.eqb Ascii.eqb Bool.eqb].
  assert (H1 : ({[ "assignedTo" := VStr "developer-agent" ]} : JsObj) !! "assignedTo"
               = Some (VStr "developer-agent")) by by simplify_map_eq.
  rewrite H1. clear H1.
  change (default VUndef (Some (VStr "developer-agent"))) with (VStr "developer-agent").
  cbn [truthy String.eqb negb].
  (destruct (0 <? _)%nat); repeat split; (by simplify_map_eq).
Qed.

Lemma prUrlMatch_nonempty text url digits :
  DeveloperAgentClient.prUrlMatch text = Some (url, digits) -> truthy (VStr url) = true.
Proof.
  intros H. destruct (prUrlMatch_spec _ _ _ H) as (before & after & _ & Hat).
  destruct (pr_url_at_spec _ _ _ Hat) as (owner & repo & rest & -> & _).
  reflexivity.
Qed.

(** A reply that carries the success marker ships the request. *)
Lemma implementOne_success env s count feature response text row :
  database (agent s) = true ->
  developerAgent (agent s) = true ->
  db_initialized s = true ->
  dev_connected s = true ->
  db_failure env (db_round s) = None ->
  db_failure env (S (db_round s)) = None ->
  db_failure env (S (S (db_round s))) = None ->
  db_failure env (S (S (S (db_round s)))) = None ->
  filter (fun r => Is_true (Pg.eq_filter "id" (get feature "id") r))
    (feature_requests (store s)) = [row] ->
  truthy (get feature "github_repo") = true ->
  dev_reply env feature = Ok response ->
  Pg.is_null response = false ->
  Verdict.contentOf response = VStr text ->
  Verdict.successMarker text = true ->
  exists s' parsed,
    OrchestrationAgent.implementOne count feature env s = (Ok (S count), s') /\
    (forall env0 s0,
       DeveloperAgentClient.parseImplementationResponse response env0 s0
       = (Ok parsed, s0)) /\
    feature_requests (store s')
    = (fun r => if Pg.eq_filter "id" (get feature "id") r
                then Pg.apply_update
                       (Db.updateFeatureRequestStatus_updateData (now env) (VStr "shipped")
                          {[ "pullRequestUrl" := get parsed "pullRequestUrl";
                             "pullRequestNumber" := get parsed "pullRequestNumber" ]})
                       (Pg.apply_update
                          (Db.updateFeatureRequestStatus_updateData (now env)
                             (VStr "pending") {[ "assignedTo" := VStr "developer-agent" ]})
                          row)
                else r)
        <$> feature_requests (store s) /\
    Writes.written_status <$> Writes.issued s s'
    = [Some (VStr "pending"); None; Some (VStr "shipped"); None].
Proof.
  intros Hdb Hdev Hi Hc Hf1 Hf2 Hf3 Hf4 Hrow Hrepo Hreply Hnn Hcontent Hs.
  destruct (parse_text response text Hnn Hcontent) as (parsed & Hparse).
  set (hit := Pg.eq_filter "id" (get feature "id")) in *.
  set (pending := Db.updateFeatureRequestStatus_updateData (now env)
                    (VStr "pending") {[ "assignedTo" := VStr "developer-agent" ]}).
  assert (Hrow2 : filter (fun r => Is_true (hit r))
                    ((fun r => if hit r then Pg.apply_update pending r else r)
                       <$> feature_requests (store s))
                  = [Pg.apply_update pending row]).
  { rewrite filter_rewrite_rows, Hrow; [reflexivity|].
    intros r. apply eq_filter_apply_update, status_update_no_id. }
  unfold OrchestrationAgent.implementOne.
  eexists _, parsed. split; [|split; [intros; apply Hparse|split]].
  - apply try_ok.
    erewrite bind_ok by reflexivity.
    erewrite bind_ok;
      [|rewrite with_database_on by exact Hdb;
        apply updateFeatureRequestStatus_ok; [exact Hi | exact Hf1 | exact Hrow]].
    erewrite bind_ok;
      [|rewrite with_database_on by exact Hdb;
        apply logDeveloperAgentInteraction_ok; [exact Hi | exact Hf2]].
    erewrite bind_ok;
      [|rewrite with_developerAgent_on by exact Hdev;
        apply implementFeature_ok; [exact Hc | exact Hrepo | exact Hreply]].
    unfold OrchestrationAgent.handleReply.
    erewrite bind_ok;
      [|rewrite with_developerAgent_on by exact Hdev; apply Hparse].
    destruct (Hparse env s) as (_ & Hsuccess & _).
    rewrite Hsuccess, Hs. cbn [truthy].
    erewrite bind_ok;
      [|rewrite with_database_on by exact Hdb;
        apply updateFeatureRequestStatus_ok; [exact Hi | exact Hf3 | exact Hrow2]].
    erewrite bind_ok;
      [|rewrite with_database_on by exact Hdb;
        apply logDeveloperAgentInteraction_ok; [exact Hi | exact Hf4]].
    erewrite bind_ok by reflexivity.
    reflexivity.
  - state_fields. cbn [feature_requests Pg.set_feature_requests
                       Pg.set_developer_agent_logs Pg.next_serial].
    apply rewrite_rows_twice; [exact Hrow|].
    intros r. apply eq_filter_apply_update, status_update_no_id.
  - erewrite issued_app;
      [|state_fields; rewrite <- !app_assoc; reflexivity].
    cbn [List.filter app Writes.is_write fmap list_fmap Writes.written_status
         String.eqb Ascii.eqb Bool.eqb].
    by rewrite !status_update_status.
Qed.

(** A reply that carries the failure marker, and not the success
    marker, fails the request. *)
Lemma implementOne_failure env s count feature response text row :
  database (agent s) = true ->
  developerAgent (agent s) = true ->
  db_initialized s = true ->
  dev_connected s = true ->
  db_failure env (db_round s) = None ->
  db_failure env (S (db_round s)) = None ->
  db_failure env (S (S (db_round s))) = None ->
  filter (fun r => Is_true (Pg.eq_filter "id" (get feature "id") r))
    (feature_requests (store s)) = [row] ->
  truthy (get feature "github_repo") = true ->
  dev_reply env feature = Ok response ->
  Pg.is_null response = false ->
  Verdict.contentOf response = VStr text ->
  Verdict.successMarker text = false ->
  Verdict.failureMarker text = true ->
  exists s',
    OrchestrationAgent.implementOne count feature env s = (Ok count, s') /\
    feature_requests (store s')
    = (fun r => if Pg.eq_filter "id" (get feature "id") r
                then Pg.apply_update
                       (Db.updateFeatureRequestStatus_updateData (now env) (VStr "failed")
                          {[ "error" := VStr text ]})
                       (Pg.apply_update
                          (Db.updateFeatureRequestStatus_updateData (now env)
                             (VStr "pending") {[ "assignedTo" := VStr "developer-agent" ]})
                          row)
                else r)
        <$> feature_requests (store s) /\
    Writes.written_status <$> Writes.issued s s'
    = [Some (VStr "pending"); None; Some (VStr "failed")].
Proof.
  intros Hdb Hdev Hi Hc Hf1 Hf2 Hf3 Hrow Hrepo Hreply Hnn Hcontent Hs Hf.
  destruct (parse_text response text Hnn Hcontent) as (parsed & Hparse).
  set (hit := Pg.eq_filter "id" (get feature "id")) in *.
  set (pending := Db.updateFeatureRequestStatus_updateData (now env)
                    (VStr "pending") {[ "assignedTo" := VStr "developer-agent" ]}).
  assert (Hrow2 : filter (fun r => Is_true (hit r))
                    ((fun r => if hit r then Pg.apply_update pending r else r)
                       <$> feature_requests (store s))
                  = [Pg.apply_update pending row]).
  { rewrite filter_rewrite_rows, Hrow; [reflexivity|].
    intros r. apply eq_filter_apply_update, status_update_no_id. }
  unfold OrchestrationAgent.implementOne.
  eexists. split; [|split].
  - apply try_ok.
    erewrite bind_ok by reflexivity.
    erewrite bind_ok;
      [|rewrite with_database_on by exact Hdb;
        apply updateFeatureRequestStatus_ok; [exact Hi | exact Hf1 | exact Hrow]].
    erewrite bind_ok;
      [|rewrite with_database_on by exact Hdb;
        apply logDeveloperAgentInteraction_ok; [exact Hi | exact Hf2]].
    erewrite bind_ok;
      [|rewrite with_developerAgent_on by exact Hdev;
        apply implementFeature_ok; [exact Hc | exact Hrepo | exact Hreply]].
    unfold OrchestrationAgent.handleReply.
    erewrite bind_ok;
      [|rewrite with_developerAgent_on by exact Hdev; apply Hparse].
    destruct (Hparse env s) as (_ & Hsuccess & Herror & Htext & _).
    rewrite Hsuccess, Hs, Herror, Hf, Htext. cbn [truthy].
    erewrite bind_ok;
      [|rewrite with_database_on by exact Hdb;
        apply updateFeatureRequestStatus_ok; [exact Hi | exact Hf3 | exact Hrow2]].
    erewrite bind_ok by reflexivity.
    reflexivity.
  - state_fields. cbn [feature_requests Pg.set_feature_requests
                       Pg.set_developer_agent_logs Pg.next_serial].
    apply rewrite_rows_twice; [exact Hrow|].
    intros r. apply eq_filter_apply_update, status_update_no_id.
  - erewrite issued_app;
      [|state_fields; rewrite <- !app_assoc; reflexivity].
    cbn [List.filter app Writes.is_write fmap list_fmap Writes.written_status
         String.eqb Ascii.eqb Bool.eqb].
    by rewrite !status_update_status.
Qed.

(** An implementation request that throws fails the request and logs
    the error. *)
Lemma implementOne_throw env s count feature e row :
  database (agent s) = true ->
  developerAgent (agent s) = true ->
  db_initialized s = true ->
  db_failure env (db_round s) = None ->
  db_failure env (S (db_round s)) = None ->
  db_failure env (S (S (db_round s))) = None ->
  db_failure env (S (S (S (db_round s)))) = None ->
  filter (fun r => Is_true (Pg.eq_filter "id" (get feature "id") r))
    (feature_requests (store s)) = [row] ->
  (forall s0, dev_connected s0 = dev_connected s ->
     DeveloperAgentClient.implementFeature feature env s0 = (Throw e, s0)) ->
  exists s',
    OrchestrationAgent.implementOne count feature env s = (Ok count, s') /\
    feature_requests (store s')
    = (fun r => if Pg.eq_filter "id" (get feature "id") r
                then Pg.apply_update
                       (Db.updateFeatureRequestStatus_updateData (now env) (VStr "failed")
                          {[ "error" := VStr e ]})
                       (Pg.apply_update
                          (Db.updateFeatureRequestStatus_updateData (now env)
                             (VStr "pending") {[ "assignedTo" := VStr "developer-agent" ]})
                          row)
                else r)
        <$> feature_requests (store s) /\
    Writes.issued s s'
    = [DbUpdate "feature_requests" (get feature "id")
         (Db.updateFeatureRequestStatus_updateData (now env)
            (VStr "pending") {[ "assignedTo" := VStr "developer-agent" ]});
       DbInsert "developer_agent_logs"
         (Db.log_row (now env)
            {[ "featureRequestId" := get feature "id";
               "action" := VStr "send_request";
               "messageSent" := VStr ("implement " ++ toStr (get feature "feature_name"));
               "status" := VStr "pending" ]});
       DbUpdate "feature_requests" (get feature "id")
         (Db.updateFeatureRequestStatus_updateData (now env) (VStr "failed")
            {[ "error" := VStr e ]});
       DbInsert "developer_agent_logs"
         (Db.log_row (now env)
            {[ "featureRequestId" := get feature "id";
               "action" := VStr "error";
               "status" := VStr "error";
               "error" := VStr e ]})].
Proof.
  intros Hdb Hdev Hi Hf1 Hf2 Hf3 Hf4 Hrow Hthrow.
  set (hit := Pg.eq_filter "id" (get feature "id")) in *.
  set (pending := Db.updateFeatureRequestStatus_updateData (now env)
                    (VStr "pending") {[ "assignedTo" := VStr "developer-agent" ]}).
  assert (Hrow2 : filter (fun r => Is_true (hit r))
                    ((fun r => if hit r then Pg.apply_update pending r else r)
                       <$> feature_requests (store s))
                  = [Pg.apply_update pending row]).
  { rewrite filter_rewrite_rows, Hrow; [reflexivity|].
    intros r. apply eq_filter_apply_update, status_update_no_id. }
  unfold OrchestrationAgent.implementOne.
  eexists. split; [|split].
  - erewrite try_throw.
    2:{ erewrite bind_ok by reflexivity.
        erewrite bind_ok;
          [|rewrite with_database_on by exact Hdb;
            apply updateFeatureRequestStatus_ok; [exact Hi | exact Hf1 | exact Hrow]].
        erewrite bind_ok;
          [|rewrite with_database_on by exact Hdb;
            apply logDeveloperAgentInteraction_ok; [exact Hi | exact Hf2]].
        erewrite bind_throw;
          [|rewrite with_developerAgent_on by exact Hdev; apply Hthrow; reflexivity].
        reflexivity. }
    erewrite bind_ok by reflexivity.
    erewrite bind_ok;
      [|rewrite with_database_on by exact Hdb;
        apply updateFeatureRequestStatus_ok; [exact Hi | exact Hf3 | exact Hrow2]].
    erewrite bind_ok;
      [|rewrite with_database_on by exact Hdb;
        apply logDeveloperAgentInteraction_ok; [exact Hi | exact Hf4]].
    reflexivity.
  - state_fields. cbn [feature_requests Pg.set_feature_requests
                       Pg.set_developer_agent_logs Pg.next_serial].
    apply rewrite_rows_twice; [exact Hrow|].
    intros r. apply eq_filter_apply_update, status_update_no_id.
  - erewrite issued_app;
      [|state_fields; rewrite <- !app_assoc; reflexivity].
    reflexivity.
Qed.

Lemma implementFeature_rejects feature e env s :
  dev_connected s = true ->
  truthy (get feature "github_repo") = true ->
  dev_reply env feature = Throw e ->
  DeveloperAgentClient.implementFeature feature env s = (Throw e, s).
Proof.
  intros Hc Hrepo Hreply. unfold DeveloperAgentClient.implementFeature.
  run_monad. rewrite Hc, Hrepo. cbn [negb]. cbv beta. by rewrite Hreply.
Qed.

Lemma implementFeature_no_repository feature env s :
  dev_connected s = true ->
  truthy (get feature "github_repo") = false ->
  DeveloperAgentClient.implementFeature feature env s
  = (Throw ("No GitHub repository URL found for feature request: "
            ++ toStr (get feature "feature_name"))%string, s).
Proof.
  intros Hc Hrepo. unfold DeveloperAgentClient.implementFeature.
  run_monad. by rewrite Hc, Hrepo.
Qed.

Lemma four_rounds env (n : nat) :
  (forall k, k < 4 -> db_failure env (n + k) = None) ->
  db_failure env n = None /\ db_failure env (S n) = None /\
  db_failure env (S (S n)) = None /\ db_failure env (S (S (S n))) = None.
Proof.
  intros H.
  pose proof (H 0 ltac:(lia)) as H0. pose proof (H 1 ltac:(lia)) as H1.
  pose proof (H 2 ltac:(lia)) as H2. pose proof (H 3 ltac:(lia)) as H3.
  replace (n + 0) with n in H0 by lia. replace (n + 1) with (S n) in H1 by lia.
  replace (n + 2) with (S (S n)) in H2 by lia.
  replace (n + 3) with (S (S (S n))) in H3 by lia.
  done.
Qed.

Lemma failed_log_row t id e :
  get (Db.log_row t {[ "featureRequestId" := id; "action" := VStr "error";
                       "status" := VStr "error"; "error" := VStr e ]})
      "error_message"
  = (if String.eqb e "" then VNull else VStr e) /\
  get (Db.log_row t {[ "featureRequestId" := id; "action" := VStr "error";
                       "status" := VStr "error"; "error" := VStr e ]})
      "action"
  = VStr "error".
Proof.
  unfold Db.log_row, get.
  assert (H1 : ({[ "featureRequestId" := id; "action" := VStr "error";
                   "status" := VStr "error"; "error" := VStr e ]} : JsObj) !! "error"
               = Some (VStr e)) by by simplify_map_eq.
  assert (H2 : ({[ "featureRequestId" := id; "action" := VStr "error";
                   "status" := VStr "error"; "error" := VStr e ]} : JsObj) !! "action"
               = Some (VStr "error")) by by simplify_map_eq.
  rewrite H1, H2. split.
  - rewrite lookup_insert_ne, lookup_insert_ne, lookup_insert_ne, lookup_insert_ne,
      lookup_insert_ne, lookup_insert_eq by done.
    cbn. unfold jsOr. cbn [truthy]. by destruct (String.eqb e "").
  - by rewrite lookup_insert_ne, lookup_insert_eq by done.
Qed.

(** A reply of the developer agent that carries the success marker
    (whether or not it also carries the failure marker) ships the
    request within the same tick: the loop body counts one more
    implemented feature, the request's row ends with status 'shipped',
    both its start and its completion time set to now, the assignee
    'developer-agent', and the pull-request URL found in the reply, if
    there is one, together with its number as [parseInt] reads it
    (unless that is 0; a number past the doubles travels as null); it
    issues the update to 'pending', a log row, the update to 'shipped'
    and a second log row, in this order. *)
Theorem success_reply_ships_request env s count feature response text row :
  database (agent s) = true ->
  developerAgent (agent s) = true ->
  db_initialized s = true ->
  dev_connected s = true ->
  (forall k, k < 4 -> db_failure env (db_round s + k) = None) ->
  filter (fun r => Is_true (Pg.eq_filter "id" (get feature "id") r))
    (feature_requests (store s)) = [row] ->
  truthy (get feature "github_repo") = true ->
  dev_reply env feature = Ok response ->
  Pg.is_null response = false ->
  Verdict.contentOf response = VStr text ->
  Verdict.successMarker text = true ->
  exists s' row',
    OrchestrationAgent.implementOne count feature env s = (Ok (S count), s') /\
    feature_requests (store s')
    = (fun r => if Pg.eq_filter "id" (get feature "id") r then row' else r)
        <$> feature_requests (store s) /\
    get row' "status" = VStr "shipped" /\
    get row' "assigned_to" = VStr "developer-agent" /\
    get row' "implementation_started_at" = VDate (now env) /\
    get row' "implementation_completed_at" = VDate (now env) /\
    (forall url digits,
       DeveloperAgentClient.prUrlMatch text = Some (url, digits) ->
       get row' "pull_request_url" = VStr url /\
       (forall n, parseInt digits = VNum n -> n <> 0%Z ->
                  get row' "pull_request_number" = VNum n) /\
       (parseInt digits = VInf -> get row' "pull_request_number" = VNull)) /\
    (DeveloperAgentClient.prUrlMatch text = None ->
     get row' "pull_request_url" = get row "pull_request_url") /\
    Writes.written_status <$> Writes.issued s s'
    = [Some (VStr "pending"); None; Some (VStr "shipped"); None].
Proof.
  intros Hdb Hdev Hi Hc Hreach Hrow Hrepo Hreply Hnn Hcontent Hs.
  destruct (four_rounds _ _ Hreach) as (Hf1 & Hf2 & Hf3 & Hf4).
  destruct (implementOne_success env s count feature response text row)
    as (s' & parsed & Hrun & Hparse & Hrows & Hwritten); try done.
  destruct (parse_text response text Hnn Hcontent) as (parsed' & Hparse').
  destruct (Hparse' env s) as (Hrun' & _ & _ & _ & Hurl & Hnum).
  assert (parsed' = parsed) as ->.
  { specialize (Hparse env s). rewrite Hrun' in Hparse. by injection Hparse. }
  set (shipped := Db.updateFeatureRequestStatus_updateData (now env) (VStr "shipped") _)
    in Hrows.
  set (pending := Db.updateFeatureRequestStatus_updateData (now env) (VStr "pending") _)
    in Hrows.
  destruct (shipped_update (now env) (get parsed "pullRequestUrl")
              (get parsed "pullRequestNumber")) as (Su & Sn & Ss & Sa).
  destruct (pending_update (now env)) as (Pa & Ps & Pu & _).
  fold shipped in Su, Sn, Ss, Sa. fold pending in Pa, Ps, Pu.
  exists s', (Pg.apply_update shipped (Pg.apply_update pending row)).
  split; [exact Hrun|]. split; [exact Hrows|].
  split; [unfold get, shipped; by rewrite apply_update_status|].
  split; [by rewrite (get_apply_update_other _ _ _ Sa),
            (get_apply_update_set _ _ _ _ Pa)|].
  split; [by rewrite (get_apply_update_other _ _ _ Ss),
            (get_apply_update_set _ _ _ _ Ps)|].
  assert (Sc : shipped !! "implementation_completed_at" = Some (VDate (now env))).
  { unfold shipped.
    rewrite (status_update_lookup _ _ _ "implementation_completed_at" "shipped")
      by (apply list_elem_of_In; cbn; tauto).
    reflexivity. }
  split; [by rewrite (get_apply_update_set _ _ _ _ Sc)|].
  split; [|split; [|exact Hwritten]].
  - intros url digits Hm. rewrite Hm in Hurl, Hnum.
    rewrite Hurl in Su. rewrite (prUrlMatch_nonempty _ _ _ Hm) in Su.
    split; [by rewrite (get_apply_update_set _ _ _ _ Su)|].
    rewrite Hnum in Sn. split.
    + intros n Hn Hnz. rewrite Hn in Sn. cbn [truthy] in Sn.
      destruct (n =? 0)%Z eqn:E; [apply Z.eqb_eq in E; exfalso; exact (Hnz E)|].
      cbn [negb] in Sn. by rewrite (get_apply_update_set _ _ _ _ Sn).
    + intros Hinf. rewrite Hinf in Sn. cbn [truthy] in Sn.
      by rewrite (get_apply_update_set _ _ _ _ Sn).
  - intros Hm. rewrite Hm in Hurl. rewrite Hurl in Su. cbn [truthy] in Su.
    by rewrite (get_apply_update_other _ _ _ Su), (get_apply_update_other _ _ _ Pu).
Qed.

Lemma success_reply_ships_request_witness :
  let env :=
    {| now := 1750000000000; date_parse := Sample.date_parse0; credentials := true;
       db_failure := fun _ => None;
       chat_post := fun _ => Throw "unused"; dev_connect := Ok tt;
       dev_reply := fun _ => Ok (VObj {[ "payload" := VObj {[ "content" :=
         VStr "✅ Implementation Complete! PR: https://github.com/acme/web/pull/42" ]} ]}) |} in
  exists s',
    OrchestrationAgent.implementOne 0 Sample.exportCsv env
      (Sample.state0 [] 0 Sample.store1) = (Ok 1, s') /\
    (fun r => (get r "status", get r "pull_request_url"))
      <$> feature_requests (store s')
    = [(VStr "shipped", VUndef);
       (VStr "shipped", VStr "https://github.com/acme/web/pull/42")].
Proof.
  intros env.
  destruct (success_reply_ships_request env (Sample.state0 [] 0 Sample.store1) 0
              Sample.exportCsv
              (VObj {[ "payload" := VObj {[ "content" :=
                 VStr "✅ Implementation Complete! PR: https://github.com/acme/web/pull/42" ]} ]})
              "✅ Implementation Complete! PR: https://github.com/acme/web/pull/42"
              Sample.exportCsv)
    as (s' & row' & Hrun & Hrows & Hstatus & _ & _ & _ & Hurl & _);
    [reflexivity .. |].
  exists s'. split; [exact Hrun|]. rewrite Hrows.
  cbn [Sample.state0 Sample.store1 store feature_requests fmap list_fmap].
  assert (H1 : Pg.eq_filter "id" (get Sample.exportCsv "id") Sample.darkMode = false)
    by (vm_compute; reflexivity).
  assert (H2 : Pg.eq_filter "id" (get Sample.exportCsv "id") Sample.exportCsv = true)
    by (vm_compute; reflexivity).
  rewrite H1, H2.
  assert (H3 : get Sample.darkMode "status" = VStr "shipped")
    by (vm_compute; reflexivity).
  assert (H4 : get Sample.darkMode "pull_request_url" = VUndef)
    by (vm_compute; reflexivity).
  destruct (Hurl "https://github.com/acme/web/pull/42" "42" eq_refl) as [H5 _].
  by rewrite H3, H4, Hstatus, H5.
Defined.

(** A reply that carries the failure marker and not the success marker
    fails the request within the same tick: the row ends with status
    'failed', the failure time set to now and the reply text as its
    implementation error; the count of implemented features stays and
    no log row is written for the reply. *)
Theorem failure_reply_fails_request env s count feature response text row :
  database (agent s) = true ->
  developerAgent (agent s) = true ->
  db_initialized s = true ->
  dev_connected s = true ->
  (forall k, k < 4 -> db_failure env (db_round s + k) = None) ->
  filter (fun r => Is_true (Pg.eq_filter "id" (get feature "id") r))
    (feature_requests (store s)) = [row] ->
  truthy (get feature "github_repo") = true ->
  dev_reply env feature = Ok response ->
  Pg.is_null response = false ->
  Verdict.contentOf response = VStr text ->
  Verdict.successMarker text = false ->
  Verdict.failureMarker text = true ->
  exists s' row',
    OrchestrationAgent.implementOne count feature env s = (Ok count, s') /\
    feature_requests (store s')
    = (fun r => if Pg.eq_filter "id" (get feature "id") r then row' else r)
        <$> feature_requests (store s) /\
    get row' "status" = VStr "failed" /\
    get row' "implementation_started_at" = VDate (now env) /\
    get row' "implementation_failed_at" = VDate (now env) /\
    get row' "implementation_error" = VStr text /\
    get row' "pull_request_url" = get row "pull_request_url" /\
    Writes.written_status <$> Writes.issued s s'
    = [Some (VStr "pending"); None; Some (VStr "failed")].
Proof.
  intros Hdb Hdev Hi Hc Hreach Hrow Hrepo Hreply Hnn Hcontent Hs Hf.
  destruct (four_rounds _ _ Hreach) as (Hf1 & Hf2 & Hf3 & _).
  destruct (implementOne_failure env s count feature response text row)
    as (s' & Hrun & Hrows & Hwritten); try assumption.
  set (failed := Db.updateFeatureRequestStatus_updateData (now env) (VStr "failed") _)
    in Hrows.
  set (pending := Db.updateFeatureRequestStatus_updateData (now env) (VStr "pending") _)
    in Hrows.
  destruct (failed_update (now env) (VStr text)) as (Fe & Fs & _ & Fu).
  destruct (pending_update (now env)) as (_ & Ps & Pu & _).
  fold failed in Fe, Fs, Fu. fold pending in Ps, Pu.
  assert (Hne : truthy (VStr text) = true).
  { unfold Verdict.failureMarker in Hf. apply andb_true_iff in Hf as [Hf _].
    clear - Hf. destruct text; [vm_compute in Hf; discriminate Hf | reflexivity]. }
  rewrite Hne in Fe.
  assert (Ff : failed !! "implementation_failed_at" = Some (VDate (now env))).
  { unfold failed.
    rewrite (status_update_lookup _ _ _ "implementation_failed_at" "failed")
      by (apply list_elem_of_In; cbn; tauto).
    reflexivity. }
  exists s', (Pg.apply_update failed (Pg.apply_update pending row)).
  split; [exact Hrun|]. split; [exact Hrows|].
  split; [unfold get, failed; by rewrite apply_update_status|].
  split; [by rewrite (get_apply_update_other _ _ _ Fs),
            (get_apply_update_set _ _ _ _ Ps)|].
  split; [by rewrite (get_apply_update_set _ _ _ _ Ff)|].
  split; [by rewrite (get_apply_update_set _ _ _ _ Fe)|].
  split; [|exact Hwritten].
  by rewrite (get_apply_update_other _ _ _ Fu), (get_apply_update_other _ _ _ Pu).
Qed.

Lemma failure_reply_fails_request_witness :
  let env :=
    {| now := 1750000000000; date_parse := Sample.date_parse0; credentials := true;
       db_failure := fun _ => None;
       chat_post := fun _ => Throw "unused"; dev_connect := Ok tt;
       dev_reply := fun _ => Ok (VObj {[ "payload" := VObj {[ "content" :=
         VStr "❌ Implementation Failed: tests do not pass" ]} ]}) |} in
  exists s',
    OrchestrationAgent.implementOne 0 Sample.exportCsv env
      (Sample.state0 [] 0 Sample.store1) = (Ok 0, s') /\
    (fun r => (get r "status", get r "implementation_error"))
      <$> feature_requests (store s')
    = [(VStr "shipped", VUndef);
       (VStr "failed", VStr "❌ Implementation Failed: tests do not pass")].
Proof.
  intros env.
  destruct (failure_reply_fails_request env (Sample.state0 [] 0 Sample.store1) 0
              Sample.exportCsv
              (VObj {[ "payload" := VObj {[ "content" :=
                 VStr "❌ Implementation Failed: tests do not pass" ]} ]})
              "❌ Implementation Failed: tests do not pass"
              Sample.exportCsv)
    as (s' & row' & Hrun & Hrows & Hstatus & _ & _ & Herror & _);
    [reflexivity .. |].
  exists s'. split; [exact Hrun|]. rewrite Hrows.
  cbn [Sample.state0 Sample.store1 store feature_requests fmap list_fmap].
  assert (H1 : Pg.eq_filter "id" (get Sample.exportCsv "id") Sample.darkMode = false)
    by (vm_compute; reflexivity).
  assert (H2 : Pg.eq_filter "id" (get Sample.exportCsv "id") Sample.exportCsv = true)
    by (vm_compute; reflexivity).
  rewrite H1, H2.
  assert (H3 : get Sample.darkMode "status" = VStr "shipped")
    by (vm_compute; reflexivity).
  assert (H4 : get Sample.darkMode "implementation_error" = VUndef)
    by (vm_compute; reflexivity).
  by rewrite H3, H4, Hstatus, Herror.
Defined.

Lemma thrown_request_fails env s count feature e row :
  database (agent s) = true ->
  developerAgent (agent s) = true ->
  db_initialized s = true ->
  (forall k, k < 4 -> db_failure env (db_round s + k) = None) ->
  filter (fun r => Is_true (Pg.eq_filter "id" (get feature "id") r))
    (feature_requests (store s)) = [row] ->
  (forall s0, dev_connected s0 = dev_connected s ->
     DeveloperAgentClient.implementFeature feature env s0 = (Throw e, s0)) ->
  exists s' row' logged,
    OrchestrationAgent.implementOne count feature env s = (Ok count, s') /\
    feature_requests (store s')
    = (fun r => if Pg.eq_filter "id" (get feature "id") r then row' else r)
        <$> feature_requests (store s) /\
    get row' "status" = VStr "failed" /\
    get row' "implementation_started_at" = VDate (now env) /\
    get row' "implementation_failed_at" = VDate (now env) /\
    (e <> "" -> get row' "implementation_error" = VStr e) /\
    Writes.written_status <$> Writes.issued s s'
    = [Some (VStr "pending"); None; Some (VStr "failed"); None] /\
    Writes.issued s s' !! 3 = Some (DbInsert "developer_agent_logs" logged) /\
    get logged "action" = VStr "error" /\
    get logged "error_message" = (if String.eqb e "" then VNull else VStr e).
Proof.
  intros Hdb Hdev Hi Hreach Hrow Hthrow.
  destruct (four_rounds _ _ Hreach) as (Hf1 & Hf2 & Hf3 & Hf4).
  destruct (implementOne_throw env s count feature e row)
    as (s' & Hrun & Hrows & Hissued); try assumption.
  set (failed := Db.updateFeatureRequestStatus_updateData (now env) (VStr "failed") _)
    in Hrows, Hissued.
  set (pending := Db.updateFeatureRequestStatus_updateData (now env) (VStr "pending") _)
    in Hrows, Hissued.
  destruct (failed_update (now env) (VStr e)) as (Fe & Fs & _ & _).
  destruct (pending_update (now env)) as (_ & Ps & _ & _).
  fold failed in Fe, Fs. fold pending in Ps.
  assert (Ff : failed !! "implementation_failed_at" = Some (VDate (now env))).
  { unfold failed.
    rewrite (status_update_lookup _ _ _ "implementation_failed_at" "failed")
      by (apply list_elem_of_In; cbn; tauto).
    reflexivity. }
  destruct (failed_log_row (now env) (get feature "id") e) as [Lm La].
  eexists s', (Pg.apply_update failed (Pg.apply_update pending row)), _.
  split; [exact Hrun|]. split; [exact Hrows|].
  split; [unfold get, failed; by rewrite apply_update_status|].
  split; [by rewrite (get_apply_update_other _ _ _ Fs),
            (get_apply_update_set _ _ _ _ Ps)|].
  split; [by rewrite (get_apply_update_set _ _ _ _ Ff)|].
  split.
  { intros Hne. cbn [truthy] in Fe.
    destruct (String.eqb e "") eqn:E; [apply String.eqb_eq in E; exfalso; exact (Hne E)|].
    cbn [negb] in Fe. by rewrite (get_apply_update_set _ _ _ _ Fe). }
  rewrite Hissued.
  split.
  { cbn [fmap list_fmap Writes.written_status String.eqb Ascii.eqb Bool.eqb].
    unfold failed, pending. by rewrite !status_update_status. }
  split; [reflexivity|]. split; [exact La | exact Lm].
Qed.

(** When the developer agent rejects an implementation request (an
    error, a time-out), the request is failed within the same tick: its
    row ends with status 'failed' and the error's message as its
    implementation error, and a log row with action 'error' records the
    same message; the loop goes on with the next request. *)
Theorem developer_agent_error_fails_request env s count feature e row :
  database (agent s) = true ->
  developerAgent (agent s) = true ->
  db_initialized s = true ->
  dev_connected s = true ->
  (forall k, k < 4 -> db_failure env (db_round s + k) = None) ->
  filter (fun r => Is_true (Pg.eq_filter "id" (get feature "id") r))
    (feature_requests (store s)) = [row] ->
  truthy (get feature "github_repo") = true ->
  dev_reply env feature = Throw e ->
  exists s' row' logged,
    OrchestrationAgent.implementOne count feature env s = (Ok count, s') /\
    feature_requests (store s')
    = (fun r => if Pg.eq_filter "id" (get feature "id") r then row' else r)
        <$> feature_requests (store s) /\
    get row' "status" = VStr "failed" /\
    get row' "implementation_started_at" = VDate (now env) /\
    get row' "implementation_failed_at" = VDate (now env) /\
    (e <> "" -> get row' "implementation_error" = VStr e) /\
    Writes.written_status <$> Writes.issued s s'
    = [Some (VStr "pending"); None; Some (VStr "failed"); None] /\
    Writes.issued s s' !! 3 = Some (DbInsert "developer_agent_logs" logged) /\
    get logged "action" = VStr "error" /\
    get logged "error_message" = (if String.eqb e "" then VNull else VStr e).
Proof.
  intros Hdb Hdev Hi Hc Hreach Hrow Hrepo Hreply.
  apply (thrown_request_fails env s count feature e row); try assumption.
  intros s0 Hs0. apply implementFeature_rejects; [congruence | exact Hrepo | exact Hreply].
Qed.

Lemma developer_agent_error_fails_request_witness :
  let env :=
    {| now := 1750000000000; date_parse := Sample.date_parse0; credentials := true;
       db_failure := fun _ => None;
       chat_post := fun _ => Throw "unused"; dev_connect := Ok tt;
       dev_reply := fun _ => Throw "Developer agent request timeout" |} in
  exists s',
    OrchestrationAgent.implementOne 0 Sample.exportCsv env
      (Sample.state0 [] 0 Sample.store1) = (Ok 0, s') /\
    (fun r => (get r "status", get r "implementation_error"))
      <$> feature_requests (store s')
    = [(VStr "shipped", VUndef);
       (VStr "failed", VStr "Developer agent request timeout")].
Proof.
  intros env.
  destruct (developer_agent_error_fails_request env (Sample.state0 [] 0 Sample.store1) 0
              Sample.exportCsv "Developer agent request timeout" Sample.exportCsv)
    as (s' & row' & logged & Hrun & Hrows & Hstatus & _ & _ & Herror & _);
    [reflexivity .. |].
  exists s'. split; [exact Hrun|]. rewrite Hrows.
  cbn [Sample.state0 Sample.store1 store feature_requests fmap list_fmap].
  assert (H1 : Pg.eq_filter "id" (get Sample.exportCsv "id") Sample.darkMode = false)
    by (vm_compute; reflexivity).
  assert (H2 : Pg.eq_filter "id" (get Sample.exportCsv "id") Sample.exportCsv = true)
    by (vm_compute; reflexivity).
  rewrite H1, H2.
  assert (H3 : get Sample.darkMode "status" = VStr "shipped")
    by (vm_compute; reflexivity).
  assert (H4 : get Sample.darkMode "implementation_error" = VUndef)
    by (vm_compute; reflexivity).
  rewrite H3, H4, Hstatus, Herror; [reflexivity | discriminate].
Defined.

(** A requested feature whose row names no GitHub repository is failed
    within the same tick, whatever the developer agent would answer:
    it is first marked 'pending' and logged as sent, then
    [implementFeature] throws before anything is sent, and the row ends
    with status 'failed' and the error 'No GitHub repository URL found
    for feature request: NAME'. *)
Theorem request_without_repository_fails env s count feature row :
  database (agent s) = true ->
  developerAgent (agent s) = true ->
  db_initialized s = true ->
  dev_connected s = true ->
  (forall k, k < 4 -> db_failure env (db_round s + k) = None) ->
  filter (fun r => Is_true (Pg.eq_filter "id" (get feature "id") r))
    (feature_requests (store s)) = [row] ->
  truthy (get feature "github_repo") = false ->
  exists s' row',
    OrchestrationAgent.implementOne count feature env s = (Ok count, s') /\
    feature_requests (store s')
    = (fun r => if Pg.eq_filter "id" (get feature "id") r then row' else r)
        <$> feature_requests (store s) /\
    get row' "status" = VStr "failed" /\
    get row' "implementation_error"
    = VStr ("No GitHub repository URL found for feature request: "
            ++ toStr (get feature "feature_name")) /\
    Writes.written_status <$> Writes.issued s s'
    = [Some (VStr "pending"); None; Some (VStr "failed"); None].
Proof.
  intros Hdb Hdev Hi Hc Hreach Hrow Hrepo.
  destruct (thrown_request_fails env s count feature
              ("No GitHub repository URL found for feature request: "
               ++ toStr (get feature "feature_name")) row)
    as (s' & row' & logged & Hrun & Hrows & Hstatus & _ & _ & Herror & Hwritten & _);
    try assumption.
  { intros s0 Hs0. apply implementFeature_no_repository; [congruence | exact Hrepo]. }
  exists s', row'. split; [exact Hrun|]. split; [exact Hrows|].
  split; [exact Hstatus|]. split; [|exact Hwritten].
  apply Herror. discriminate.
Qed.

Lemma request_without_repository_fails_witness :
  let feature : JsObj :=
    {[ "id" := VStr "f2"; "feature_name" := VStr "export"; "status" := VStr "requested" ]} in
  exists s',
    OrchestrationAgent.implementOne 0 feature Sample.env0
      (Sample.state0 [] 0 Sample.store1) = (Ok 0, s') /\
    (fun r => (get r "status", get r "implementation_error"))
      <$> feature_requests (store s')
    = [(VStr "shipped", VUndef);
       (VStr "failed",
        VStr "No GitHub repository URL found for feature request: export")].
Proof.
  intros feature.
  destruct (request_without_repository_fails Sample.env0
              (Sample.state0 [] 0 Sample.store1) 0 feature Sample.exportCsv)
    as (s' & row' & Hrun & Hrows & Hstatus & Herror & _);
    [reflexivity .. |].
  exists s'. split; [exact Hrun|]. rewrite Hrows.
  cbn [Sample.state0 Sample.store1 store feature_requests fmap list_fmap].
  assert (H1 : Pg.eq_filter "id" (get feature "id") Sample.darkMode = false)
    by (vm_compute; reflexivity).
  assert (H2 : Pg.eq_filter "id" (get feature "id") Sample.exportCsv = true)
    by (vm_compute; reflexivity).
  rewrite H1, H2.
  assert (H3 : get Sample.darkMode "status" = VStr "shipped")
    by (vm_compute; reflexivity).
  assert (H4 : get Sample.darkMode "implementation_error" = VUndef)
    by (vm_compute; reflexivity).
  rewrite H3, H4, Hstatus, Herror. reflexivity.
Defined.

(** ** Initialising the agent, adding tasks, reloading *)

Lemma loadTasksFromDatabase_returns env s :
  (OrchestrationAgent.loadTasksFromDatabase env s).1 = Ok tt.
Proof.
  unfold OrchestrationAgent.loadTasksFromDatabase.
  edestruct (total_try_catch (A := unit)) as ([] & s' & H);
    [|rewrite H; reflexivity].
  intros e. apply total_bind; [apply total_console | intros; apply total_console].
Qed.

(** [initialize] never throws and always leaves the agent initialised.
    Without credentials for the database it installs the four default
    tasks; with credentials it never does: the queue is the one built
    from the database when both reads go through, and the queue it had
    before otherwise.  The store is not written. *)
Theorem initialize_falls_back_to_default_tasks env s :
  let run := OrchestrationAgent.initialize env s in
  run.1 = Ok tt /\
  initialized (agent run.2) = true /\
  store run.2 = store s /\
  currentTaskIndex (agent run.2) = currentTaskIndex (agent s) /\
  taskQueue (agent run.2)
  = (if credentials env
     then if Runs.reachable env (db_round s) && Runs.reachable env (S (db_round s))
          then OrchestrationAgent.build_queue (Db.urlsToCheck (store s))
                 (Db.deploymentsToRun (now env) (store s))
          else taskQueue (agent s)
     else OrchestrationAgent.defaultTasks) /\
  length OrchestrationAgent.defaultTasks = 4.
Proof.
  cbv zeta. unfold OrchestrationAgent.initialize.
  destruct (credentials env) eqn:Ec.
  - set (s1 := set_agent (set_developerAgent true)
                 (emit (Console Log [VStr "✅ Orchestration Database Service initialized"])
                    (set_db_initialized true (set_agent (set_database true) s)))).
    pose proof (loadTasksFromDatabase_effect env s1) as (Hst & _ & Hq & _).
    pose proof (loadTasksFromDatabase_keeps_index env s1) as Hidx.
    pose proof (loadTasksFromDatabase_returns env s1) as Hret.
    cbv zeta in Hst, Hq.
    destruct (OrchestrationAgent.loadTasksFromDatabase env s1) as [r s2] eqn:E.
    cbn [fst snd] in *. subst r.
    assert (Hrun : try_catch
              (modify (set_agent (set_database true));;
               Db.initialize;;
               modify (set_agent (set_developerAgent true));;
               OrchestrationAgent.loadTasksFromDatabase;;
               modify (set_agent (set_initialized true));;
               console Log [VStr "🎯 Orchestration Agent initialized successfully with database"])
              (fun message =>
                 console Err [VStr "❌ Failed to initialize Orchestration Agent:";
                              VStr message];;
                 OrchestrationAgent.setupDefaultTasks;;
                 modify (set_agent (set_initialized true))) env s
            = (Ok tt,
               emit (Console Log [VStr "🎯 Orchestration Agent initialized successfully with database"])
                 (set_agent (set_initialized true) s2))).
    { apply try_ok. erewrite bind_ok by reflexivity.
      erewrite bind_ok.
      2:{ unfold Db.initialize. apply try_ok. run_monad. rewrite Ec. reflexivity. }
      erewrite bind_ok by reflexivity.
      erewrite bind_ok by exact E.
      reflexivity. }
    rewrite Hrun. cbn [fst snd]. state_fields.
    cbn [initialized set_initialized taskQueue currentTaskIndex].
    split; [reflexivity|]. split; [reflexivity|]. split; [exact Hst|].
    split; [exact Hidx|]. split; [|reflexivity].
    rewrite Hq. unfold Runs.load_succeeds. by rewrite Ec.
  - unfold Db.initialize, OrchestrationAgent.setupDefaultTasks.
    run_monad. rewrite Ec. cbn [negb]. repeat split.
Qed.

Lemma addTask_appends env s task :
  exists new,
    taskQueue (agent (OrchestrationAgent.addTask task env s).2)
    = taskQueue (agent s) ++ [new].
Proof.
  unfold OrchestrationAgent.addTask, substring0, asString. run_monad.
  exists (({[ "id" := VStr ("task-" ++ pretty (now env));
               "message" := get task "message";
               "type" := jsOr (get task "type") (VStr "custom");
               "priority" := jsOr (get task "priority") (VStr "normal");
               "addedAt" := VDate (now env) ]}) : JsObj).
  destruct (get task "message"); reflexivity.
Qed.

(** [addTask] appends one task to the end of the queue, with the
    message it was given, the type defaulting to 'custom' and the
    priority to 'normal'; it moves neither the index nor the tasks
    already queued.  It returns normally exactly when the message is a
    string; when it throws (on its log line), the task has been queued
    all the same. *)
Theorem added_task_is_queued_last env s task :
  let run := OrchestrationAgent.addTask task env s in
  exists new,
    taskQueue (agent run.2) = taskQueue (agent s) ++ [new] /\
    get new "id" = VStr ("task-" ++ pretty (now env)) /\
    get new "message" = get task "message" /\
    get new "type" = jsOr (get task "type") (VStr "custom") /\
    get new "priority" = jsOr (get task "priority") (VStr "normal") /\
    get new "addedAt" = VDate (now env) /\
    currentTaskIndex (agent run.2) = currentTaskIndex (agent s) /\
    store run.2 = store s /\
    match get task "message" with
    | VStr _ | VDate _ => run.1 = Ok tt
    | _ => exists e, run.1 = Throw e
    end.
Proof.
  cbv zeta. unfold OrchestrationAgent.addTask, substring0, asString.
  run_monad.
  exists (({[ "id" := VStr ("task-" ++ pretty (now env));
               "message" := get task "message";
               "type" := jsOr (get task "type") (VStr "custom");
               "priority" := jsOr (get task "priority") (VStr "normal");
               "addedAt" := VDate (now env) ]}) : JsObj).
  split.
  { destruct (get task "message"); reflexivity. }
  unfold get at 1 2 3 4 5.
  repeat (split; [by simplify_map_eq|]).
  split; [destruct (get task "message"); reflexivity|].
  split; [destruct (get task "message"); reflexivity|].
  destruct (get task "message"); eauto.
Qed.

Lemma addTask_frame env s task :
  let s1 := (OrchestrationAgent.addTask task env s).2 in
  store s1 = store s /\ database (agent s1) = database (agent s) /\
  db_initialized s1 = db_initialized s /\ db_round s1 = db_round s.
Proof.
  cbv zeta. unfold OrchestrationAgent.addTask, substring0, asString. run_monad.
  destruct (get task "message"); repeat split.
Qed.

(** A task added with [addTask] does not survive a reload that goes
    through: the queue after the reload is the one built from the
    database, the same as if the task had never been added. *)
Theorem reload_discards_added_tasks env s task :
  Runs.load_succeeds env s = true ->
  let s1 := (OrchestrationAgent.addTask task env s).2 in
  length (taskQueue (agent s1)) = S (length (taskQueue (agent s))) /\
  taskQueue (agent (OrchestrationAgent.loadTasksFromDatabase env s1).2)
  = taskQueue (agent (OrchestrationAgent.loadTasksFromDatabase env s).2) /\
  taskQueue (agent (OrchestrationAgent.loadTasksFromDatabase env s1).2)
  = OrchestrationAgent.build_queue (Db.urlsToCheck (store s))
      (Db.deploymentsToRun (now env) (store s)).
Proof.
  intros Hload s1.
  destruct (addTask_frame env s task) as (Hst & Hd & Hi & Hr). cbv zeta in *.
  fold s1 in Hst, Hd, Hi, Hr.
  destruct (addTask_appends env s task) as (new & Hq).
  destruct (loadTasksFromDatabase_effect env s) as (_ & _ & Hq0 & _).
  destruct (loadTasksFromDatabase_effect env s1) as (_ & _ & Hq1 & _).
  cbv zeta in *.
  assert (Hload1 : Runs.load_succeeds env s1 = true).
  { unfold Runs.load_succeeds in *. by rewrite Hd, Hi, Hr. }
  rewrite Hq0, Hq1, Hload, Hload1, Hst.
  split; [|done]. fold s1 in Hq. rewrite Hq, length_app. cbn. lia.
Qed.

Lemma reload_discards_added_tasks_witness :
  let s := Sample.state0 [Sample.taskA] 0 Sample.store0 in
  let s1 := (OrchestrationAgent.addTask {[ "message" := VStr "look at this" ]}
               Sample.env0 s).2 in
  length (taskQueue (agent s1)) = 2 /\
  (fun task => get task "id")
    <$> taskQueue (agent (OrchestrationAgent.loadTasksFromDatabase Sample.env0 s1).2)
  = [VStr "deployment-d1"].
Proof.
  intros s s1.
  destruct (reload_discards_added_tasks Sample.env0 s
              {[ "message" := VStr "look at this" ]}) as (Hlen & _ & Hq);
    [reflexivity|].
  split; [exact Hlen|]. unfold s1. rewrite Hq. vm_compute. exact eq_refl.
Defined.

Lemma reload_is_quiet env s :
  Verdict.quiet s (OrchestrationAgent.loadTasksFromDatabase env s).2.
Proof.
  apply (keeps_loadTasksFromDatabase Verdict.quiet).
  - intros s0. split; [reflexivity | apply extends_refl].
  - intros s1 s2 s3 [E1 X1] [E2 X2].
    split; [congruence | by eapply extends_trans].
  - intros lvl args s0. split; [reflexivity | by apply extends_emit].
  - intros s0. split; [reflexivity | by apply extends_silent].
  - intros s0. split; [reflexivity | by apply extends_silent].
  - intros q s0. split; [reflexivity | by apply extends_silent].
Qed.

(** [loadTasksFromDatabase] returns normally in every world, writes
    nothing to the store and never moves the index.  When one of its
    two reads fails it leaves the queue as it was; otherwise the queue
    holds one task per active monitored url, in the order the store
    returns them, followed by one task per runnable deployment that has
    a monitored url. *)
Theorem failed_reload_keeps_queue env s :
  let run := OrchestrationAgent.loadTasksFromDatabase env s in
  run.1 = Ok tt /\
  store run.2 = store s /\
  Writes.issued s run.2 = [] /\
  currentTaskIndex (agent run.2) = currentTaskIndex (agent s) /\
  taskQueue (agent run.2)
  = (if Runs.load_succeeds env s
     then (OrchestrationAgent.url_task <$> Db.urlsToCheck (store s))
          ++ omap OrchestrationAgent.deployment_task
               (Db.deploymentsToRun (now env) (store s))
     else taskQueue (agent s)).
Proof.
  cbv zeta.
  destruct (loadTasksFromDatabase_effect env s) as (Hst & _ & Hq & _).
  split; [apply loadTasksFromDatabase_returns|]. split; [exact Hst|].
  split; [apply quiet_issued, reload_is_quiet|].
  split; [apply loadTasksFromDatabase_keeps_index | exact Hq].
Qed.

(** ** The database service *)

Lemma insert_sorted_perm columns r l : Pg.insert_sorted columns r l ≡ₚ r :: l.
Proof.
  induction l as [|x l IH]; cbn [Pg.insert_sorted]; [reflexivity|].
  destruct (Pg.row_le columns x r); [|reflexivity].
  rewrite IH. apply Permutation_swap.
Qed.

Lemma order_by_perm columns rows : Pg.order_by columns rows ≡ₚ rows.
Proof.
  unfold Pg.order_by. induction rows as [|r rows IH]; cbn [foldr]; [reflexivity|].
  by rewrite insert_sorted_perm, IH.
Qed.

Lemma order_by_elem columns rows (r : JsObj) :
  r ∈ Pg.order_by columns rows <-> r ∈ rows.
Proof. by rewrite order_by_perm. Qed.

Lemma filter_rewrite_commute (keep hit : JsObj -> bool) (f : JsObj -> JsObj)
    (tbl : list JsObj) :
  (forall r, keep (f r) = keep r) ->
  filter (fun r => Is_true (keep r)) ((fun r => if hit r then f r else r) <$> tbl)
  = (fun r => if hit r then f r else r) <$> filter (fun r => Is_true (keep r)) tbl.
Proof.
  intros Hkeep. induction tbl as [|r rest IH]; [reflexivity|].
  cbn [fmap list_fmap]. rewrite !filter_cons.
  assert (Hk : keep (if hit r then f r else r) = keep r)
    by (destruct (hit r); [apply Hkeep | reflexivity]).
  rewrite Hk. destruct (keep r); cbn.
  - destruct (decide True); [|done]. cbn [fmap list_fmap]. f_equal. exact IH.
  - destruct (decide False); [done|]. exact IH.
Qed.

Lemma db_initialize_without_credentials env s :
  credentials env = false ->
  Db.initialize env s
  = (Throw "Supabase credentials not found in environment variables",
     emit (Console Err [VStr "❌ Failed to initialize Orchestration Database Service:";
                        VStr "Supabase credentials not found in environment variables"])
       s).
Proof. intros Hc. unfold Db.initialize. run_monad. by rewrite Hc. Qed.

Lemma ensure_without_credentials env s :
  db_initialized s = false ->
  credentials env = false ->
  Db.ensure_initialized env s
  = (Throw "Supabase credentials not found in environment variables",
     emit (Console Err [VStr "❌ Failed to initialize Orchestration Database Service:";
                        VStr "Supabase credentials not found in environment variables"])
       s).
Proof.
  intros Hi Hc. unfold Db.ensure_initialized.
  erewrite bind_ok by reflexivity. rewrite Hi.
  by apply db_initialize_without_credentials.
Qed.

(** Without the two Supabase environment variables no method of the
    database service reaches the store: each one throws 'Supabase
    credentials not found in environment variables' out of
    [initialize], which logs the error; no request is issued and the
    service stays uninitialised, so the next call tries again. *)
Theorem database_needs_credentials env s :
  db_initialized s = false ->
  credentials env = false ->
  let failed {A} : Result A * State :=
    (Throw "Supabase credentials not found in environment variables",
     emit (Console Err [VStr "❌ Failed to initialize Orchestration Database Service:";
                        VStr "Supabase credentials not found in environment variables"])
       s) in
  db_initialized (@failed unit).2 = false /\
  db_round (@failed unit).2 = db_round s /\
  store (@failed unit).2 = store s /\
  Writes.issued s (@failed unit).2 = [] /\
  Db.getUrlsToCheck env s = failed /\
  Db.getDeploymentsToRun env s = failed /\
  Db.getRequestedFeatureRequests env s = failed /\
  Db.getPendingFeatureRequests env s = failed /\
  (forall urlId, Db.updateUrlCheckStatus urlId env s = failed) /\
  (forall id success error, Db.updateDeploymentRun id success error env s = failed) /\
  (forall id status metadata,
     Db.updateFeatureRequestStatus id status metadata env s = failed) /\
  (forall interactionData, Db.logDeveloperAgentInteraction interactionData env s = failed) /\
  (forall featureData, Db.createFeatureRequest featureData env s = failed).
Proof.
  intros Hi Hc failed.
  pose proof (ensure_without_credentials env s Hi Hc) as He.
  split; [exact Hi|]. split; [reflexivity|]. split; [reflexivity|].
  split; [apply issued_emit_console|].
  repeat split; intros;
    [ unfold Db.getUrlsToCheck | unfold Db.getDeploymentsToRun
    | unfold Db.getRequestedFeatureRequests | unfold Db.getPendingFeatureRequests
    | unfold Db.updateUrlCheckStatus | unfold Db.updateDeploymentRun
    | unfold Db.updateFeatureRequestStatus | unfold Db.logDeveloperAgentInteraction
    | unfold Db.createFeatureRequest ];
    by rewrite (bind_throw _ _ _ _ _ _ He).
Qed.

Lemma database_needs_credentials_witness :
  let env :=
    {| now := 1750000000000; date_parse := Sample.date_parse0;
       credentials := false; db_failure := fun _ => None;
       chat_post := fun _ => Throw "unused"; dev_connect := Ok tt;
       dev_reply := fun _ => Throw "unused" |} in
  let s :=
    {| agent := agent (Sample.state0 [] 0 Sample.store0); db_initialized := false;
       dev_connected := false; dev_connecting := false; store := Sample.store0;
       db_round := 0; trace := [] |} in
  (Db.getRequestedFeatureRequests env s).1
  = Throw "Supabase credentials not found in environment variables" /\
  store (Db.createFeatureRequest {[ "feature_name" := VStr "export" ]} env s).2
  = Sample.store0.
Proof.
  intros env s.
  destruct (database_needs_credentials env s eq_refl eq_refl)
    as (_ & _ & _ & _ & _ & _ & Hr & _ & _ & _ & _ & _ & Hc).
  rewrite Hr, Hc. split; reflexivity.
Defined.

Lemma getRequestedFeatureRequests_ok env s :
  db_initialized s = true ->
  db_failure env (db_round s) = None ->
  Db.getRequestedFeatureRequests env s
  = (Ok (Pg.order_by ["priority_order"; "created_at"]
           (filter (fun row => Is_true (Pg.eq_filter "status" (VStr "requested") row))
                   (feature_requests (store s)))),
     next_round s).
Proof.
  intros Hi Hf. unfold Db.getRequestedFeatureRequests, Db.ensure_initialized.
  run_monad. rewrite Hi. state_fields. rewrite Hf. by rewrite set_store_same.
Qed.

Lemma getPendingFeatureRequests_ok env s :
  db_initialized s = true ->
  db_failure env (db_round s) = None ->
  Db.getPendingFeatureRequests env s
  = (Ok (Pg.order_by ["implementation_started_at"]
           (filter (fun row => Is_true (Pg.eq_filter "status" (VStr "pending") row))
                   (feature_requests (store s)))),
     next_round s).
Proof.
  intros Hi Hf. unfold Db.getPendingFeatureRequests, Db.ensure_initialized.
  run_monad. rewrite Hi. state_fields. rewrite Hf. by rewrite set_store_same.
Qed.

Lemma createFeatureRequest_ok featureData env s :
  db_initialized s = true ->
  db_failure env (db_round s) = None ->
  existsb (Pg.same_feature (Db.createFeatureRequest_row featureData))
    (feature_requests (store s)) = false ->
  let row' := Db.createFeatureRequest_row featureData
              ∪ Pg.defaults (now env) (serial (store s)) in
  Db.createFeatureRequest featureData env s
  = (Ok (VObj row'),
     set_store
       (Pg.next_serial
          (Pg.set_feature_requests (feature_requests (store s) ++ [row']) (store s)))
       (next_round
          (emit (DbInsert "feature_requests" (Db.createFeatureRequest_row featureData))
             s))).
Proof.
  intros Hi Hf Hnew row'.
  unfold Db.createFeatureRequest, Db.ensure_initialized.
  run_monad. rewrite Hi. state_fields. rewrite Hf.
  unfold Pg.insert_feature. rewrite Hnew. reflexivity.
Qed.

Lemma status_filter_hit status (row : JsObj) :
  get row "status" = VStr status ->
  Pg.eq_filter "status" (VStr status) row = true.
Proof.
  intros H. unfold Pg.eq_filter, Pg.col_eq. rewrite H. cbn.
  apply String.eqb_refl.
Qed.

Lemma status_filter_miss status other (row : JsObj) :
  get row "status" = VStr other -> other <> status ->
  Pg.eq_filter "status" (VStr status) row = false.
Proof.
  intros H Hne. unfold Pg.eq_filter, Pg.col_eq. rewrite H. cbn.
  by apply String.eqb_neq.
Qed.

(** A feature request created with [createFeatureRequest] is stored
    with status 'requested' and the name it was given, and the next
    [getRequestedFeatureRequests] returns it, together with the
    requests that were waiting before. *)
Theorem created_request_is_listed env s featureData :
  db_initialized s = true ->
  db_failure env (db_round s) = None ->
  db_failure env (S (db_round s)) = None ->
  Pg.is_null (get featureData "feature_name") = false ->
  existsb (Pg.same_feature (Db.createFeatureRequest_row featureData))
    (feature_requests (store s)) = false ->
  exists created s1 listed s2,
    Db.createFeatureRequest featureData env s = (Ok (VObj created), s1) /\
    get created "status" = VStr "requested" /\
    get created "feature_name" = get featureData "feature_name" /\
    feature_requests (store s1) = feature_requests (store s) ++ [created] /\
    Db.getRequestedFeatureRequests env s1 = (Ok listed, s2) /\
    created ∈ listed /\
    listed ≡ₚ
      filter (fun row => Is_true (Pg.eq_filter "status" (VStr "requested") row))
        (feature_requests (store s)) ++ [created].
Proof.
  intros Hi Hf1 Hf2 Hname Hnew.
  pose proof (createFeatureRequest_ok featureData env s Hi Hf1 Hnew) as Hcreate.
  cbv zeta in Hcreate.
  set (created := Db.createFeatureRequest_row featureData ∪ _) in Hcreate.
  set (s1 := set_store _ _) in Hcreate.
  assert (Hstatus : get created "status" = VStr "requested").
  { unfold created, get. erewrite lookup_union_Some_l; [reflexivity|].
    unfold Db.createFeatureRequest_row. by simplify_map_eq. }
  assert (Hlist : filter (fun row => Is_true (Pg.eq_filter "status" (VStr "requested") row))
                    (feature_requests (store s1))
                  = filter (fun row => Is_true (Pg.eq_filter "status" (VStr "requested") row))
                      (feature_requests (store s)) ++ [created]).
  { unfold s1. state_fields.
    cbn [feature_requests Pg.set_feature_requests Pg.next_serial].
    rewrite filter_app, filter_cons, filter_nil.
    rewrite (status_filter_hit _ _ Hstatus). cbn [Is_true].
    by destruct (decide True). }
  exists created, s1. eexists _, _.
  split; [exact Hcreate|]. split; [exact Hstatus|].
  split.
  { unfold created, get. erewrite lookup_union_Some_l; [reflexivity|].
    unfold Db.createFeatureRequest_row. by simplify_map_eq. }
  split; [reflexivity|].
  split; [apply getRequestedFeatureRequests_ok; [exact Hi | exact Hf2]|].
  rewrite Hlist. split.
  - rewrite order_by_perm. apply elem_of_app. right. apply list_elem_of_singleton.
    reflexivity.
  - apply order_by_perm.
Qed.

Lemma created_request_is_listed_witness :
  exists created s1 listed s2,
    Db.createFeatureRequest {[ "feature_name" := VStr "export to csv";
                               "description" := VStr "Export the table" ]}
      Sample.env0 (Sample.state0 [] 0 Sample.store0) = (Ok (VObj created), s1) /\
    Db.getRequestedFeatureRequests Sample.env0 s1 = (Ok listed, s2) /\
    created ∈ listed /\ length listed = 1.
Proof.
  destruct (created_request_is_listed Sample.env0 (Sample.state0 [] 0 Sample.store0)
              {[ "feature_name" := VStr "export to csv";
                 "description" := VStr "Export the table" ]})
    as (created & s1 & listed & s2 & Hcreate & _ & _ & _ & Hlist & Hin & Hperm);
    [reflexivity | reflexivity | reflexivity | reflexivity | vm_compute; reflexivity |].
  exists created, s1, listed, s2.
  split; [exact Hcreate|]. split; [exact Hlist|]. split; [exact Hin|].
  by rewrite Hperm.
Defined.

Lemma updateFeatureRequestStatus_rows id status metadata env s row :
  db_initialized s = true ->
  db_failure env (db_round s) = None ->
  filter (fun r => Is_true (Pg.eq_filter "id" id r)) (feature_requests (store s))
  = [row] ->
  let updateData :=
    Db.updateFeatureRequestStatus_updateData (now env) status metadata in
  let s1 := (Db.updateFeatureRequestStatus id status metadata env s).2 in
  (Db.updateFeatureRequestStatus id status metadata env s).1
  = Ok (VObj (Pg.apply_update updateData row)) /\
  feature_requests (store s1)
  = (fun r => if Pg.eq_filter "id" id r then Pg.apply_update updateData r else r)
      <$> feature_requests (store s) /\
  db_initialized s1 = true /\ db_round s1 = S (db_round s).
Proof.
  intros Hi Hf Hrow updateData s1. unfold s1.
  rewrite (updateFeatureRequestStatus_ok id status metadata env s row Hi Hf Hrow).
  repeat split. exact Hi.
Qed.

(** Marking a stored request 'pending' moves it from one work list to
    the other: the next [getPendingFeatureRequests] returns its updated
    row, and the next [getRequestedFeatureRequests] returns no row with
    its id any more. *)
Theorem pending_request_changes_list env s id metadata row :
  db_initialized s = true ->
  db_failure env (db_round s) = None ->
  db_failure env (S (db_round s)) = None ->
  filter (fun r => Is_true (Pg.eq_filter "id" id r)) (feature_requests (store s))
  = [row] ->
  exists updated s1,
    Db.updateFeatureRequestStatus id (VStr "pending") metadata env s
    = (Ok (VObj updated), s1) /\
    get updated "status" = VStr "pending" /\
    get updated "implementation_started_at" = VDate (now env) /\
    (exists listed s2,
       Db.getPendingFeatureRequests env s1 = (Ok listed, s2) /\ updated ∈ listed) /\
    (exists listed s2,
       Db.getRequestedFeatureRequests env s1 = (Ok listed, s2) /\
       forall r, r ∈ listed -> Pg.eq_filter "id" id r = false).
Proof.
  intros Hi Hf1 Hf2 Hrow.
  destruct (updateFeatureRequestStatus_rows id (VStr "pending") metadata env s row
              Hi Hf1 Hrow) as (Hret & Hrows & Hi1 & Hr1).
  cbv zeta in *.
  destruct (Db.updateFeatureRequestStatus id (VStr "pending") metadata env s)
    as [res s1] eqn:E. cbn [fst snd] in *. subst res.
  set (data := Db.updateFeatureRequestStatus_updateData (now env) (VStr "pending") metadata)
    in *.
  assert (Hstatus : forall r, get (Pg.apply_update data r) "status" = VStr "pending").
  { intros r. unfold get, data. by rewrite apply_update_status. }
  assert (Hin : row ∈ feature_requests (store s) /\ Pg.eq_filter "id" id row = true).
  { assert (H : row ∈ filter (fun r => Is_true (Pg.eq_filter "id" id r))
                  (feature_requests (store s)))
      by (rewrite Hrow; apply list_elem_of_singleton; reflexivity).
    apply list_elem_of_filter in H as [H1 H2]. split; [exact H2|].
    by apply Is_true_true. }
  destruct Hin as [Hin Hhit].
  exists (Pg.apply_update data row), s1.
  split; [reflexivity|]. split; [apply Hstatus|].
  assert (Hstart : data !! "implementation_started_at" = Some (VDate (now env))).
  { unfold data.
    rewrite (status_update_lookup _ _ _ "implementation_started_at" "pending")
      by (apply list_elem_of_In; cbn; tauto).
    reflexivity. }
  split; [by rewrite (get_apply_update_set _ _ _ _ Hstart)|].
  split.
  - eexists _, _.
    split; [apply getPendingFeatureRequests_ok; [exact Hi1|rewrite Hr1; exact Hf2]|].
    apply order_by_elem, list_elem_of_filter.
    split; [rewrite (status_filter_hit _ _ (Hstatus row)); exact I|].
    rewrite Hrows. apply list_elem_of_fmap.
    exists row. rewrite Hhit. split; [reflexivity | exact Hin].
  - eexists _, _.
    split; [apply getRequestedFeatureRequests_ok; [exact Hi1|rewrite Hr1; exact Hf2]|].
    intros r Hr. apply order_by_elem in Hr.
    apply list_elem_of_filter in Hr as [Hreq Hr].
    rewrite Hrows in Hr. apply list_elem_of_fmap in Hr as (r0 & -> & Hr0).
    destruct (Pg.eq_filter "id" id r0) eqn:E0.
    + rewrite (status_filter_miss "requested" "pending" _ (Hstatus r0)) in Hreq
        by discriminate.
      destruct Hreq.
    + exact E0.
Qed.

Lemma pending_request_changes_list_witness :
  exists updated s1 listed s2,
    Db.updateFeatureRequestStatus (VStr "f2") (VStr "pending")
      {[ "assignedTo" := VStr "developer-agent" ]} Sample.env0
      (Sample.state0 [] 0 Sample.store1) = (Ok (VObj updated), s1) /\
    Db.getPendingFeatureRequests Sample.env0 s1 = (Ok listed, s2) /\
    updated ∈ listed.
Proof.
  destruct (pending_request_changes_list Sample.env0 (Sample.state0 [] 0 Sample.store1)
              (VStr "f2") {[ "assignedTo" := VStr "developer-agent" ]} Sample.exportCsv)
    as (updated & s1 & Hrun & _ & _ & (listed & s2 & Hlist & Hin) & _);
    [reflexivity ..|].
  exists updated, s1, listed, s2.
  split; [exact Hrun|]. split; [exact Hlist | exact Hin].
Defined.

(** An update of a row that does not exist changes nothing: asked for
    an id that no row of the table has, [updateFeatureRequestStatus]
    and [updateUrlCheckStatus] each throw the store's 'multiple (or no)
    rows returned' error and leave every table as it was.
    [updateDeploymentRun] does not get that far: whether a row has the
    id or not, it throws at its call of [raw] and leaves the state as
    it was. *)
Theorem update_of_unknown_id_throws env s id :
  db_initialized s = true ->
  db_failure env (db_round s) = None ->
  (filter (fun r => Is_true (Pg.eq_filter "id" id r)) (feature_requests (store s)) = [] ->
   forall status metadata,
     (Db.updateFeatureRequestStatus id status metadata env s).1
     = Throw "JSON object requested, multiple (or no) rows returned" /\
     store (Db.updateFeatureRequestStatus id status metadata env s).2 = store s) /\
  (filter (fun r => Is_true (Pg.eq_filter "id" id r)) (monitored_urls (store s)) = [] ->
   (Db.updateUrlCheckStatus id env s).1
   = Throw "JSON object requested, multiple (or no) rows returned" /\
   store (Db.updateUrlCheckStatus id env s).2 = store s) /\
  (forall success error,
     Db.updateDeploymentRun id success error env s
     = (Throw "this.supabase.raw is not a function", s)).
Proof.
  intros Hi Hf. split; [|split]; [| |intros; by apply updateDeploymentRun_throws].
  all: repeat split; intros;
    unfold Db.updateFeatureRequestStatus, Db.updateUrlCheckStatus,
      Db.ensure_initialized;
    run_monad; rewrite Hi; state_fields; rewrite Hf;
    unfold Pg.update_single;
    match goal with H : filter _ _ = [] |- _ => rewrite H end;
    try reflexivity; by destruct (store s).
Qed.

Lemma update_of_unknown_id_throws_witness :
  (Db.updateFeatureRequestStatus (VStr "nobody") (VStr "pending") ∅ Sample.env0
     (Sample.state0 [] 0 Sample.store1)).1
  = Throw "JSON object requested, multiple (or no) rows returned" /\
  store (Db.updateFeatureRequestStatus (VStr "nobody") (VStr "pending") ∅ Sample.env0
           (Sample.state0 [] 0 Sample.store1)).2
  = Sample.store1.
Proof.
  destruct (update_of_unknown_id_throws Sample.env0 (Sample.state0 [] 0 Sample.store1)
              (VStr "nobody") eq_refl eq_refl) as (Hfeature & _).
  apply (Hfeature eq_refl).
Defined.

(** [updateDeploymentRun] never returns a row and never reaches the
    store: in every world it throws, without a round trip and without
    issuing a write, and leaves every table as it was.  Once the
    service is initialised, or can initialise itself, what it throws is
    the error of its call of [raw], whatever the deployment and
    whatever the outcome it is asked to record. *)
Theorem deployment_run_is_never_written id success error env s :
  let run := Db.updateDeploymentRun id success error env s in
  (exists e, run.1 = Throw e) /\
  store run.2 = store s /\
  db_round run.2 = db_round s /\
  Writes.issued s run.2 = [] /\
  (db_initialized s || credentials env = true ->
   run.1 = Throw "this.supabase.raw is not a function" /\
   db_initialized run.2 = true).
Proof.
  cbv zeta.
  unfold Db.updateDeploymentRun, Db.ensure_initialized, Db.initialize, Db.raw.
  run_monad. destruct (db_initialized s) eqn:Hi; state_fields.
  - repeat split; eauto.
    by rewrite (issued_app s s []) by (by rewrite app_nil_r).
  - destruct (credentials env); state_fields; cbn [negb orb].
    + split; [eauto|]. repeat split.
      erewrite issued_app; [|state_fields; reflexivity]. reflexivity.
    + split; [eauto|]. repeat split; [|discriminate|discriminate].
      erewrite issued_app; [|state_fields; reflexivity]. reflexivity.
Qed.

Lemma deployment_run_is_never_written_witness :
  let run := Db.updateDeploymentRun (VStr "d1") (VBool false) (VStr "timeout")
               Sample.env0 (Sample.state0 [] 0 Sample.store0) in
  run.1 = Throw "this.supabase.raw is not a function" /\
  orchestration_deployments (store run.2) = [Sample.deployment1].
Proof.
  intros run.
  destruct (deployment_run_is_never_written (VStr "d1") (VBool false) (VStr "timeout")
              Sample.env0 (Sample.state0 [] 0 Sample.store0))
    as (_ & Hstore & _ & _ & Hthrow).
  split; [apply Hthrow; reflexivity|].
  unfold run. rewrite Hstore. reflexivity.
Defined.

Lemma updateUrlCheckStatus_ok urlId env s row :
  db_initialized s = true ->
  db_failure env (db_round s) = None ->
  filter (fun r => Is_true (Pg.eq_filter "id" urlId r)) (monitored_urls (store s))
  = [row] ->
  let updateData : JsObj :=
    {[ "last_checked_at" := VDate (now env); "updated_at" := VDate (now env) ]} in
  Db.updateUrlCheckStatus urlId env s
  = (Ok (VObj (Pg.apply_update updateData row)),
     set_store
       (Pg.set_monitored_urls
          ((fun r => if Pg.eq_filter "id" urlId r
                     then Pg.apply_update updateData r else r)
             <$> monitored_urls (store s))
          (store s))
       (next_round (emit (DbUpdate "monitored_urls" urlId updateData) s))).
Proof.
  intros Hi Hf Hrow updateData.
  unfold Db.updateUrlCheckStatus, Db.ensure_initialized.
  run_monad. rewrite Hi. state_fields. rewrite Hf.
  unfold Pg.update_single. rewrite Hrow. reflexivity.
Qed.

(** Checking a monitored url stamps it and nothing else: the row gets
    [last_checked_at] set to now and keeps its status, so the urls that
    [getUrlsToCheck] selects are the same rows as before, and a url that
    has just been analysed is analysed again in the next tick. *)
Theorem checked_url_stays_listed env s urlId row :
  db_initialized s = true ->
  db_failure env (db_round s) = None ->
  filter (fun r => Is_true (Pg.eq_filter "id" urlId r)) (monitored_urls (store s))
  = [row] ->
  exists row' s',
    Db.updateUrlCheckStatus urlId env s = (Ok (VObj row'), s') /\
    get row' "last_checked_at" = VDate (now env) /\
    get row' "status" = get row "status" /\
    get row' "url" = get row "url" /\
    Db.urlsToCheck (store s')
    = (fun r => if Pg.eq_filter "id" urlId r then row' else r)
        <$> Db.urlsToCheck (store s) /\
    length (Db.urlsToCheck (store s')) = length (Db.urlsToCheck (store s)).
Proof.
  intros Hi Hf Hrow.
  pose proof (updateUrlCheckStatus_ok urlId env s row Hi Hf Hrow) as Hrun.
  cbv zeta in Hrun.
  set (data := ({[ "last_checked_at" := VDate (now env);
                   "updated_at" := VDate (now env) ]} : JsObj)) in *.
  assert (Ul : data !! "last_checked_at" = Some (VDate (now env))) by done.
  assert (Ust : data !! "status" = None) by done.
  assert (Uu : data !! "url" = None) by done.
  assert (Hlist : Db.urlsToCheck
                    (Pg.set_monitored_urls
                       ((fun r => if Pg.eq_filter "id" urlId r
                                  then Pg.apply_update data r else r)
                          <$> monitored_urls (store s)) (store s))
                  = (fun r => if Pg.eq_filter "id" urlId r
                              then Pg.apply_update data row else r)
                      <$> Db.urlsToCheck (store s)).
  { unfold Db.urlsToCheck. cbn [monitored_urls Pg.set_monitored_urls].
    rewrite (filter_rewrite_commute (Pg.eq_filter "status" (VStr "active")))
      by (intros r; by apply eq_filter_apply_update).
    apply list_fmap_ext. intros i r Hr.
    destruct (Pg.eq_filter "id" urlId r) eqn:E; [|reflexivity].
    assert (Hin : r ∈ filter (fun r => Is_true (Pg.eq_filter "id" urlId r))
                    (monitored_urls (store s))).
    { apply list_elem_of_filter. split; [by rewrite E|].
      apply list_elem_of_lookup_2 in Hr. by apply list_elem_of_filter in Hr as [_ Hr]. }
    rewrite Hrow in Hin. apply list_elem_of_singleton in Hin. by subst. }
  exists (Pg.apply_update data row). eexists.
  split; [exact Hrun|].
  split; [by rewrite (get_apply_update_set _ _ _ _ Ul)|].
  split; [by rewrite (get_apply_update_other _ _ _ Ust)|].
  split; [by rewrite (get_apply_update_other _ _ _ Uu)|].
  state_fields. rewrite Hlist. split; [reflexivity | by rewrite length_fmap].
Qed.

Lemma checked_url_stays_listed_witness :
  exists row' s',
    Db.updateUrlCheckStatus (VStr "u1") Sample.env0
      (Sample.state0 [] 0 Sample.store0) = (Ok (VObj row'), s') /\
    get row' "last_checked_at" = VDate (now Sample.env0).
Proof.
  destruct (checked_url_stays_listed Sample.env0 (Sample.state0 [] 0 Sample.store0)
              (VStr "u1") Sample.url1)
    as (row' & s' & Hrun & Hstamp & _); [reflexivity ..|].
  exists row', s'. split; [exact Hrun | exact Hstamp].
Defined.

(** Logging an interaction never fails the caller: once the service is
    initialised, [logDeveloperAgentInteraction] returns normally in
    every world.  When the insert fails it warns, returns null and
    leaves the store alone; otherwise it returns the inserted row, which
    is the last row of [developer_agent_logs]. *)
Theorem log_failure_is_swallowed env s interactionData :
  db_initialized s = true ->
  exists v s',
    Db.logDeveloperAgentInteraction interactionData env s = (Ok v, s') /\
    match db_failure env (db_round s) with
    | Some e => v = VNull /\ store s' = store s /\
                last (trace s')
                = Some (Console Warn [VStr "Failed to log developer agent interaction:";
                                      VStr (pg_message e)])
    | None =>
        exists logged,
          v = VObj logged /\
          developer_agent_logs (store s') = developer_agent_logs (store s) ++ [logged] /\
          get logged "feature_request_id" = get interactionData "featureRequestId" /\
          get logged "action" = get interactionData "action"
    end.
Proof.
  intros Hi. unfold Db.logDeveloperAgentInteraction, Db.ensure_initialized.
  run_monad. rewrite Hi. state_fields.
  destruct (db_failure env (db_round s)) as [e|] eqn:E.
  - eexists _, _. split; [reflexivity|]. state_fields.
    split; [reflexivity|]. split; [by destruct (store s)|].
    by rewrite last_snoc.
  - eexists _, _. split; [reflexivity|]. state_fields.
    eexists. split; [reflexivity|]. split; [reflexivity|].
    change (default ∅ (Some ?x)) with x.
    unfold Db.log_row, get at 1 10.
    split; (erewrite lookup_union_Some_l; [|by simplify_map_eq]; reflexivity).
Qed.

Lemma log_failure_is_swallowed_witness :
  let env :=
    {| now := 1750000000000; date_parse := Sample.date_parse0; credentials := true;
       db_failure := fun _ => Some {| pg_message := "connection refused"; pg_code := "" |};
       chat_post := fun _ => Throw "unused"; dev_connect := Ok tt;
       dev_reply := fun _ => Throw "unused" |} in
  exists s',
    Db.logDeveloperAgentInteraction {[ "action" := VStr "send_request" ]} env
      (Sample.state0 [] 0 Sample.store0) = (Ok VNull, s') /\
    store s' = Sample.store0.
Proof.
  intros env.
  destruct (log_failure_is_swallowed env (Sample.state0 [] 0 Sample.store0)
              {[ "action" := VStr "send_request" ]} eq_refl)
    as (v & s' & Hrun & Hcase).
  cbn in Hcase. destruct Hcase as (-> & Hstore & _).
  exists s'. split; [exact Hrun | exact Hstore].
Defined.

(** ** Book-keeping after a task *)

Lemma total_updateDatabaseAfterExecution task result :
  Runs.total (OrchestrationAgent.updateDatabaseAfterExecution task result).
Proof.
  unfold OrchestrationAgent.updateDatabaseAfterExecution.
  apply total_bind; [apply total_gets|]. intros present.
  destruct (negb present); [apply total_ret|].
  apply total_try_catch. intros e. apply total_console.
Qed.

(** [updateDatabaseAfterExecution] never throws.  For a task that is
    neither a url analysis nor a deployment run (the default tasks, the
    tasks added by hand) it does nothing at all.  For a url analysis it
    stamps the url as checked whatever the outcome of the agent call
    was: the result is not looked at. *)
Theorem url_is_stamped_whatever_the_result env s task :
  (forall result, exists s',
     OrchestrationAgent.updateDatabaseAfterExecution task result env s = (Ok tt, s')) /\
  (Db.is_str (get task "type") "url_analysis" && truthy (get task "urlId") = false ->
   Db.is_str (get task "type") "deployment_monitoring"
     && truthy (get task "deploymentId") = false ->
   forall result,
     OrchestrationAgent.updateDatabaseAfterExecution task result env s = (Ok tt, s)) /\
  (get task "type" = VStr "url_analysis" ->
   truthy (get task "urlId") = true ->
   database (agent s) = true ->
   db_initialized s = true ->
   db_failure env (db_round s) = None ->
   forall row,
     filter (fun r => Is_true (Pg.eq_filter "id" (get task "urlId") r))
       (monitored_urls (store s)) = [row] ->
     exists s' row',
       (forall result,
          OrchestrationAgent.updateDatabaseAfterExecution task result env s
          = (Ok tt, s')) /\
       monitored_urls (store s')
       = (fun r => if Pg.eq_filter "id" (get task "urlId") r then row' else r)
           <$> monitored_urls (store s) /\
       get row' "last_checked_at" = VDate (now env) /\
       Writes.issued s s'
       = [DbUpdate "monitored_urls" (get task "urlId")
            {[ "last_checked_at" := VDate (now env);
               "updated_at" := VDate (now env) ]}]).
Proof.
  split; [|split].
  - intros result.
    destruct (total_updateDatabaseAfterExecution task result env s) as ([] & s' & H).
    eauto.
  - intros Hurl Hdep result.
    unfold OrchestrationAgent.updateDatabaseAfterExecution.
    run_monad. rewrite Hurl, Hdep. by destruct (database (agent s)).
  - intros Htype Hid Hdb Hi Hf row Hrow.
    pose proof (updateUrlCheckStatus_ok (get task "urlId") env s row Hi Hf Hrow) as Hrun.
    cbv zeta in Hrun.
    set (data := ({[ "last_checked_at" := VDate (now env);
                     "updated_at" := VDate (now env) ]} : JsObj)) in *.
    eexists _, (Pg.apply_update data row).
    split; [|split; [|split]].
    + intros result. unfold OrchestrationAgent.updateDatabaseAfterExecution.
      erewrite bind_ok by reflexivity. rewrite Hdb. cbn [negb].
      apply try_ok. rewrite Htype, Hid.
      cbn [Db.is_str String.eqb Ascii.eqb Bool.eqb andb].
      erewrite bind_ok.
      2:{ erewrite bind_ok by exact Hrun. reflexivity. }
      reflexivity.
    + state_fields. cbn [monitored_urls Pg.set_monitored_urls].
      by apply rewrite_rows_single.
    + assert (Ul : data !! "last_checked_at" = Some (VDate (now env))) by done.
      by rewrite (get_apply_update_set _ _ _ _ Ul).
    + erewrite issued_app; [|state_fields; reflexivity]. reflexivity.
Qed.

Lemma url_is_stamped_whatever_the_result_witness :
  OrchestrationAgent.updateDatabaseAfterExecution Sample.taskA
    {[ "success" := VBool false ]} Sample.env0 (Sample.state0 [] 0 Sample.store0)
  = (Ok tt, Sample.state0 [] 0 Sample.store0).
Proof.
  destruct (url_is_stamped_whatever_the_result Sample.env0
              (Sample.state0 [] 0 Sample.store0) Sample.taskA) as (_ & Hother & _).
  apply Hother; reflexivity.
Defined.

(** ** The feature routes *)

Lemma postFeature_row_ok req_body name env s :
  get req_body "feature_name" = VStr name ->
  FeaturesRoute.postFeature_row req_body env s
  = (Ok ({[ "feature_name" := VStr (trim (toLowerCase name));
            "description" := jsOr (get req_body "description")
                                  (VStr ("Manually created feature: " ++ name));
            "category" := jsOr (get req_body "category") (VStr "feature");
            "priority" := jsOr (get req_body "priority") (VStr "medium");
            "requested_by_username" := get req_body "requested_by_username";
            "target_account" := get req_body "target_account";
            "tweet_url" := jsOr (get req_body "tweet_url") (VStr "");
            "reply_text" := jsOr (get req_body "reply_text") (VStr "Manually created");
            "status" := VStr "requested" ]} : JsObj), s).
Proof. intros H. unfold FeaturesRoute.postFeature_row. by rewrite H. Qed.

Lemma postFeature_created stringify req_body name env s r s1 :
  get req_body "feature_name" = VStr name ->
  FeaturesRoute.postFeature stringify req_body env s = (Ok r, s1) ->
  FeaturesRoute.code r = 201 ->
  exists row,
    FeaturesRoute.postFeature_row req_body env s = (Ok row, s) /\
    credentials env = true /\
    FeaturesRoute.notEmpty stringify (get req_body "target_account") = true /\
    (FeaturesRoute.notEmpty stringify (get req_body "requested_by_username")
     && FeaturesRoute.optionalString (get req_body "description")
     && FeaturesRoute.optionalIn stringify ["feature"; "ui"; "bug"; "enhancement"]
          (get req_body "category")
     && FeaturesRoute.optionalIn stringify ["low"; "medium"; "high"; "critical"]
          (get req_body "priority")) = true /\
    feature_requests (store s1)
    = feature_requests (store s) ++ [row ∪ Pg.defaults (now env) (serial (store s))] /\
    db_round s1 = S (db_round s).
Proof.
  intros Hname Hrun Hcode.
  unfold FeaturesRoute.postFeature in Hrun.
  rewrite (bind_ok _ _ _ _ _ _ (eq_refl : ask credentials env s = (Ok (credentials env), s)))
    in Hrun.
  destruct (credentials env) eqn:Ec; cbn [negb] in Hrun;
    [|injection Hrun as <- <-; discriminate].
  destruct (FeaturesRoute.notEmpty stringify (get req_body "feature_name")) eqn:V1;
    cbn [andb negb] in Hrun; [|injection Hrun as <- <-; discriminate].
  destruct (FeaturesRoute.notEmpty stringify (get req_body "target_account")) eqn:V2;
    cbn [andb negb] in Hrun; [|injection Hrun as <- <-; discriminate].
  destruct (_ && _ && _ && _) eqn:V3 in Hrun;
    cbn [andb negb] in Hrun.
  2:{ injection Hrun as <- <-; discriminate. }
  rewrite (bind_ok _ _ _ _ _ _ (postFeature_row_ok req_body name env s Hname)) in Hrun.
  eexists. split; [by apply postFeature_row_ok|].
  split; [reflexivity|]. split; [reflexivity|]. split; [exact V3|].
  revert Hrun. run_monad. state_fields. unfold Pg.insert_feature.
  destruct (db_failure env (db_round s)) as [e|].
  { state_fields. destruct (String.eqb (pg_code e) "23505");
      intros [= <- <-]; discriminate. }
  destruct (existsb _ _); state_fields.
  { cbn [String.eqb Ascii.eqb Bool.eqb pg_code Pg.unique_violation].
    intros [= <- <-]; discriminate. }
  intros [= <- <-]. split; reflexivity.
Qed.

Lemma postFeature_row_key req_body name env s row :
  get req_body "feature_name" = VStr name ->
  FeaturesRoute.postFeature_row req_body env s = (Ok row, s) ->
  row !! "feature_name" = Some (VStr (trim (toLowerCase name))) /\
  row !! "target_account" = Some (get req_body "target_account").
Proof.
  intros Hname Hrow. rewrite (postFeature_row_ok _ _ _ _ Hname) in Hrow.
  injection Hrow as <-. split; by simplify_map_eq.
Qed.

Lemma same_feature_lookup (a b : JsObj) n1 n2 t1 t2 :
  a !! "feature_name" = Some n1 -> b !! "feature_name" = Some n2 ->
  a !! "target_account" = Some t1 -> b !! "target_account" = Some t2 ->
  Pg.same_feature a b = Pg.col_eq n1 n2 && Pg.col_eq t1 t2.
Proof.
  intros H1 H2 H3 H4. unfold Pg.same_feature, get. by rewrite H1, H2, H3, H4.
Qed.

Lemma col_eq_refl v : Pg.is_null v = false -> Pg.col_eq v v = true.
Proof. intros H. unfold Pg.col_eq. rewrite H. apply String.eqb_refl. Qed.

(** A feature request that [POST /api/features] has created for an
    account cannot be created again under a name that differs only in
    the case of its letters or in surrounding white space: the same
    body with such a name is answered 409 and leaves the store as it
    is.  (The names are taken in ASCII, where the case and the white
    space are the ones the embedding knows; [stringify] is the text the
    validators make of a value: a text reads as itself.) *)
Theorem repeated_post_conflicts stringify req_body name account again env s r s1 :
  (forall text, stringify (VStr text) = text) ->
  get req_body "feature_name" = VStr name ->
  get req_body "target_account" = VStr account ->
  is_ascii_text name = true ->
  is_ascii_text again = true ->
  FeaturesRoute.postFeature stringify req_body env s = (Ok r, s1) ->
  FeaturesRoute.code r = 201 ->
  again <> "" ->
  trim (toLowerCase again) = trim (toLowerCase name) ->
  db_failure env (db_round s1) = None ->
  exists r2 s2,
    FeaturesRoute.postFeature stringify (<["feature_name" := VStr again]> req_body)
      env s1
    = (Ok r2, s2) /\
    FeaturesRoute.code r2 = 409 /\
    store s2 = store s1.
Proof.
  intros Htext Hname Haccount _ _ Hrun Hcode Hagain Hsame Hf.
  destruct (postFeature_created _ _ _ _ _ _ _ Hname Hrun Hcode)
    as (row & Hrow & Ec & V2 & V3 & Htbl & Hround).
  destruct (postFeature_row_key _ _ _ _ _ Hname Hrow) as [Kn Ka].
  set (body2 := <["feature_name" := VStr again]> req_body).
  assert (Hname2 : get body2 "feature_name" = VStr again)
    by (unfold get, body2; by rewrite lookup_insert_eq).
  assert (Hother : forall k, k <> "feature_name" -> get body2 k = get req_body k)
    by (intros k Hk; unfold get, body2; by rewrite lookup_insert_ne).
  pose proof (postFeature_row_ok body2 again env s1 Hname2) as Hrow2.
  destruct (postFeature_row_key _ _ _ _ _ Hname2 Hrow2) as [Kn2 Ka2].
  rewrite Hother in Ka2 by done.
  unfold FeaturesRoute.postFeature.
  erewrite bind_ok by reflexivity. rewrite Ec. cbn [negb].
  rewrite Hname2, !Hother by done.
  assert (V1 : FeaturesRoute.notEmpty stringify (VStr again) = true).
  { unfold FeaturesRoute.notEmpty, FeaturesRoute.standard. rewrite Htext.
    destruct (String.eqb again "") eqn:E; [|reflexivity].
    apply String.eqb_eq in E. done. }
  rewrite V1, V2. cbn [andb]. rewrite V3. cbn [negb].
  erewrite bind_ok by exact Hrow2.
  run_monad. state_fields. rewrite Hf. unfold Pg.insert_feature.
  match goal with
  | |- context [existsb ?f ?l] =>
      assert (Hdup : existsb f l = true)
  end.
  { rewrite Htbl, existsb_app. apply orb_true_iff. right.
    cbn [existsb]. rewrite orb_false_r.
    rewrite (same_feature_lookup _ _ _ _ _ _ Kn2 (lookup_union_Some_l _ _ _ _ Kn)
               Ka2 (lookup_union_Some_l _ _ _ _ Ka)).
    rewrite Hsame, ?Hother by done.
    rewrite (col_eq_refl (VStr _)) by reflexivity.
    rewrite Haccount. by rewrite col_eq_refl. }
  rewrite Hdup. state_fields.
  cbn [String.eqb Ascii.eqb Bool.eqb pg_code Pg.unique_violation].
  eexists _, _. split; [reflexivity|]. split; [reflexivity|].
  state_fields. by destruct (store s1).
Qed.

Lemma repeated_post_conflicts_witness :
  let s := Sample.state0 [] 0 Sample.store0 in
  let body : JsObj :=
    {[ "feature_name" := VStr "Export to CSV"; "target_account" := VStr "acme";
       "requested_by_username" := VStr "bob" ]} in
  let first := FeaturesRoute.postFeature toItem body Sample.env0 s in
  exists r2 s2,
    FeaturesRoute.postFeature toItem
      (<["feature_name" := VStr "  export to csv "]> body)
      Sample.env0 first.2 = (Ok r2, s2) /\
    FeaturesRoute.code r2 = 409.
Proof.
  intros s body first.
  assert (Hcode : match first.1 with Ok r => FeaturesRoute.code r | Throw _ => 0 end = 201)
    by (vm_compute; exact eq_refl).
  destruct first as [[r|e] s1] eqn:E; cbn [fst snd] in *; [|discriminate Hcode].
  destruct (repeated_post_conflicts toItem body "Export to CSV" "acme"
              "  export to csv " Sample.env0 s r s1) as (r2 & s2 & Hrun & Hcode2 & _).
  - reflexivity.
  - reflexivity.
  - reflexivity.
  - reflexivity.
  - reflexivity.
  - exact E.
  - exact Hcode.
  - discriminate.
  - reflexivity.
  - reflexivity.
  - exists r2, s2. split; [exact Hrun | exact Hcode2].
Defined.





(** ** The feature-request tool *)

Lemma prop_state v k env s r s' : prop v k env s = (r, s') -> s' = s.
Proof. unfold prop, throw, mret, M_ret. destruct v; congruence. Qed.

Lemma asString_state v k env s r s' : asString v k env s = (r, s') -> s' = s.
Proof. unfold asString, throw, mret, M_ret. destruct v; congruence. Qed.

Lemma firstMention_elem featureName replies : forall env s found s',
  FeatureRequestTool.firstMention featureName replies env s = (Ok found, s') ->
  s' = s /\ match found with Some reply => reply ∈ replies | None => True end.
Proof.
  induction replies as [|reply rest IH]; intros env s found s' H;
    cbn [FeatureRequestTool.firstMention] in H.
  - by injection H as <- <-.
  - revert H. unfold mbind at 1, M_bind at 1.
    destruct (prop reply "text" env s) as [[text|e] s1] eqn:E1; [|discriminate].
    assert (s1 = s) as -> by (by eapply prop_state).
    unfold mbind at 1, M_bind at 1, fmap, M_fmap.
    destruct (asString text "toLowerCase" env s) as [[lowered|e] s2] eqn:E2;
      [|discriminate].
    assert (s2 = s) as -> by (by eapply asString_state).
    destruct (includes (toLowerCase lowered) featureName).
    { intros [= <- <-]. split; [reflexivity | apply list_elem_of_here]. }
    unfold mbind at 1, M_bind at 1, FeatureRequestTool.isFeatureRelated.
    destruct (FeatureRequestTool.relatedKeywords featureName) as [keywords|e];
      [|discriminate].
    cbn [mret M_ret].
    destruct (existsb _ keywords).
    { intros [= <- <-]. split; [reflexivity | apply list_elem_of_here]. }
    intros H. destruct (IH _ _ _ _ H) as [-> Hin].
    split; [reflexivity|]. destruct found; [by apply list_elem_of_further | exact I].
Qed.

(** The user [findRequestingUser] names for a feature is one of the
    replies it was given; only when there is no reply to fall back on
    (the list is empty, or its first entry is not an object) is it the
    placeholder user 'unknown'.  The search reads nothing but its
    arguments. *)
Theorem requesting_user_is_a_reply feature replies env s user s' :
  FeatureRequestTool.findRequestingUser feature (VArr replies) env s = (Ok user, s') ->
  s' = s /\
  (user ∈ replies \/
   (user = VObj {[ "username" := VStr "unknown";
                   "text" := VStr "Feature request detected" ]} /\
    match replies with
    | [] => True
    | first :: _ => truthy first = false
    end)).
Proof.
  unfold FeatureRequestTool.findRequestingUser.
  unfold mbind at 1, M_bind at 1.
  destruct (prop feature "name" env s) as [[name|e] s1] eqn:E1; [|discriminate].
  assert (s1 = s) as -> by (by eapply prop_state).
  unfold mbind at 1, M_bind at 1, fmap, M_fmap.
  destruct (asString name "toLowerCase" env s) as [[lowered|e] s2] eqn:E2;
    [|discriminate].
  assert (s2 = s) as -> by (by eapply asString_state).
  cbn [FeatureRequestTool.iterate]. unfold mbind at 1, M_bind at 1. cbn [mret M_ret].
  unfold mbind, M_bind.
  destruct (FeatureRequestTool.firstMention (toLowerCase lowered) replies env s)
    as [[found|e] s3] eqn:E3; [|discriminate].
  destruct (firstMention_elem _ _ _ _ _ _ E3) as [-> Hfound].
  destruct found as [reply|].
  - intros [= <- <-]. split; [reflexivity | by left].
  - intros [= <- <-]. split; [reflexivity|].
    destruct replies as [|first rest]; [right; by split|].
    unfold jsOr. destruct (truthy first) eqn:Et.
    + left. apply list_elem_of_here.
    + right. by split.
Qed.

Lemma requesting_user_is_a_reply_witness :
  exists user,
    FeatureRequestTool.findRequestingUser (VObj {[ "name" := VStr "Dark Mode" ]})
      (VArr [VObj {[ "username" := VStr "ann"; "text" := VStr "nice app" ]};
             VObj {[ "username" := VStr "bob"; "text" := VStr "a night theme?" ]}])
      Sample.env0 (Sample.state0 [] 0 Sample.store0)
    = (Ok user, Sample.state0 [] 0 Sample.store0) /\
    (user ∈ [VObj {[ "username" := VStr "ann"; "text" := VStr "nice app" ]};
             VObj {[ "username" := VStr "bob"; "text" := VStr "a night theme?" ]}]).
Proof.
  set (run := FeatureRequestTool.findRequestingUser _ _ _ _).
  assert (E : run = (Ok (VObj {[ "username" := VStr "bob";
                                 "text" := VStr "a night theme?" ]}),
                     Sample.state0 [] 0 Sample.store0))
    by (vm_compute; exact eq_refl).
  destruct (requesting_user_is_a_reply _ _ _ _ _ _ E) as [_ [Hin|[Habs _]]].
  - eexists. split; [exact E | exact Hin].
  - discriminate Habs.
Defined.

(** The tool always answers with a text and never throws.  Without
    credentials, with an input that is not JSON, and with an input
    whose [features] is missing, not an array or empty, it answers
    with the message for that case and issues no request to the store
    at all. *)
Theorem tool_always_answers JSON_parse input env s :
  (exists answer s',
     FeatureRequestTool._call JSON_parse input env s = (Ok answer, s')) /\
  (credentials env = false ->
   FeatureRequestTool._call JSON_parse input env s
   = (Ok "Feature request tracking is disabled. Please configure Supabase credentials.",
      s)) /\
  (credentials env = true ->
   forall message, JSON_parse input = Throw message ->
   FeatureRequestTool._call JSON_parse input env s
   = (Ok ("Error parsing input JSON: " ++ message
          ++ ". Expected format: features array, tweetUrl string, targetAccount string, replies array")%string,
      s)) /\
  (credentials env = true ->
   forall data, JSON_parse input = Ok (VObj data) ->
   match get data "features" with VArr (_ :: _) => False | _ => True end ->
   FeatureRequestTool._call JSON_parse input env s
   = (Ok "No features found to save.", s)).
Proof.
  split; [|split; [|split]].
  - unfold FeatureRequestTool._call.
    apply total_try_catch. intros e. apply total_ret.
  - intros Ec. unfold FeatureRequestTool._call. run_monad. by rewrite Ec.
  - intros Ec message Hparse. unfold FeatureRequestTool._call. run_monad.
    by rewrite Ec, Hparse.
  - intros Ec data Hparse Hfeatures. unfold FeatureRequestTool._call. run_monad.
    rewrite Ec, Hparse. cbn [negb prop getv].
    by destruct (get data "features") as [| | | | | | |[|? ?]|].
Qed.

Lemma tool_always_answers_witness :
  FeatureRequestTool._call (fun _ => Ok (VObj {[ "features" := VArr [] ]})) "{}"
    Sample.env0 (Sample.state0 [] 0 Sample.store0)
  = (Ok "No features found to save.", Sample.state0 [] 0 Sample.store0).
Proof.
  destruct (tool_always_answers (fun _ => Ok (VObj {[ "features" := VArr [] ]})) "{}"
              Sample.env0 (Sample.state0 [] 0 Sample.store0)) as (_ & _ & _ & Hnone).
  apply (Hnone eq_refl {[ "features" := VArr [] ]} eq_refl). exact I.
Defined.

(** ** Sessions of the chat endpoint *)

(** A chat request whose agent call throws is handed to the error
    middleware and loses nothing: the history of its session is what it
    was, every other session is untouched, and the session, created if
    it was new, has its last activity set to the time of the request.
    A request that fails validation leaves the whole table alone. *)
Theorem failed_chat_keeps_history valid processMessage generateSessionId
    t req_body userSessions :
  let run := AgentRoute.chat valid processMessage generateSessionId t req_body
               userSessions in
  let sid := if truthy (get req_body "sessionId")
             then toStr (get req_body "sessionId") else generateSessionId t in
  (valid req_body = false -> run = (AgentRoute.Rejected 400, userSessions)) /\
  (forall e, run.1 = AgentRoute.Next e ->
     Sessions.historyOf run.2 sid = Sessions.historyOf userSessions sid /\
     (exists session,
        run.2 !! sid = Some session /\ AgentRoute.lastActivity session = t) /\
     forall other, other <> sid -> run.2 !! other = userSessions !! other).
Proof.
  cbv zeta. unfold AgentRoute.chat. split.
  - intros Hv. by rewrite Hv.
  - intros e. destruct (valid req_body); cbn [negb fst snd]; [|discriminate].
    set (sid := if truthy (get req_body "sessionId") then _ else _).
    unfold Sessions.historyOf.
    destruct (userSessions !! sid) as [session|] eqn:E; cbn [AgentRoute.history];
      (destruct (processMessage _ _) as [r|e']; cbn [fst snd]; [discriminate|]);
      intros _; rewrite lookup_insert_eq; cbn [AgentRoute.history];
      (split; [reflexivity|]);
      (split; [eexists; split; reflexivity|]);
      intros other Hother; by rewrite lookup_insert_ne.
Qed.

Lemma failed_chat_keeps_history_witness :
  Sessions.historyOf
    (AgentRoute.chat (fun _ => true) (fun _ _ => Throw "model overloaded")
       (fun _ => "sess_x") 5 {[ "message" := VStr "hello"; "sessionId" := VStr "s1" ]}
       Sessions.fullSessions).2 "s1"
  = Sessions.historyOf Sessions.fullSessions "s1".
Proof.
  destruct (failed_chat_keeps_history (fun _ => true) (fun _ _ => Throw "model overloaded")
              (fun _ => "sess_x") 5%Z
              {[ "message" := VStr "hello"; "sessionId" := VStr "s1" ]}
              Sessions.fullSessions) as [_ Hnext].
  destruct (Hnext "model overloaded") as (Hhist & _); [reflexivity|].
  exact Hhist.
Defined.

(** A valid chat request keeps its session alive for one hour: whether
    the agent answered or threw, the session is in the table with its
    last activity at the time of the request, and the sweep removes it
    exactly when it runs more than an hour after that time. *)
Theorem chat_session_lives_one_hour valid processMessage generateSessionId
    t req_body userSessions :
  valid req_body = true ->
  let tbl := (AgentRoute.chat valid processMessage generateSessionId t req_body
                userSessions).2 in
  let sid := if truthy (get req_body "sessionId")
             then toStr (get req_body "sessionId") else generateSessionId t in
  exists session,
    tbl !! sid = Some session /\
    AgentRoute.lastActivity session = t /\
    forall t',
      AgentRoute.cleanup t' tbl !! sid
      = if (t <? t' - 60 * 60 * 1000)%Z then None else Some session.
Proof.
  intros Hv. cbv zeta. unfold AgentRoute.chat. rewrite Hv. cbn [negb].
  set (sid := if truthy (get req_body "sessionId") then _ else _).
  assert (Hsweep : forall (tbl : gmap string AgentRoute.Session) session t',
            tbl !! sid = Some session -> AgentRoute.lastActivity session = t ->
            AgentRoute.cleanup t' tbl !! sid
            = if (t <? t' - 60 * 60 * 1000)%Z then None else Some session).
  { intros tbl session t' Hs Hl. unfold AgentRoute.cleanup.
    destruct (t <? t' - 60 * 60 * 1000)%Z eqn:E.
    - apply Z.ltb_lt in E. apply map_lookup_filter_None. right.
      intros x Hx. rewrite Hs in Hx. injection Hx as <-. cbn. lia.
    - apply Z.ltb_ge in E. apply map_lookup_filter_Some. split; [exact Hs|].
      cbn. lia. }
  destruct (userSessions !! sid) as [session|] eqn:E;
    (destruct (processMessage _ _) as [r|e']; cbn [snd];
     eexists; (split; [apply lookup_insert_eq|]); (split; [reflexivity|]);
     intros t'; (apply Hsweep; [apply lookup_insert_eq | reflexivity])).
Qed.

Lemma chat_session_lives_one_hour_witness :
  exists session,
    (AgentRoute.chat (fun _ => true) (fun _ _ => Ok (VStr "hi")) (fun _ => "sess_x")
       1000 {[ "message" := VStr "hello" ]} ∅).2 !! "sess_x" = Some session /\
    AgentRoute.cleanup 3601001
      (AgentRoute.chat (fun _ => true) (fun _ _ => Ok (VStr "hi")) (fun _ => "sess_x")
         1000 {[ "message" := VStr "hello" ]} ∅).2 !! "sess_x" = None.
Proof.
  destruct (chat_session_lives_one_hour (fun _ => true) (fun _ _ => Ok (VStr "hi"))
              (fun _ => "sess_x") 1000%Z {[ "message" := VStr "hello" ]} ∅ eq_refl)
    as (session & Hs & _ & Hsweep).
  exists session. split; [exact Hs|]. exact (Hsweep 3601001%Z).
Defined.

(** ** A tick whose agent call goes through *)

Lemma sendToAgent_success env s m taskId d text :
  (forall payload, chat_post env payload = Ok (VObj d)) ->
  get d "response" = VStr text ->
  text <> "" ->
  exists result line1 line2 line3,
    OrchestrationAgent.sendToAgent (VStr m) taskId env s
    = (Ok result,
       emit (Console Log [VStr line3])
         (emit (Console Log [VStr line2]) (emit (Console Log [VStr line1]) s))) /\
    get result "success" = VBool true /\
    get result "error" = VUndef /\
    get result "request" = VStr m /\
    get result "response" = VObj d.
Proof.
  intros Hpost Hresponse Hne. unfold OrchestrationAgent.sendToAgent, substring0.
  cbn [asString]. run_monad. cbv beta. rewrite Hpost.
  cbn [prop getv]. rewrite Hresponse. unfold mret, M_ret. cbv beta iota.
  assert (Ht : jsOr (VStr text) (jsOr (get d "message") (VStr "No response text"))
               = VStr text).
  { unfold jsOr at 1. cbn [truthy].
    destruct (String.eqb text "") eqn:E; [apply String.eqb_eq in E; done|reflexivity]. }
  rewrite Ht. cbn [asString]. unfold mret, M_ret. cbv beta iota.
  eexists _, _, _, _. split; [reflexivity|].
  unfold get. repeat split; by simplify_map_eq.
Qed.

Lemma logInteraction_success env s result m d text :
  get result "success" = VBool true ->
  get result "request" = VStr m ->
  get result "response" = VObj d ->
  get d "response" = VStr text ->
  exists entry,
    OrchestrationAgent.logInteraction result env s
    = (Ok tt, emit (Console Log [VStr "📝 Interaction logged:"; VObj entry]) s).
Proof.
  intros Hsuccess Hrequest Hresponse Htext. unfold OrchestrationAgent.logInteraction.
  rewrite Hsuccess, Hrequest, Hresponse. cbn [OrchestrationAgent.lengthOf truthy prop getv].
  rewrite Htext. run_monad. cbv beta iota.
  unfold jsOr. destruct (truthy (VStr text)); cbn [OrchestrationAgent.lengthOf];
    unfold mret, M_ret; cbv beta iota; eexists; reflexivity.
Qed.

Lemma processAgentResponse_success env s result d text :
  get result "success" = VBool true ->
  get result "response" = VObj d ->
  get d "response" = VStr text ->
  text <> "" ->
  exists lines,
    OrchestrationAgent.processAgentResponse result env s
    = (Ok tt,
       {| agent := agent s; db_initialized := db_initialized s;
          dev_connected := dev_connected s; dev_connecting := dev_connecting s;
          store := store s; db_round := db_round s;
          trace := trace s ++ (Console Log <$> lines) |}).
Proof.
  intros Hsuccess Hresponse Htext Hne. unfold OrchestrationAgent.processAgentResponse.
  rewrite Hsuccess, Hresponse. cbn [truthy negb prop getv]. rewrite Htext.
  run_monad. cbv beta iota.
  assert (Ht : jsOr (VStr text) (jsOr (get d "message") (VStr "")) = VStr text).
  { unfold jsOr at 1. cbn [truthy].
    destruct (String.eqb text "") eqn:E; [apply String.eqb_eq in E; done|reflexivity]. }
  rewrite Ht. cbn [asString]. unfold mret, M_ret. cbv beta iota.
  destruct (_ || _), (_ || _); cbv beta iota; state_fields; unfold emit; state_fields.
  - exists [[VStr "🎯 Feature requests detected in response"];
            [VStr "⚠️  Error detected in agent response"]].
    cbn [fmap list_fmap]. by rewrite <- app_assoc.
  - exists [[VStr "🎯 Feature requests detected in response"]]. reflexivity.
  - exists [[VStr "⚠️  Error detected in agent response"]]. reflexivity.
  - exists []. cbn [fmap list_fmap]. rewrite app_nil_r. by destruct s.
Qed.

Lemma dispatch_success env s task m d text :
  get task "type" = VStr "deployment_monitoring" ->
  truthy (get task "deploymentId") = true ->
  get task "message" = VStr m ->
  (forall payload, chat_post env payload = Ok (VObj d)) ->
  get d "response" = VStr text ->
  text <> "" ->
  database (agent s) = true ->
  db_initialized s = true ->
  exists s',
    OrchestrationAgent.dispatch (VObj task) env s = (Ok tt, s') /\
    store s' = store s /\
    db_round s' = db_round s /\
    Writes.issued s s' = [] /\
    Console Err [VStr "❌ Failed to update database:";
                 VStr "this.supabase.raw is not a function"] ∈ trace s'.
Proof.
  intros Htype Hid Hmsg Hpost Hresponse Hne Hdb Hi.
  unfold OrchestrationAgent.dispatch. cbn [prop getv].
  do 5 (erewrite bind_ok by reflexivity). rewrite Hmsg.
  edestruct (sendToAgent_success env) as (result & l1 & l2 & l3 & Hsend & Hsucc & Herr
                                          & Hreq & Hresp);
    [exact Hpost | exact Hresponse | exact Hne|].
  erewrite bind_ok by exact Hsend.
  erewrite bind_ok;
    [|apply (updateDatabaseAfterExecution_deployment _ _ task result);
      [exact Htype | exact Hid | exact Hdb | exact Hi]].
  edestruct (logInteraction_success env) as (entry & Hlog);
    [exact Hsucc | exact Hreq | exact Hresp | exact Hresponse|].
  erewrite bind_ok by exact Hlog.
  edestruct (processAgentResponse_success env) as (lines & Hprocess);
    [exact Hsucc | exact Hresp | exact Hresponse | exact Hne|].
  rewrite Hprocess.
  eexists. split; [reflexivity|]. split; [reflexivity|]. split; [reflexivity|].
  split.
  - erewrite issued_app; [|state_fields; rewrite <- !app_assoc; reflexivity].
    rewrite !List.filter_app. cbn [List.filter Writes.is_write app]. clear.
    induction lines as [|line lines IH]; [reflexivity | exact IH].
  - state_fields. rewrite !elem_of_app, !list_elem_of_singleton. tauto.
Qed.

(** When the chat agent answers a deployment-monitoring task with a
    response text, the tick still records nothing about the run: the
    update of the deployment row throws before any request to the
    database, the tick logs that failure and goes on to log the
    interaction, so it returns normally having issued no write since
    the task was selected.  The row keeps its [run_count], its
    [last_run_at] and its [next_run_at]: the deployment is due
    afterwards exactly when it was before. *)
Theorem answered_tick_records_no_run env s s1 task m d text :
  (forall payload, chat_post env payload = Ok (VObj d)) ->
  get d "response" = VStr text ->
  text <> "" ->
  initialized (agent s) = true ->
  OrchestrationAgent.select env s = (Ok (VObj task), s1) ->
  get task "type" = VStr "deployment_monitoring" ->
  truthy (get task "deploymentId") = true ->
  get task "message" = VStr m ->
  database (agent s1) = true ->
  db_initialized s1 = true ->
  exists s3,
    OrchestrationAgent.executeOrchestrationCycle env s = (Ok tt, s3) /\
    Writes.issued s1 s3 = [] /\
    db_round s3 = db_round s1 /\
    store s3 = store s1 /\
    (forall t, Db.due t <$> orchestration_deployments (store s3)
               = Db.due t <$> orchestration_deployments (store s1)) /\
    Console Err [VStr "❌ Failed to update database:";
                 VStr "this.supabase.raw is not a function"] ∈ trace s3.
Proof.
  intros Hpost Hresponse Hne Hinit Hselect Htype Hid Hmsg Hdb Hi.
  destruct (dispatch_success env s1 task m d text)
    as (s3 & Hrun & Hstore & Hround & Hissued & Hline); try assumption.
  exists s3. split.
  { rewrite (cycle_dispatches env s s1 task Hinit Hselect). by apply try_ok. }
  split; [exact Hissued|]. split; [exact Hround|]. split; [exact Hstore|].
  split; [intros t; by rewrite Hstore | exact Hline].
Qed.

Lemma answered_tick_records_no_run_witness :
  let env :=
    {| now := 1750000000000; date_parse := Sample.date_parse0; credentials := true;
       db_failure := fun _ => None;
       chat_post := fun _ => Ok (VObj {[ "response" := VStr "Nothing new today" ]});
       dev_connect := Ok tt; dev_reply := fun _ => Throw "unused" |} in
  exists s3,
    OrchestrationAgent.executeOrchestrationCycle env
      (Sample.state0 [] 0 Sample.store0) = (Ok tt, s3) /\
    (fun r => (get r "run_count", get r "error_count", get r "next_run_at"))
      <$> orchestration_deployments (store s3)
    = (fun r => (get r "run_count", get r "error_count", get r "next_run_at"))
      <$> [Sample.deployment1].
Proof.
  intros env.
  set (s := Sample.state0 [] 0 Sample.store0).
  set (selected := OrchestrationAgent.select env s).
  set (task := match selected.1 with Ok (VObj t) => t | _ => ∅ end).
  destruct (answered_tick_records_no_run env s selected.2 task
              "Monitor deployment: acme web - Check https://x.com/acme/status/1"
              {[ "response" := VStr "Nothing new today" ]} "Nothing new today")
    as (s3 & Hrun & _ & _ & Hstore & _);
    [ intros; reflexivity | reflexivity | discriminate
    | intros; vm_compute; exact eq_refl ..|].
  exists s3. split; [exact Hrun|]. rewrite Hstore.
  assert (Hd : orchestration_deployments (store selected.2) = [Sample.deployment1])
    by (vm_compute; exact eq_refl).
  by rewrite Hd.
Defined.

(** ** Deployment commands *)

Lemma strip_prefix_ci_app p : forall s m rest,
  DeploymentCommand.strip_prefix_ci p s = Some (m, rest) ->
  s = (m ++ rest)%string /\ toLowerCase m = toLowerCase p.
Proof.
  induction p as [|a p IH]; intros s m rest H; cbn in H.
  - injection H as <- <-. by split.
  - destruct s as [|b s]; [discriminate H|].
    destruct (Ascii.eqb (lower_ascii a) (lower_ascii b)) eqn:E; [|discriminate H].
    destruct (DeploymentCommand.strip_prefix_ci p s) as [[m' rest']|] eqn:E';
      [|discriminate H].
    injection H as <- <-. apply Ascii.eqb_eq in E.
    destruct (IH _ _ _ E') as [-> Hl].
    split; [reflexivity|]. cbn [toLowerCase]. f_equal; [by symmetry | exact Hl].
Qed.

Lemma first_match_suffix {A} (at_start : string -> option A) : forall text m,
  DeploymentCommand.first_match at_start text = Some m ->
  exists before rest, text = (before ++ rest)%string /\ at_start rest = Some m.
Proof.
  induction text as [|c text IH]; intros m H; cbn in H.
  - destruct (at_start EmptyString) eqn:E; [|discriminate H].
    injection H as ->. by exists EmptyString, EmptyString.
  - destruct (at_start (String c text)) eqn:E.
    + injection H as ->. by exists EmptyString, (String c text).
    + destruct (IH _ H) as (before & rest & -> & Hat).
      by exists (String c before), rest.
Qed.

Lemma eqb_empty_false s : String.eqb s "" = false -> s <> ""%string.
Proof. intros H ->. discriminate H. Qed.

Lemma repo_at_spec s repo :
  DeploymentCommand.repo_at s = Some repo ->
  exists owner name after,
    repo = (owner ++ "/" ++ name)%string /\ s = (repo ++ after)%string /\
    owner <> ""%string /\ name <> ""%string /\
    Forall (fun c => DeploymentCommand.is_repo_char c = true)
           (list_ascii_of_string owner) /\
    Forall (fun c => DeploymentCommand.is_repo_char c = true)
           (list_ascii_of_string name).
Proof.
  unfold DeploymentCommand.repo_at. intros H.
  destruct (span DeploymentCommand.is_repo_char s) as [owner rest] eqn:E1.
  destruct (String.eqb owner "") eqn:Ho; [discriminate H|].
  destruct (strip_prefix "/" rest) as [rest'|] eqn:E2; [|discriminate H].
  destruct (span DeploymentCommand.is_repo_char rest') as [name after] eqn:E3.
  destruct (String.eqb name "") eqn:Hn; [discriminate H|].
  injection H as <-.
  destruct (span_app _ _ _ _ E1) as [-> Fo].
  destruct (span_app _ _ _ _ E3) as [-> Fn].
  apply strip_prefix_app in E2. subst rest.
  exists owner, name, after.
  split; [reflexivity|]. split; [by rewrite !append_assoc|].
  split; [by apply eqb_empty_false|]. split; [by apply eqb_empty_false|].
  by split.
Qed.

Lemma github_at_spec s matched repo :
  DeploymentCommand.github_at s = Some (matched, repo) ->
  exists lead after,
    matched = (lead ++ repo)%string /\ s = (matched ++ after)%string /\
    (toLowerCase lead = "github.com/"%string \/ toLowerCase lead = "gh:"%string) /\
    DeploymentCommand.repo_at (repo ++ after) = Some repo.
Proof.
  unfold DeploymentCommand.github_at, DeploymentCommand.orelse. intros H.
  assert (forall p, match DeploymentCommand.strip_prefix_ci p s with
                    | Some (lead, rest) =>
                        match DeploymentCommand.repo_at rest with
                        | Some repo => Some ((lead ++ repo)%string, repo)
                        | None => None
                        end
                    | None => None
                    end = Some (matched, repo) ->
          exists lead after,
            matched = (lead ++ repo)%string /\ s = (matched ++ after)%string /\
            toLowerCase lead = toLowerCase p /\
            DeploymentCommand.repo_at (repo ++ after) = Some repo) as Hone.
  { intros p Hp.
    destruct (DeploymentCommand.strip_prefix_ci p s) as [[lead rest]|] eqn:E;
      [|discriminate Hp].
    destruct (DeploymentCommand.repo_at rest) as [repo'|] eqn:Er; [|discriminate Hp].
    injection Hp as <- <-.
    destruct (strip_prefix_ci_app _ _ _ _ E) as [-> Hl].
    destruct (repo_at_spec _ _ Er) as (owner & name & after & _ & Hrest & _).
    exists lead, after. subst rest.
    split; [reflexivity|]. split; [by rewrite append_assoc|]. by split. }
  match type of H with
  | match ?first with _ => _ end = _ => destruct first as [found|] eqn:E1
  end.
  - injection H as ->.
    destruct (Hone _ E1) as (lead & after & ? & ? & Hl & ?).
    exists lead, after. repeat split; try assumption. by left.
  - destruct (Hone _ H) as (lead & after & ? & ? & Hl & ?).
    exists lead, after. repeat split; try assumption. by right.
Qed.

Lemma repo_char_not_slash c :
  DeploymentCommand.is_repo_char c = true -> Ascii.eqb c "/" = false.
Proof.
  intros H. destruct (Ascii.eqb c "/") eqn:E; [|reflexivity].
  apply Ascii.eqb_eq in E. subst c. discriminate H.
Qed.

Lemma split_slash_piece piece : forall rest,
  Forall (fun c => DeploymentCommand.is_repo_char c = true)
         (list_ascii_of_string piece) ->
  DeploymentCommand.split_slash (piece ++ String "/" rest)
  = piece :: DeploymentCommand.split_slash rest.
Proof.
  induction piece as [|c piece IH]; intros rest F.
  - reflexivity.
  - cbn [list_ascii_of_string] in F. apply Forall_cons in F as [Hc F].
    rewrite append_cons. cbn [DeploymentCommand.split_slash].
    by rewrite (repo_char_not_slash _ Hc), (IH _ F).
Qed.

Lemma split_slash_last piece :
  Forall (fun c => DeploymentCommand.is_repo_char c = true)
         (list_ascii_of_string piece) ->
  DeploymentCommand.split_slash piece = [piece].
Proof.
  induction piece as [|c piece IH]; intros F.
  - reflexivity.
  - cbn [list_ascii_of_string] in F. apply Forall_cons in F as [Hc F].
    cbn [DeploymentCommand.split_slash].
    by rewrite (repo_char_not_slash _ Hc), (IH F).
Qed.

(** The repository [parseDeploymentCommand] reports is read off the
    message: the message holds github.com/ or gh: (in any case of the
    letters) followed by OWNER/NAME, both non-empty and made of letters,
    digits, - and _; [fullName] is OWNER/NAME as written, [owner] and
    [name] are its two halves. *)
Theorem deploy_command_names_a_repository message repo :
  get (DeploymentCommand.parseDeploymentCommand message) "githubRepo" = VObj repo ->
  exists owner name before lead after,
    get repo "owner" = VStr owner /\ get repo "name" = VStr name /\
    get repo "fullName" = VStr (owner ++ "/" ++ name) /\
    owner <> ""%string /\ name <> ""%string /\
    Forall (fun c => DeploymentCommand.is_repo_char c = true)
           (list_ascii_of_string owner) /\
    Forall (fun c => DeploymentCommand.is_repo_char c = true)
           (list_ascii_of_string name) /\
    message = (before ++ lead ++ owner ++ "/" ++ name ++ after)%string /\
    (toLowerCase lead = "github.com/"%string \/ toLowerCase lead = "gh:"%string).
Proof.
  unfold DeploymentCommand.parseDeploymentCommand, get at 1.
  rewrite lookup_insert_eq. intros H.
  destruct (DeploymentCommand.first_match DeploymentCommand.github_at message)
    as [[matched full]|] eqn:E; [|discriminate H].
  cbn [default] in H. injection H as <-.
  destruct (first_match_suffix _ _ _ E) as (before & rest & -> & Hat).
  destruct (github_at_spec _ _ _ Hat) as (lead & after & -> & -> & Hlead & Hrepo).
  destruct (repo_at_spec _ _ Hrepo)
    as (owner & name & after' & -> & _ & Ho & Hn & Fo & Fn).
  exists owner, name, before, lead, after.
  assert (DeploymentCommand.split_slash (owner ++ "/" ++ name) = [owner; name]) as Hsplit.
  { change (owner ++ "/" ++ name)%string with (owner ++ String "/" name)%string.
    by rewrite split_slash_piece, split_slash_last. }
  rewrite Hsplit.
  split; [by unfold get; simplify_map_eq|].
  split; [by unfold get; simplify_map_eq|].
  split; [by unfold get; simplify_map_eq|].
  split; [exact Ho|]. split; [exact Hn|]. split; [exact Fo|]. split; [exact Fn|].
  split; [by rewrite !append_assoc | exact Hlead].
Qed.

Lemma deploy_command_names_a_repository_witness :
  exists owner name before lead after,
    "please deploy GitHub.com/acme/web-site today"%string
    = (before ++ lead ++ owner ++ "/" ++ name ++ after)%string /\
    (toLowerCase lead = "github.com/"%string \/ toLowerCase lead = "gh:"%string).
Proof.
  destruct (deploy_command_names_a_repository
              "please deploy GitHub.com/acme/web-site today"
              {[ "fullName" := VStr "acme/web-site"; "owner" := VStr "acme";
                 "name" := VStr "web-site" ]})
    as (owner & name & before & lead & after & _ & _ & _ & _ & _ & _ & _ & Hm & Hl);
    [vm_compute; exact eq_refl|].
  by exists owner, name, before, lead, after.
Defined.

Lemma status_url_after_spec s tail :
  DeploymentCommand.status_url_after s = Some tail ->
  exists after, s = (tail ++ after)%string.
Proof.
  unfold DeploymentCommand.status_url_after, DeploymentCommand.orelse. intros H.
  destruct (DeploymentCommand.strip_prefix_ci "://" s) as [[colon r1]|] eqn:E1;
    [|discriminate H].
  destruct (strip_prefix_ci_app _ _ _ _ E1) as [-> _].
  assert (exists host r2,
            match DeploymentCommand.strip_prefix_ci "twitter.com" r1 with
            | Some x => Some x
            | None => DeploymentCommand.strip_prefix_ci "x.com" r1
            end = Some (host, r2) /\ r1 = (host ++ r2)%string /\
            match strip_prefix "/" r2 with
            | Some rest =>
                let '(user, rest0) := span DeploymentCommand.is_word rest in
                if String.eqb user "" then None
                else match DeploymentCommand.strip_prefix_ci "/status/" rest0 with
                     | Some (status, rest1) =>
                         let '(digits, _) := span is_digit rest1 in
                         if String.eqb digits "" then None
                         else Some (colon ++ host ++ "/" ++ user ++ status ++ digits)%string
                     | None => None
                     end
            | None => None
            end = Some tail) as (host & r2 & _ & -> & H2).
  { destruct (DeploymentCommand.strip_prefix_ci "twitter.com" r1) as [[host r2]|] eqn:E2.
    - exists host, r2. split; [reflexivity|].
      split; [by destruct (strip_prefix_ci_app _ _ _ _ E2) | exact H].
    - destruct (DeploymentCommand.strip_prefix_ci "x.com" r1) as [[host r2]|] eqn:E3;
        [|discriminate H].
      exists host, r2. split; [reflexivity|].
      split; [by destruct (strip_prefix_ci_app _ _ _ _ E3) | exact H]. }
  clear H.
  destruct (strip_prefix "/" r2) as [r3|] eqn:E3; [|discriminate H2].
  apply strip_prefix_app in E3. subst r2.
  destruct (span DeploymentCommand.is_word r3) as [user r4] eqn:E4.
  destruct (String.eqb user ""); [discriminate H2|].
  destruct (span_app _ _ _ _ E4) as [-> _].
  destruct (DeploymentCommand.strip_prefix_ci "/status/" r4) as [[status r5]|] eqn:E5;
    [|discriminate H2].
  destruct (strip_prefix_ci_app _ _ _ _ E5) as [-> _].
  destruct (span is_digit r5) as [digits after] eqn:E6.
  destruct (String.eqb digits ""); [discriminate H2|].
  destruct (span_app _ _ _ _ E6) as [-> _].
  injection H2 as <-. exists after.
  by rewrite !append_assoc.
Qed.

Lemma twitter_at_spec s url :
  DeploymentCommand.twitter_at s = Some url ->
  (exists after, s = (url ++ after)%string) /\
  String.prefix "http" (toLowerCase url) = true.
Proof.
  unfold DeploymentCommand.twitter_at, DeploymentCommand.orelse. intros H.
  destruct (DeploymentCommand.strip_prefix_ci "http" s) as [[http r1]|] eqn:E1;
    [|discriminate H].
  destruct (strip_prefix_ci_app _ _ _ _ E1) as [-> Hl].
  assert (forall rest, toLowerCase (http ++ rest) = ("http" ++ toLowerCase rest)%string)
    as Hlow.
  { intros rest. change (toLowerCase "http") with "http"%string in Hl.
    clear - Hl. destruct http as [|a [|b [|c [|d [|]]]]]; try discriminate Hl.
    cbn [toLowerCase] in Hl. injection Hl as Ha Hb Hc Hd.
    rewrite !append_cons. cbn [toLowerCase]. by rewrite Ha, Hb, Hc, Hd. }
  match type of H with
  | match ?first with _ => _ end = _ => destruct first as [found|] eqn:E2
  end.
  - injection H as ->.
    destruct (DeploymentCommand.strip_prefix_ci "s" r1) as [[letter r2]|] eqn:E3;
      [|discriminate E2].
    destruct (DeploymentCommand.status_url_after r2) as [tail|] eqn:E4;
      [|discriminate E2].
    injection E2 as <-.
    destruct (strip_prefix_ci_app _ _ _ _ E3) as [-> _].
    destruct (status_url_after_spec _ _ E4) as [after ->].
    split; [exists after; by rewrite !append_assoc|].
    rewrite Hlow. apply prefix_app.
  - destruct (DeploymentCommand.status_url_after r1) as [tail|] eqn:E4;
      [|discriminate H].
    injection H as <-.
    destruct (status_url_after_spec _ _ E4) as [after ->].
    split; [exists after; by rewrite !append_assoc|].
    rewrite Hlow. apply prefix_app.
Qed.

(** [isDeployCommand] is truthy exactly when the message holds the word
    deploy (in any case of the letters) and a repository or a status URL
    was found in it; a status URL that is reported is a piece of the
    message as written, and starts with http. *)
Theorem deploy_command_needs_word_and_target message :
  let parsed := DeploymentCommand.parseDeploymentCommand message in
  truthy (get parsed "isDeployCommand")
  = includes (toLowerCase message) "deploy"
    && (negb (Pg.is_null (get parsed "githubRepo"))
        || negb (Pg.is_null (get parsed "twitterUrl"))) /\
  (Pg.is_null (get parsed "twitterUrl") = true \/
   exists url,
     get parsed "twitterUrl" = VStr url /\
     includes message url = true /\
     String.prefix "http" (toLowerCase url) = true).
Proof.
  cbv zeta. unfold DeploymentCommand.parseDeploymentCommand.
  set (gh := DeploymentCommand.first_match DeploymentCommand.github_at message).
  destruct (DeploymentCommand.first_match DeploymentCommand.twitter_at message)
    as [url|] eqn:Et.
  - split.
    + destruct (includes (toLowerCase message) "deploy"), gh as [[matched repo]|];
        unfold get; by simplify_map_eq.
    + right. exists url. split; [unfold get; by simplify_map_eq|].
      destruct (first_match_suffix _ _ _ Et) as (before & rest & -> & Hat).
      destruct (twitter_at_spec _ _ Hat) as [[after ->] Hp].
      split; [apply includes_app | exact Hp].
  - split.
    + destruct (includes (toLowerCase message) "deploy"), gh as [[matched repo]|];
        unfold get; by simplify_map_eq.
    + left. unfold get. by simplify_map_eq.
Qed.

(** ** Adding a task by hand *)

Lemma manual_task_message message type priority :
  get ({[ "message" := message; "type" := type; "priority" := priority ]} : JsObj)
      "message" = message.
Proof. unfold get. by simplify_map_eq. Qed.

Lemma manual_task_type message type priority :
  get ({[ "message" := message; "type" := type; "priority" := priority ]} : JsObj)
      "type" = type.
Proof. unfold get. by simplify_map_eq. Qed.

Lemma manual_task_priority message type priority :
  get ({[ "message" := message; "type" := type; "priority" := priority ]} : JsObj)
      "priority" = priority.
Proof. unfold get. by simplify_map_eq. Qed.

Lemma jsOr_again a b : jsOr (jsOr a b) b = jsOr a b.
Proof.
  unfold jsOr. destruct (truthy a) eqn:Ha; [by rewrite Ha|].
  by destruct (truthy b).
Qed.

(** [POST /task] with a non-empty text as message answers 200, appends
    one task with that message to the end of the queue (type and
    priority defaulting to 'custom' and 'normal') and reports the new
    length of the queue; the index and the store stay as they were. *)
Theorem manual_task_is_queued runner req_body env s text :
  get req_body "message" = VStr text ->
  text <> ""%string ->
  exists res s' task status,
    OrchestrationRoute.postTask runner req_body env s = (Ok res, s') /\
    FeaturesRoute.code res = 200 /\
    get (FeaturesRoute.body res) "success" = VBool true /\
    get (FeaturesRoute.body res) "status" = VObj status /\
    get status "tasksInQueue"
    = VNum (Z.of_nat (length (taskQueue (agent s))) + 1) /\
    taskQueue (agent s') = taskQueue (agent s) ++ [task] /\
    get task "message" = VStr text /\
    get task "type" = jsOr (get req_body "type") (VStr "custom") /\
    get task "priority" = jsOr (get req_body "priority") (VStr "normal") /\
    currentTaskIndex (agent s') = currentTaskIndex (agent s) /\
    store s' = store s.
Proof.
  intros Hm Hne.
  assert (Ht : truthy (VStr text) = true).
  { cbn. destruct (String.eqb_spec text ""); [by exfalso | reflexivity]. }
  unfold OrchestrationRoute.postTask, OrchestrationRoute.getStatus,
    OrchestrationAgent.addTask, substring0, asString.
  rewrite Hm, Ht. cbn [negb]. run_monad. state_fields.
  rewrite !manual_task_message, manual_task_type, manual_task_priority, !jsOr_again.
  cbv beta iota.
  eexists _, _, _, _. split; [reflexivity|]. cbn [FeaturesRoute.code FeaturesRoute.body].
  split; [reflexivity|].
  split; [unfold get; by simplify_map_eq|].
  split; [unfold get; by simplify_map_eq|].
  split.
  { unfold get. rewrite !lookup_insert_ne, lookup_insert_eq by discriminate.
    cbn [default]. state_fields. cbn [taskQueue set_taskQueue].
    rewrite length_app. cbn [length]. unfold id. f_equal. lia. }
  split; [reflexivity|].
  split; [unfold get; by simplify_map_eq|].
  split; [unfold get; by simplify_map_eq|].
  split; [unfold get; by simplify_map_eq|].
  by split.
Qed.

Lemma manual_task_is_queued_witness :
  exists res s',
    OrchestrationRoute.postTask
      {| OrchestrationRoute.isRunning := true;
         OrchestrationRoute.intervalMinutes := VNum 2;
         OrchestrationRoute.apiUrl := "http://localhost:3000" |}
      {[ "message" := VStr "look at this" ]}
      Sample.env0 (Sample.state0 [Sample.taskA] 0 Sample.store0)
    = (Ok res, s') /\
    FeaturesRoute.code res = 200 /\
    length (taskQueue (agent s')) = 2.
Proof.
  destruct (manual_task_is_queued
              {| OrchestrationRoute.isRunning := true;
                 OrchestrationRoute.intervalMinutes := VNum 2;
                 OrchestrationRoute.apiUrl := "http://localhost:3000" |}
              {[ "message" := VStr "look at this" ]}
              Sample.env0 (Sample.state0 [Sample.taskA] 0 Sample.store0)
              "look at this")
    as (res & s' & task & status & Hrun & Hc & _ & _ & _ & Hq & _);
    [vm_compute; exact eq_refl | intros H; discriminate H |].
  exists res, s'. split; [exact Hrun|]. split; [exact Hc|].
  rewrite Hq, length_app. reflexivity.
Defined.

(** [POST /task] never answers 200 when the message is not a non-empty
    text, and never throws.  Without a message (or with an empty or
    falsy one) it answers 400 and leaves the state alone.  With any
    other value, a number for one, it answers 500, yet the task has
    been appended to the queue before the failure. *)
Theorem task_without_text_is_not_accepted runner req_body env s :
  (forall text, get req_body "message" = VStr text -> text = ""%string) ->
  (forall t, get req_body "message" <> VDate t) ->
  exists res s',
    OrchestrationRoute.postTask runner req_body env s = (Ok res, s') /\
    get (FeaturesRoute.body res) "success" = VBool false /\
    store s' = store s /\
    currentTaskIndex (agent s') = currentTaskIndex (agent s) /\
    if truthy (get req_body "message")
    then FeaturesRoute.code res = 500 /\
         exists task,
           taskQueue (agent s') = taskQueue (agent s) ++ [task] /\
           get task "message" = get req_body "message"
    else FeaturesRoute.code res = 400 /\ s' = s.
Proof.
  intros Hstr Hdate.
  unfold OrchestrationRoute.postTask, OrchestrationRoute.getStatus,
    OrchestrationAgent.addTask, substring0, asString.
  destruct (truthy (get req_body "message")) eqn:Ht; cbn [negb].
  - run_monad. state_fields.
    rewrite !manual_task_message, manual_task_type, manual_task_priority, !jsOr_again.
    destruct (get req_body "message") as [| |b|n|text|t| |items|fields] eqn:Hm;
      try discriminate Ht;
      try (exfalso; by apply (Hdate t));
      try (rewrite (Hstr text eq_refl) in Ht; discriminate Ht);
      cbv beta iota;
      (eexists _, _; split; [reflexivity|];
       cbn [FeaturesRoute.code FeaturesRoute.body];
       split; [unfold get; by simplify_map_eq|];
       split; [reflexivity|]; split; [reflexivity|]; split; [reflexivity|];
       eexists; split; [reflexivity|]; unfold get; by simplify_map_eq).
  - run_monad. eexists _, _. split; [reflexivity|].
    cbn [FeaturesRoute.code FeaturesRoute.body].
    split; [unfold get; by simplify_map_eq|]. by repeat split.
Qed.

Lemma task_without_text_is_not_accepted_witness :
  exists res s',
    OrchestrationRoute.postTask
      {| OrchestrationRoute.isRunning := true;
         OrchestrationRoute.intervalMinutes := VNum 2;
         OrchestrationRoute.apiUrl := "http://localhost:3000" |}
      {[ "message" := VNum 7 ]}
      Sample.env0 (Sample.state0 [Sample.taskA] 0 Sample.store0)
    = (Ok res, s') /\
    get (FeaturesRoute.body res) "success" = VBool false /\
    store s' = Sample.store0.
Proof.
  destruct (task_without_text_is_not_accepted
              {| OrchestrationRoute.isRunning := true;
                 OrchestrationRoute.intervalMinutes := VNum 2;
                 OrchestrationRoute.apiUrl := "http://localhost:3000" |}
              {[ "message" := VNum 7 ]}
              Sample.env0 (Sample.state0 [Sample.taskA] 0 Sample.store0))
    as (res & s' & Hrun & Hs & Hst & _);
    [intros text H; vm_compute in H; discriminate H
    |intros t H; vm_compute in H; discriminate H |].
  exists res, s'. split; [exact Hrun|]. split; [exact Hs | exact Hst].
Defined.

(** ** Rows that a tick leaves in place *)

Lemma same_rows_refl st : Rows.same_rows st st.
Proof. repeat split. exists []. by rewrite app_nil_r. Qed.

Lemma same_rows_trans a b c :
  Rows.same_rows a b -> Rows.same_rows b c -> Rows.same_rows a c.
Proof.
  intros (F1 & U1 & D1 & G1 & [m1 L1]) (F2 & U2 & D2 & G2 & [m2 L2]).
  repeat split; try congruence.
  exists (m1 ++ m2). by rewrite L2, L1, app_assoc.
Qed.

Lemma ids_update_single (tbl : list JsObj) id data :
  data !! "id" = None -> Rows.ids (Pg.update_single tbl id data).2 = Rows.ids tbl.
Proof.
  intros Hno. unfold Pg.update_single.
  destruct (filter _ tbl) as [|row [|]]; [reflexivity| |reflexivity].
  cbn [snd]. unfold Rows.ids. rewrite <- list_fmap_compose.
  apply list_fmap_ext. intros i r _. cbn.
  destruct (Pg.eq_filter "id" id r); [by apply get_apply_update_other | reflexivity].
Qed.

Section RowsFrame.
Import Runs.

Lemma rows_refl s : Rows.kept s s.
Proof. split; [apply same_rows_refl | reflexivity]. Qed.

Lemma rows_trans s1 s2 s3 : Rows.kept s1 s2 -> Rows.kept s2 s3 -> Rows.kept s1 s3.
Proof.
  intros [H1 D1] [H2 D2]. split; [by eapply same_rows_trans | by rewrite D2, D1].
Qed.

Lemma rows_store s s' : store s' = store s -> Rows.kept s s'.
Proof.
  intros E. unfold Rows.kept, Rows.keeps_rows. rewrite E.
  split; [apply same_rows_refl | reflexivity].
Qed.

Lemma rows_console lvl args s : Rows.kept s (emit (Console lvl args) s).
Proof. by apply rows_store. Qed.

Lemma rows_round s : Rows.kept s (next_round s).
Proof. by apply rows_store. Qed.

Lemma rows_db_initialized s : Rows.kept s (set_db_initialized true s).
Proof. by apply rows_store. Qed.

Lemma rows_taskQueue q s : Rows.kept s (set_agent (set_taskQueue q) s).
Proof. by apply rows_store. Qed.

Ltac rows_side :=
  lazymatch goal with
  | |- keeps _ _ => idtac
  | |- forall _, keeps _ _ => intros ?
  | |- forall _ _, keeps _ _ => intros ? ?
  | |- _ =>
      first [ exact rows_refl | exact rows_trans | exact rows_console
            | exact rows_round | exact rows_db_initialized | exact rows_taskQueue ]
  end.

Ltac rstep :=
  lazymatch goal with
  | |- keeps _ (mret _) => apply keeps_ret
  | |- keeps _ (throw _) => apply keeps_throw
  | |- keeps _ (ask _) => apply keeps_ask
  | |- keeps _ (gets _) => apply keeps_gets
  | |- keeps _ (console _ _) => apply keeps_console
  | |- keeps _ (prop _ _) => apply keeps_prop
  | |- keeps _ (asString _ _) => apply keeps_asString
  | |- keeps _ (substring0 _ _) => apply keeps_substring0
  | |- keeps _ (Db.unwrap _ _) => apply keeps_unwrap
  | |- keeps _ Db.initialize => apply keeps_Db_initialize
  | |- keeps _ Db.ensure_initialized => apply keeps_ensure_initialized
  | |- keeps _ Db.getUrlsToCheck => apply keeps_getUrlsToCheck
  | |- keeps _ Db.getDeploymentsToRun => apply keeps_getDeploymentsToRun
  | |- keeps _ Db.getRequestedFeatureRequests => apply keeps_getRequestedFeatureRequests
  | |- keeps _ Db.getPendingFeatureRequests => apply keeps_getPendingFeatureRequests
  | |- keeps _ OrchestrationAgent.loadTasksFromDatabase =>
      apply keeps_loadTasksFromDatabase
  | |- keeps _ (mbind _ _) => apply keeps_bind
  | |- keeps _ (try_catch _ _) => apply keeps_try_catch
  | |- keeps _ (fmap _ _) => apply keeps_fmap
  | |- keeps _ (OrchestrationAgent.with_database _ _) => apply keeps_with_database
  | |- keeps _ (OrchestrationAgent.with_developerAgent _ _) =>
      apply keeps_with_developerAgent
  | |- keeps _ (forOf _ _) => apply keeps_forOf
  | |- keeps _ (forOfAcc _ _ _) => apply keeps_forOfAcc
  | |- keeps _ (modify _) =>
      apply keeps_modify; intros ?; apply rows_store; reflexivity
  | |- keeps _ (if ?b then _ else _) => destruct b
  | |- keeps _ (match ?x with _ => _ end) => destruct x
  end; rows_side.

Lemma rows_update_feature id data :
  data !! "id" = None ->
  keeps Rows.kept (Pg.request (fun _ st =>
     let '(reply, tbl) := Pg.update_single (feature_requests st) id data in
     (reply, Pg.set_feature_requests tbl st))).
Proof.
  intros Hno env s. unfold Pg.request.
  destruct (db_failure env (db_round s)); cbn [snd]; [apply rows_round|].
  pose proof (ids_update_single (feature_requests (store s)) id data Hno) as Hids.
  destruct (Pg.update_single (feature_requests (store s)) id data) as [reply tbl].
  cbn [snd] in *. unfold Rows.kept, Rows.keeps_rows, Rows.same_rows. state_fields.
  cbn [Pg.set_feature_requests feature_requests monitored_urls
       orchestration_deployments github_repos developer_agent_logs].
  repeat split; [exact Hids|]. exists []. by rewrite app_nil_r.
Qed.

Lemma rows_update_url id data :
  data !! "id" = None ->
  keeps Rows.kept (Pg.request (fun _ st =>
     let '(reply, tbl) := Pg.update_single (monitored_urls st) id data in
     (reply, Pg.set_monitored_urls tbl st))).
Proof.
  intros Hno env s. unfold Pg.request.
  destruct (db_failure env (db_round s)); cbn [snd]; [apply rows_round|].
  pose proof (ids_update_single (monitored_urls (store s)) id data Hno) as Hids.
  destruct (Pg.update_single (monitored_urls (store s)) id data) as [reply tbl].
  cbn [snd] in *. unfold Rows.kept, Rows.keeps_rows, Rows.same_rows. state_fields.
  cbn [Pg.set_monitored_urls feature_requests monitored_urls
       orchestration_deployments github_repos developer_agent_logs].
  repeat split; [exact Hids|]. exists []. by rewrite app_nil_r.
Qed.

Lemma rows_insert_log row :
  keeps Rows.kept (Pg.request (fun now st =>
     let row' := row ∪ Pg.defaults now (serial st) in
     ({| data := Some row'; error := None |},
      Pg.next_serial
        (Pg.set_developer_agent_logs (developer_agent_logs st ++ [row']) st)))).
Proof.
  intros env s. unfold Pg.request.
  destruct (db_failure env (db_round s)); cbn [snd]; [apply rows_round|].
  unfold Rows.kept, Rows.keeps_rows, Rows.same_rows. state_fields.
  cbn [Pg.next_serial Pg.set_developer_agent_logs feature_requests monitored_urls
       orchestration_deployments github_repos developer_agent_logs].
  repeat split. by eexists.
Qed.

Lemma rows_updateFeatureRequestStatus id status metadata :
  keeps Rows.kept (Db.updateFeatureRequestStatus id status metadata).
Proof.
  unfold Db.updateFeatureRequestStatus.
  rstep; [rstep|]. rstep; [rstep|]. rstep; [rstep|].
  rstep; [apply rows_update_feature, status_update_no_id|].
  repeat rstep.
Qed.

Lemma rows_updateUrlCheckStatus urlId : keeps Rows.kept (Db.updateUrlCheckStatus urlId).
Proof.
  unfold Db.updateUrlCheckStatus.
  rstep; [rstep|]. rstep; [rstep|]. rstep; [rstep|].
  rstep; [apply rows_update_url; by simplify_map_eq|].
  repeat rstep.
Qed.

Lemma rows_updateDeploymentRun deploymentId success error :
  keeps Rows.kept (Db.updateDeploymentRun deploymentId success error).
Proof.
  unfold Db.updateDeploymentRun.
  rstep; [rstep|]. rstep; [rstep|]. apply keeps_raw; rows_side.
Qed.

Lemma rows_logDeveloperAgentInteraction interactionData :
  keeps Rows.kept (Db.logDeveloperAgentInteraction interactionData).
Proof.
  unfold Db.logDeveloperAgentInteraction.
  rstep; [rstep|]. rstep; [rstep|]. rstep; [rstep|].
  rstep; [apply rows_insert_log|].
  repeat rstep.
Qed.

Lemma rows_connect : keeps Rows.kept DeveloperAgentClient.connect.
Proof. unfold DeveloperAgentClient.connect. repeat rstep. Qed.

Lemma rows_implementFeature feature :
  keeps Rows.kept (DeveloperAgentClient.implementFeature feature).
Proof.
  unfold DeveloperAgentClient.implementFeature.
  rstep; [rstep|]. rstep; [rstep; [rstep | apply rows_connect]|].
  repeat rstep.
Qed.

Lemma rows_parseImplementationResponse response :
  keeps Rows.kept (DeveloperAgentClient.parseImplementationResponse response).
Proof. unfold DeveloperAgentClient.parseImplementationResponse. repeat rstep. Qed.

Lemma rows_implementOne count feature :
  keeps Rows.kept (OrchestrationAgent.implementOne count feature).
Proof.
  unfold OrchestrationAgent.implementOne, OrchestrationAgent.handleReply.
  repeat first
    [ rstep
    | lazymatch goal with
      | |- keeps _ (Db.updateFeatureRequestStatus _ _ _) =>
          apply rows_updateFeatureRequestStatus
      | |- keeps _ (Db.logDeveloperAgentInteraction _) =>
          apply rows_logDeveloperAgentInteraction
      | |- keeps _ (DeveloperAgentClient.implementFeature _) =>
          apply rows_implementFeature
      | |- keeps _ (DeveloperAgentClient.parseImplementationResponse _) =>
          apply rows_parseImplementationResponse
      end ].
Qed.

Lemma rows_processRequestedFeatureRequests :
  keeps Rows.kept OrchestrationAgent.processRequestedFeatureRequests.
Proof.
  unfold OrchestrationAgent.processRequestedFeatureRequests.
  repeat first
    [ rstep
    | lazymatch goal with
      | |- keeps _ (OrchestrationAgent.implementOne _ _) => apply rows_implementOne
      end ].
Qed.

Lemma rows_checkPendingFeatureRequests :
  keeps Rows.kept OrchestrationAgent.checkPendingFeatureRequests.
Proof.
  unfold OrchestrationAgent.checkPendingFeatureRequests.
  repeat first
    [ rstep
    | lazymatch goal with
      | |- keeps _ (OrchestrationAgent.checkOne _) =>
          unfold OrchestrationAgent.checkOne
      end ].
Qed.

Lemma rows_agent_initialize : keeps Rows.kept OrchestrationAgent.initialize.
Proof.
  unfold OrchestrationAgent.initialize.
  repeat first
    [ rstep
    | lazymatch goal with
      | |- keeps _ OrchestrationAgent.setupDefaultTasks =>
          unfold OrchestrationAgent.setupDefaultTasks
      end ].
Qed.

Lemma rows_getNextTask : keeps Rows.kept OrchestrationAgent.getNextTask.
Proof. unfold OrchestrationAgent.getNextTask. repeat rstep. Qed.

Lemma rows_sendToAgent message taskId :
  keeps Rows.kept (OrchestrationAgent.sendToAgent message taskId).
Proof. unfold OrchestrationAgent.sendToAgent. repeat rstep. Qed.

Lemma rows_updateDatabaseAfterExecution task result :
  keeps Rows.kept (OrchestrationAgent.updateDatabaseAfterExecution task result).
Proof.
  unfold OrchestrationAgent.updateDatabaseAfterExecution.
  repeat first
    [ rstep
    | lazymatch goal with
      | |- keeps _ (Db.updateUrlCheckStatus _) => apply rows_updateUrlCheckStatus
      | |- keeps _ (Db.updateDeploymentRun _ _ _) => apply rows_updateDeploymentRun
      end ].
Qed.

Lemma rows_lengthOf v : keeps Rows.kept (OrchestrationAgent.lengthOf v).
Proof. unfold OrchestrationAgent.lengthOf. repeat rstep. Qed.

Lemma rows_logInteraction result :
  keeps Rows.kept (OrchestrationAgent.logInteraction result).
Proof.
  unfold OrchestrationAgent.logInteraction.
  repeat first
    [ rstep
    | lazymatch goal with
      | |- keeps _ (OrchestrationAgent.lengthOf _) => apply rows_lengthOf
      end ].
Qed.

Lemma rows_processAgentResponse result :
  keeps Rows.kept (OrchestrationAgent.processAgentResponse result).
Proof. unfold OrchestrationAgent.processAgentResponse. repeat rstep. Qed.

Lemma rows_dispatch task : keeps Rows.kept (OrchestrationAgent.dispatch task).
Proof.
  unfold OrchestrationAgent.dispatch.
  repeat first
    [ rstep
    | lazymatch goal with
      | |- keeps _ (OrchestrationAgent.sendToAgent _ _) => apply rows_sendToAgent
      | |- keeps _ (OrchestrationAgent.updateDatabaseAfterExecution _ _) =>
          apply rows_updateDatabaseAfterExecution
      | |- keeps _ (OrchestrationAgent.logInteraction _) => apply rows_logInteraction
      | |- keeps _ (OrchestrationAgent.processAgentResponse _) =>
          apply rows_processAgentResponse
      end ].
Qed.

Lemma rows_select : keeps Rows.kept OrchestrationAgent.select.
Proof.
  unfold OrchestrationAgent.select.
  repeat first
    [ rstep
    | lazymatch goal with
      | |- keeps _ OrchestrationAgent.processRequestedFeatureRequests =>
          apply rows_processRequestedFeatureRequests
      | |- keeps _ OrchestrationAgent.checkPendingFeatureRequests =>
          apply rows_checkPendingFeatureRequests
      | |- keeps _ OrchestrationAgent.getNextTask => apply rows_getNextTask
      end ].
Qed.

Lemma rows_executeOrchestrationCycle :
  keeps Rows.kept OrchestrationAgent.executeOrchestrationCycle.
Proof.
  unfold OrchestrationAgent.executeOrchestrationCycle.
  repeat first
    [ rstep
    | lazymatch goal with
      | |- keeps _ OrchestrationAgent.initialize => apply rows_agent_initialize
      | |- keeps _ OrchestrationAgent.select => apply rows_select
      | |- keeps _ (OrchestrationAgent.dispatch _) => apply rows_dispatch
      end ].
Qed.

End RowsFrame.

(** A tick of the scheduler, whatever it selects and however its calls
    end, adds no feature request, monitored URL, deployment or
    repository and removes none: the ids of the three tables are the
    same, in the same order, the repositories are untouched, and the
    interaction log only grows at its end. *)
Theorem tick_keeps_the_rows env s :
  let s' := (OrchestrationAgent.executeOrchestrationCycle env s).2 in
  Rows.ids (feature_requests (store s')) = Rows.ids (feature_requests (store s)) /\
  Rows.ids (monitored_urls (store s')) = Rows.ids (monitored_urls (store s)) /\
  Rows.ids (orchestration_deployments (store s'))
  = Rows.ids (orchestration_deployments (store s)) /\
  github_repos (store s') = github_repos (store s) /\
  exists more,
    developer_agent_logs (store s') = developer_agent_logs (store s) ++ more.
Proof. exact (proj1 (rows_executeOrchestrationCycle env s)). Qed.

(** No tick of the scheduler changes a deployment by a request of its
    own to the store: whatever it selects and however its calls end,
    the table of deployments is afterwards what it was before, row by
    row and column by column.  In particular no run is ever counted or
    stamped, no error of a run is recorded, and a deployment that was
    due stays due. *)
Theorem tick_never_changes_a_deployment env s :
  let s' := (OrchestrationAgent.executeOrchestrationCycle env s).2 in
  orchestration_deployments (store s') = orchestration_deployments (store s) /\
  (forall t,
     filter (fun row => Is_true (Db.due t row)) (orchestration_deployments (store s'))
     = filter (fun row => Is_true (Db.due t row)) (orchestration_deployments (store s))).
Proof.
  cbv zeta.
  pose proof (proj2 (rows_executeOrchestrationCycle env s)) as H.
  split; [exact H | intros t; by rewrite H].
Qed.
